(** * rave-sync edge functions: request handlers over an external store

    A shallow embedding of the HTTP handlers under [supabase/functions]
    (events, lineups, artists, set-times, stages, group-schedules) and
    the properties their specification states about them.

    The handlers are TypeScript [async] functions that talk to two
    external collaborators: the authentication provider
    ([auth.getUser]) and the persistence store (the query builder
    returned by [supabaseClient.from]).  Each handler is embedded as a
    program in a small free monad whose effects are exactly those two
    calls; what the handler does with the answers is ordinary Rocq
    code.  A reference store interprets the queries where a property
    speaks about the rows that exist before and after a request. *)

From Stdlib Require Import String Ascii List ZArith Bool Lia DecimalString
  DecimalZ DecimalPos.
Import ListNotations.

Set Implicit Arguments.
Set Warnings "-register-all".

Local Open Scope string_scope.
Local Open Scope list_scope.

(* ================================================================== *)
(** * JavaScript built-ins used by the handlers                       *)
(* ================================================================== *)

Module JS.

(** [s.split('/')]: the pieces between the separators, so that a
    leading or trailing separator yields an empty piece. *)
Fixpoint split_slash (s : string) : list string :=
  match s with
  | EmptyString => [EmptyString]
  | String c rest =>
      if Ascii.eqb c "/"%char then EmptyString :: split_slash rest
      else match split_slash rest with
           | [] => [String c EmptyString]
           | piece :: pieces => String c piece :: pieces
           end
  end.

Fixpoint drop (n : nat) (s : string) : string :=
  match n, s with
  | O, _ => s
  | S n', String _ rest => drop n' rest
  | S _, EmptyString => EmptyString
  end.

(** [hay.includes(needle)] *)
Fixpoint includes (hay needle : string) : bool :=
  String.prefix needle hay ||
  match hay with
  | EmptyString => false
  | String _ rest => includes rest needle
  end.

(** [s.startsWith(p)] *)
Definition startsWith (s p : string) : bool := String.prefix p s.

(** [s.replace(pat, rep)] with a string pattern: only the first
    occurrence is replaced. *)
Fixpoint replace_first (pat rep s : string) : string :=
  if String.prefix pat s then rep ++ drop (String.length pat) s
  else match s with
       | EmptyString => EmptyString
       | String c rest => String c (replace_first pat rep rest)
       end.

(** ** Character classes *)

Definition is_digit (c : ascii) : bool :=
  let n := nat_of_ascii c in (48 <=? n)%nat && (n <=? 57)%nat.

Definition is_hex_digit (c : ascii) : bool :=
  let n := nat_of_ascii c in
  is_digit c || ((65 <=? n)%nat && (n <=? 70)%nat)
             || ((97 <=? n)%nat && (n <=? 102)%nat).

Definition is_octal_digit (c : ascii) : bool :=
  let n := nat_of_ascii c in (48 <=? n)%nat && (n <=? 55)%nat.

Definition is_binary_digit (c : ascii) : bool :=
  let n := nat_of_ascii c in (48 <=? n)%nat && (n <=? 49)%nat.

(** White space of the string-to-number grammar, restricted to the
    ASCII range: TAB, LF, VT, FF, CR and SPACE.  (A URL path name is
    ASCII, other characters arrive percent-encoded.) *)
Definition is_space (c : ascii) : bool :=
  let n := nat_of_ascii c in
  ((9 <=? n)%nat && (n <=? 13)%nat) || (n =? 32)%nat.

Fixpoint skip (p : ascii -> bool) (l : list ascii) : list ascii :=
  match l with
  | c :: rest => if p c then skip p rest else l
  | [] => []
  end.

Fixpoint take_while (p : ascii -> bool) (l : list ascii) : list ascii :=
  match l with
  | c :: rest => if p c then c :: take_while p rest else []
  | [] => []
  end.

Definition trim (l : list ascii) : list ascii :=
  rev (skip is_space (rev (skip is_space l))).

Definition all_chars (p : ascii -> bool) (l : list ascii) : bool :=
  forallb p l.

Definition nonempty {A} (l : list A) : bool :=
  match l with [] => false | _ => true end.

(** ** [Number(s)] is not [NaN]

    The grammar StringNumericLiteral of ECMA-262: optional white
    space around either nothing (the value is 0), a binary, octal or
    hexadecimal integer with its prefix and no sign, or an optionally
    signed decimal literal ([Infinity], digits with an optional
    fraction and exponent, or a fraction that starts with the dot). *)

Definition lower (c : ascii) : ascii :=
  let n := nat_of_ascii c in
  if (65 <=? n)%nat && (n <=? 90)%nat then ascii_of_nat (n + 32) else c.

(** ExponentPart, optional, followed by the end of the string. *)
Definition exponent_opt_then_end (l : list ascii) : bool :=
  match l with
  | [] => true
  | c :: rest =>
      if Ascii.eqb (lower c) "e"%char then
        let digits :=
          match rest with
          | s :: rest' =>
              if Ascii.eqb s "+"%char || Ascii.eqb s "-"%char
              then rest' else rest
          | [] => []
          end in
        nonempty digits && all_chars is_digit digits
      else false
  end.

Definition unsigned_decimal (l : list ascii) : bool :=
  if list_eq_dec ascii_dec l (list_ascii_of_string "Infinity") then true
  else
    let int_part := take_while is_digit l in
    let after_int := skip is_digit l in
    match after_int with
    | c :: rest =>
        if Ascii.eqb c "."%char then
          let frac := take_while is_digit rest in
          (nonempty int_part || nonempty frac)
          && exponent_opt_then_end (skip is_digit rest)
        else nonempty int_part && exponent_opt_then_end after_int
    | [] => nonempty int_part
    end.

Definition non_decimal_integer (l : list ascii) : bool :=
  match l with
  | z :: x :: digits =>
      Ascii.eqb z "0"%char && nonempty digits &&
      (let p := lower x in
       if Ascii.eqb p "x"%char then all_chars is_hex_digit digits
       else if Ascii.eqb p "o"%char then all_chars is_octal_digit digits
       else if Ascii.eqb p "b"%char then all_chars is_binary_digit digits
       else false)
  | _ => false
  end.

Definition str_numeric_literal (l : list ascii) : bool :=
  non_decimal_integer l ||
  match l with
  | c :: rest =>
      if Ascii.eqb c "+"%char || Ascii.eqb c "-"%char
      then unsigned_decimal rest
      else unsigned_decimal l
  | [] => false
  end.

(** [!isNaN(Number(s))] *)
Definition is_numeric (s : string) : bool :=
  match trim (list_ascii_of_string s) with
  | [] => true
  | l => str_numeric_literal l
  end.

(** [isNaN(Number(s))] *)
Definition isNaN_Number (s : string) : bool := negb (is_numeric s).

(** ** [parseInt(s)] without a radix

    Leading white space is skipped, a sign is read, a [0x] prefix
    selects base 16, and the longest prefix of digits is the value;
    [None] stands for [NaN].  The value is the integer the digits
    denote.  The engine returns the double nearest to it, which is
    that integer up to a magnitude of 2^53 and a rounded one beyond;
    the statements that depend on the value of a page or of a page
    size carry this bound ([Props.exact_in_doubles]). *)

Definition digit_value (c : ascii) : Z :=
  let n := Z.of_nat (nat_of_ascii c) in
  if is_digit c then (n - 48)%Z
  else if (97 <=? n)%Z then (n - 87)%Z
  else (n - 55)%Z.

Definition digits_value (radix : Z) (l : list ascii) : Z :=
  fold_left (fun acc c => (acc * radix + digit_value c)%Z) l 0%Z.

Definition parse_magnitude (l : list ascii) : option Z :=
  match l with
  | z :: x :: rest =>
      if Ascii.eqb z "0"%char && Ascii.eqb (lower x) "x"%char then
        let ds := take_while is_hex_digit rest in
        if nonempty ds then Some (digits_value 16 ds) else None
      else
        let ds := take_while is_digit l in
        if nonempty ds then Some (digits_value 10 ds) else None
  | _ =>
      let ds := take_while is_digit l in
      if nonempty ds then Some (digits_value 10 ds) else None
  end.

Definition parseInt (s : string) : option Z :=
  match skip is_space (list_ascii_of_string s) with
  | c :: rest =>
      if Ascii.eqb c "-"%char then option_map Z.opp (parse_magnitude rest)
      else if Ascii.eqb c "+"%char then parse_magnitude rest
      else parse_magnitude (c :: rest)
  | [] => None
  end.

(** ** Numbers

    The numbers the handlers compute with are page numbers, page
    sizes, row counts and offsets.  They are modelled as integers,
    with [None] for [NaN].  Sums, differences and products of
    doubles are the exact ones rounded, so JavaScript agrees with
    these definitions as long as the operands and the exact result
    have a magnitude of at most 2^53, and not beyond. *)

Definition num := option Z.

Definition num_sub (a b : num) : num :=
  match a, b with Some x, Some y => Some (x - y)%Z | _, _ => None end.

Definition num_add (a b : num) : num :=
  match a, b with Some x, Some y => Some (x + y)%Z | _, _ => None end.

Definition num_mul (a b : num) : num :=
  match a, b with Some x, Some y => Some (x * y)%Z | _, _ => None end.

(** The quotient of two integers rounded up: [Math.ceil(a / b)] for
    [b <> 0]. *)
Definition ceil_div (a b : Z) : Z := (- ((- a) / b))%Z.

(** [arr.slice(start, end)]: negative indices count from the end,
    [NaN] is 0, and both ends are clamped to the array. *)
Definition relative_index (len : Z) (i : num) : Z :=
  match i with
  | None => 0%Z
  | Some k => if (k <? 0)%Z then Z.max (len + k) 0 else Z.min k len
  end.

Definition slice {A} (l : list A) (start stop : num) : list A :=
  let len := Z.of_nat (List.length l) in
  let from := relative_index len start in
  let to := relative_index len stop in
  firstn (Z.to_nat (to - from)) (skipn (Z.to_nat from) l).

End JS.

(* ================================================================== *)
(** * JavaScript values                                               *)
(* ================================================================== *)

Module Json.

(** The values that travel through the handlers: request bodies,
    rows returned by the store, response bodies.  An object keeps its
    properties in insertion order. *)
Inductive value : Type :=
| VUndef
| VNull
| VBool (b : bool)
| VNum (z : Z)
| VNaN
| VInf (negative : bool)
| VStr (s : string)
| VArr (items : list value)
| VObj (fields : list (string * value)).

(** [!!v] *)
Definition truthy (v : value) : bool :=
  match v with
  | VUndef | VNull | VNaN => false
  | VBool b => b
  | VNum z => negb (z =? 0)%Z
  | VStr s => negb (String.eqb s "")
  | VInf _ | VArr _ | VObj _ => true
  end.

Definition of_num (n : JS.num) : value :=
  match n with Some z => VNum z | None => VNaN end.

Definition of_string_opt (s : option string) : value :=
  match s with Some x => VStr x | None => VNull end.

Fixpoint lookup (k : string) (fs : list (string * value)) : value :=
  match fs with
  | [] => VUndef
  | (k', v) :: rest => if String.eqb k k' then v else lookup k rest
  end.

(** [v.k] and [v[k]]: reading a property of [null] or [undefined]
    raises a TypeError ([None]); the handlers read own properties of
    objects only, so any other value has none. *)
Definition get_prop (v : value) (k : string) : option value :=
  match v with
  | VUndef | VNull => None
  | VObj fs => Some (lookup k fs)
  | _ => Some VUndef
  end.

Fixpoint remove (k : string) (fs : list (string * value))
  : list (string * value) :=
  match fs with
  | [] => []
  | (k', v) :: rest =>
      if String.eqb k k' then remove k rest else (k', v) :: remove k rest
  end.

(** [delete v.k] *)
Definition delete_prop (v : value) (k : string) : value :=
  match v with
  | VObj fs => VObj (remove k fs)
  | _ => v
  end.

(** Assignment of a property: an existing key keeps its place. *)
Fixpoint assign (k : string) (v : value) (fs : list (string * value))
  : list (string * value) :=
  match fs with
  | [] => [(k, v)]
  | (k', v') :: rest =>
      if String.eqb k k' then (k, v) :: rest else (k', v') :: assign k v rest
  end.

(** The own properties copied by [{...v}]; the values spread by the
    handlers are rows, and [null] or [undefined] spread to nothing. *)
Definition spread (v : value) : list (string * value) :=
  match v with
  | VObj fs => fs
  | _ => []
  end.

(** [Object.fromEntries]: later entries overwrite earlier ones. *)
Definition fromEntries (es : list (string * value)) : list (string * value) :=
  fold_left (fun acc e => assign (fst e) (snd e) acc) es [].

Definition string_of_Z (z : Z) : string :=
  DecimalString.NilZero.string_of_int (Z.to_int z).

(** [String(v)], as used for property keys and [toString()]. *)
Fixpoint to_string (v : value) : string :=
  match v with
  | VUndef => "undefined"
  | VNull => "null"
  | VBool true => "true"
  | VBool false => "false"
  | VNum z => string_of_Z z
  | VNaN => "NaN"
  | VInf true => "-Infinity"
  | VInf false => "Infinity"
  | VStr s => s
  | VArr items =>
      let item_string x :=
        match x with VUndef | VNull => "" | _ => to_string x end in
      String.concat "," (map item_string items)
  | VObj _ => "[object Object]"
  end.

(** [a === b] on values that come out of separate JSON documents:
    primitives compare by value, while two arrays or objects are
    never the same reference. *)
Definition strict_eq (a b : value) : bool :=
  match a, b with
  | VUndef, VUndef | VNull, VNull => true
  | VBool x, VBool y => Bool.eqb x y
  | VNum x, VNum y => (x =? y)%Z
  | VInf x, VInf y => Bool.eqb x y
  | VStr x, VStr y => String.eqb x y
  | _, _ => false
  end.

Definition is_primitive (v : value) : bool :=
  match v with
  | VArr _ | VObj _ => false
  | _ => true
  end.

(** SameValueZero, the key equality of [Map]: as [===] except that
    [NaN] equals itself. *)
Definition same_value_zero (a b : value) : bool :=
  match a, b with
  | VNaN, VNaN => true
  | _, _ => strict_eq a b
  end.

End Json.

(* ================================================================== *)
(** * Requests and responses                                          *)
(* ================================================================== *)

Module Http.
Import Json.

(** What [await req.json()] yields: the parsed body, or the
    exception it raises on a body that is not JSON. *)
Inductive JsonBody : Type :=
| BodyThrows (message : string)
| BodyJson (v : value).

(** The parts of a [Request] the handlers read. *)
Record Request : Type := {
  method : string;
  pathname : string;                          (* new URL(req.url).pathname *)
  searchParams : list (string * string);      (* url.searchParams *)
  authorization : option string;              (* headers.get("Authorization") *)
  x_api_key : option string;                  (* headers.get("x-api-key") *)
  json : JsonBody
}.

(** [new Response(JSON.stringify(body), { status })] *)
Record Response : Type := {
  status : Z;
  body : value
}.

(** [url.searchParams.get(name)] *)
Fixpoint param (name : string) (ps : list (string * string)) : option string :=
  match ps with
  | [] => None
  | (k, v) :: rest => if String.eqb k name then Some v else param name rest
  end.

(** [url.searchParams.get(name) || fallback] *)
Definition param_or (name fallback : string) (ps : list (string * string))
  : string :=
  match param name ps with
  | Some v => if String.eqb v "" then fallback else v
  | None => fallback
  end.

(** The response helpers, repeated verbatim at the top of every
    function file. *)
Definition error_body (message : string) : value :=
  VObj [("error", VStr message)].

Definition unauthorizedResponse : Response :=
  {| status := 401; body := error_body "Unauthorized" |}.

Definition badRequestResponse (message : string) : Response :=
  {| status := 400; body := error_body message |}.

Definition methodNotAllowedResponse : Response :=
  {| status := 405; body := error_body "Method not allowed" |}.

(** [serverErrorResponse(message = "Internal server error")]: the
    default applies when the argument is [undefined]. *)
Definition serverErrorResponse (message : option string) : Response :=
  {| status := 500;
     body := error_body
               (match message with
                | Some m => m
                | None => "Internal server error"
                end) |}.

(** [notFoundResponse(message)] of group-schedules, and the inline
    404 responses of the other files. *)
Definition notFoundResponse (message : string) : Response :=
  {| status := 404; body := error_body message |}.

Definition ok (b : value) : Response := {| status := 200; body := b |}.

Definition success_with (key : string) (data : value) : value :=
  VObj [("success", VBool true); (key, data)].

Definition success : value := VObj [("success", VBool true)].

End Http.

(* ================================================================== *)
(** * The two collaborators and the handler monad                     *)
(* ================================================================== *)

Module Supabase.
Import Json Http.

(** Which client a query goes through: the anonymous-key client, the
    service-role client, or [createAuthClient(token)]. *)
Inductive Client : Type :=
| AnonClient
| AdminClient
| AuthClient (token : string).

Inductive Filter : Type :=
| Eq (column : string) (v : value)
| Ilike (column pattern : string)
| Gte (column : string) (v : value)
| Lte (column : string) (v : value)
| In_ (column : string) (vs : list value).      (* .in(column, values) *)

(** [.select(cols, { count: "exact", head: true })], [.insert(rows)],
    [.update(changes)], [.delete()] *)
Inductive Action : Type :=
| Select (columns : string) (count_exact head : bool)
| Insert (rows : list value)
| Update (changes : value)
| Delete.

(** [.single()], [.maybeSingle()] or neither. *)
Inductive Cardinality : Type := Many | Single | MaybeSingle.

(** One awaited query-builder chain. *)
Record Query : Type := {
  client : Client;
  table : string;
  action : Action;
  returning : bool;                       (* .select() after a write *)
  filters : list Filter;
  order : list (string * bool);           (* column, ascending *)
  range : option (JS.num * JS.num);       (* .range(from, to) *)
  cardinality : Cardinality
}.

Record PgError : Type := {
  code : string;
  message : option string
}.

(** [{ data, error, count }] *)
Record Reply : Type := {
  data : value;
  error : option PgError;
  count : value
}.

(** [user.id] *)
Record User : Type := { user_id : string }.

(** [await client.auth.getUser(token)]: it raises, or it returns
    [{ data: { user }, error }]. *)
Inductive AuthReply : Type :=
| AuthThrows
| AuthReturns (failed : bool) (user : option User).

(** Programs: return, raise, or await one of the collaborators. *)
Inductive Prog (A : Type) : Type :=
| Ret (a : A)
| Throw (message : string)
| GetUser (token : string) (k : AuthReply -> Prog A)
| Ask (q : Query) (k : Reply -> Prog A).

Arguments Ret {A} a.
Arguments Throw {A} message.
Arguments GetUser {A} token k.
Arguments Ask {A} q k.

Fixpoint bind {A B} (p : Prog A) (f : A -> Prog B) : Prog B :=
  match p with
  | Ret a => f a
  | Throw m => Throw m
  | GetUser t k => GetUser t (fun r => bind (k r) f)
  | Ask q k => Ask q (fun r => bind (k r) f)
  end.

(** [try { p } catch (error) { return h(error.message) }] *)
Fixpoint try_catch {A} (p : Prog A) (h : string -> A) : Prog A :=
  match p with
  | Ret a => Ret a
  | Throw m => Ret (h m)
  | GetUser t k => GetUser t (fun r => try_catch (k r) h)
  | Ask q k => Ask q (fun r => try_catch (k r) h)
  end.

(** The [catch] block every handler ends with. *)
Definition guarded (p : Prog Response) : Prog Response :=
  try_catch p (fun m => serverErrorResponse (Some m)).

(** The text of an engine-raised TypeError is the engine's; the
    model records the expression that failed. *)
Definition type_error (what : string) : string :=
  "TypeError: " ++ what.

Definition failed (r : Reply) : bool :=
  match error r with Some _ => true | None => false end.

(** [error.message] of a reply in error. *)
Definition message_of (e : PgError) : option string := message e.

(** [await req.json()] *)
Definition read_json {A} (req : Request) (k : value -> Prog A) : Prog A :=
  match json req with
  | BodyThrows m => Throw m
  | BodyJson v => k v
  end.

(** [v.k], raising on [null] and [undefined]. *)
Definition field {A} (v : value) (k : string) (cont : value -> Prog A)
  : Prog A :=
  match get_prop v k with
  | Some x => cont x
  | None => Throw (type_error ("cannot read property " ++ k))
  end.

(** [v.map(f)] and friends need an array. *)
Definition array {A} (v : value) (what : string)
           (cont : list value -> Prog A) : Prog A :=
  match v with
  | VArr items => cont items
  | _ => Throw (type_error (what ++ " is not an array"))
  end.

(** Evaluate [f] on every item, left to right, stopping at the first
    TypeError. *)
Fixpoint traverse {X Y} (f : X -> option Y) (l : list X) : option (list Y) :=
  match l with
  | [] => Some []
  | x :: rest =>
      match f x with
      | None => None
      | Some y =>
          match traverse f rest with
          | None => None
          | Some ys => Some (y :: ys)
          end
      end
  end.

Definition each {A X Y} (f : X -> option Y) (l : list X) (what : string)
           (cont : list Y -> Prog A) : Prog A :=
  match traverse f l with
  | Some ys => cont ys
  | None => Throw (type_error ("cannot read property " ++ what))
  end.

(** [req.headers.get("Authorization")?.replace("Bearer ", "")] *)
Definition bearer_token (req : Request) : option string :=
  option_map (JS.replace_first "Bearer " "") (authorization req).

(** [getAuthenticatedUser] of group-schedules: the user and the
    token, or neither.  The [catch] inside it turns a raising
    provider into "no user". *)
Definition getAuthenticatedUserAndToken (req : Request)
  : Prog (option (User * string)) :=
  match bearer_token req with
  | None => Ret None
  | Some token =>
      if String.eqb token "" then Ret None
      else GetUser token (fun r =>
             match r with
             | AuthThrows => Ret None
             | AuthReturns true _ => Ret None
             | AuthReturns false None => Ret None
             | AuthReturns false (Some u) => Ret (Some (u, token))
             end)
  end.

(** [getAuthenticatedUser] of the other files: the user or [null]. *)
Definition getAuthenticatedUser (req : Request) : Prog (option User) :=
  match bearer_token req with
  | None => Ret None
  | Some token =>
      if String.eqb token "" then Ret None
      else GetUser token (fun r =>
             match r with
             | AuthThrows => Ret None
             | AuthReturns true _ => Ret None
             | AuthReturns false u => Ret u
             end)
  end.

(** [apiKeyHeader === API_KEY], the header being a string or [null]
    and the configured key a string or [undefined]. *)
Definition verifyApiKey (API_KEY : option string) (req : Request) : bool :=
  match x_api_key req, API_KEY with
  | Some h, Some k => String.eqb h k
  | _, _ => false
  end.

(** A query with no filter, order, range or cardinality yet. *)
Definition from (c : Client) (t : string) (a : Action) : Query :=
  {| client := c; table := t; action := a; returning := false;
     filters := []; order := []; range := None; cardinality := Many |}.

Definition where_ (q : Query) (f : Filter) : Query :=
  {| client := client q; table := table q; action := action q;
     returning := returning q; filters := filters q ++ [f];
     order := order q; range := range q; cardinality := cardinality q |}.

Definition where_if (q : Query) (cond : bool) (f : Filter) : Query :=
  if cond then where_ q f else q.

Definition order_by (q : Query) (column : string) (ascending : bool) : Query :=
  {| client := client q; table := table q; action := action q;
     returning := returning q; filters := filters q;
     order := order q ++ [(column, ascending)];
     range := range q; cardinality := cardinality q |}.

Definition with_range (q : Query) (a b : JS.num) : Query :=
  {| client := client q; table := table q; action := action q;
     returning := returning q; filters := filters q;
     order := order q; range := Some (a, b); cardinality := cardinality q |}.

Definition selecting (q : Query) : Query :=
  {| client := client q; table := table q; action := action q;
     returning := true; filters := filters q;
     order := order q; range := range q; cardinality := cardinality q |}.

Definition single (q : Query) : Query :=
  {| client := client q; table := table q; action := action q;
     returning := returning q; filters := filters q;
     order := order q; range := range q; cardinality := Single |}.

Definition maybeSingle (q : Query) : Query :=
  {| client := client q; table := table q; action := action q;
     returning := returning q; filters := filters q;
     order := order q; range := range q; cardinality := MaybeSingle |}.

(** ** Idioms the function files share *)

(** [if (!id)] fails for [null] and for the empty string. *)
Definition present (id : option string) : option string :=
  match id with
  | Some s => if String.eqb s "" then None else Some s
  | None => None
  end.

Definition is_present (id : option string) : bool :=
  match present id with Some _ => true | None => false end.

(** [v || fallback] *)
Definition one_of (v fallback : value) : value :=
  if truthy v then v else fallback.

(** [if (updates.k) delete updates.k] *)
Definition strip {A} (updates : value) (k : string)
           (cont : value -> Prog A) : Prog A :=
  field updates k (fun v =>
    cont (if truthy v then delete_prop updates k else updates)).

(** [if (error || !data)] *)
Definition missing (r : Reply) : bool :=
  failed r || negb (truthy (data r)).

(** [from(tbl).select(columns).eq("id", id).single()] through the
    anonymous-key client. *)
Definition exists_query (tbl : string) (columns : string) (id : value) : Query :=
  single (where_ (from AnonClient tbl (Select columns false false))
                 (Eq "id" id)).

(** The inline 409 response of a uniqueness conflict. *)
Definition conflictResponse (message : string) : Response :=
  {| status := 409; body := error_body message |}.

(** The [catch] of a main handler. *)
Definition main_guard (p : Prog Response) : Prog Response :=
  try_catch p (fun _ => serverErrorResponse (Some "Internal server error")).

(** A parent name, an ID, then the nested collection name, anywhere
    in the path: the loop [for (i = 0; i < pathParts.length - 2; i++)]. *)
Fixpoint scan_nested (is_parent : string -> bool) (child : string)
         (pathParts : list string) : option string :=
  match pathParts with
  | part :: ((id :: next :: _) as rest) =>
      if is_parent part && String.eqb next child then Some id
      else scan_nested is_parent child rest
  | _ => None
  end.

(** A collection name followed by a segment, anywhere in the path:
    the loop [for (i = 0; i < pathParts.length - 1; i++)]; the test
    sees the segment at [i] and the one at [i + 1]. *)
Fixpoint scan_after (accepts : string -> string -> bool)
         (pathParts : list string) : option string :=
  match pathParts with
  | part :: ((id :: _) as rest) =>
      if accepts part id then Some id else scan_after accepts rest
  | _ => None
  end.

(** ** Paging *)

(** [parseInt(url.searchParams.get('page') || '1')] *)
Definition page_of (req : Request) : JS.num :=
  JS.parseInt (param_or "page" "1" (searchParams req)).

(** [parseInt(url.searchParams.get('pageSize') || fallback)] *)
Definition pageSize_of (fallback : string) (req : Request) : JS.num :=
  JS.parseInt (param_or "pageSize" fallback (searchParams req)).

(** [(page - 1) * pageSize] *)
Definition startRange (page pageSize : JS.num) : JS.num :=
  JS.num_mul (JS.num_sub page (Some 1%Z)) pageSize.

(** [page * pageSize - 1] *)
Definition endRange (page pageSize : JS.num) : JS.num :=
  JS.num_sub (JS.num_mul page pageSize) (Some 1%Z).

(** [Math.ceil(totalCount / pageSize)] for an integer [totalCount]:
    a zero page size gives [Infinity], or [NaN] for 0/0. *)
Definition ceil_quotient (totalCount : Z) (pageSize : JS.num) : value :=
  match pageSize with
  | None => VNaN
  | Some 0%Z =>
      if (totalCount =? 0)%Z then VNaN else VInf (totalCount <? 0)%Z
  | Some p => VNum (JS.ceil_div totalCount p)
  end.

End Supabase.

Declare Scope prog_scope.
Delimit Scope prog_scope with prog.
Notation "'await' r <- q ; rest" :=
  (Supabase.Ask q (fun r => rest))
  (at level 10, r name, q at level 9, rest at level 200) : prog_scope.
Notation "'let!' x := 'prop' v k ; rest" :=
  (Supabase.field v k (fun x => rest))
  (at level 10, x name, v at level 9, k at level 9, rest at level 200)
  : prog_scope.
Notation "'auth!' x <- p ; rest" :=
  (Supabase.bind p (fun x => rest))
  (at level 10, x name, p at level 9, rest at level 200) : prog_scope.

(* ================================================================== *)
(** * supabase/functions/group-schedules/index.ts                     *)
(* ================================================================== *)

Module GroupSchedules.
Import Json Http Supabase.
Local Open Scope prog_scope.

(** Look for the "/group-schedules/:id" pattern; the segment has to
    be a valid ID and not another route. *)
Definition getGroupIdFromUrl (path : string) : option string :=
  scan_after
    (fun part id => String.eqb part "group-schedules"
                    && negb (String.eqb id "")
                    && negb (JS.isNaN_Number id))
    (JS.split_slash path).

(** [new Map(entries)]: a key keeps the position of its first
    insertion and the value of its last. *)
Fixpoint map_set (k v : value) (m : list (value * value))
  : list (value * value) :=
  match m with
  | [] => [(k, v)]
  | (k', v') :: rest =>
      if same_value_zero k k' then (k, v) :: rest
      else (k', v') :: map_set k v rest
  end.

Definition new_Map (entries : list (value * value)) : list (value * value) :=
  fold_left (fun m e => map_set (fst e) (snd e) m) entries [].

Definition Map_values (m : list (value * value)) : list value := map snd m.

Definition rls_violation (e : PgError) : bool :=
  match message e with
  | Some m => negb (String.eqb m "") && JS.includes m "row-level security"
  | None => false
  end.

Definition created_groups_query (c : Client) (u : User) : Query :=
  order_by
    (where_ (from c "group_schedules"
               (Select "*, events:event_id (id, name, image_url), members:group_members!group_id (id, user_id, is_admin, status)"
                       false false))
            (Eq "created_by" (VStr (user_id u))))
    "created_at" false.

Definition member_groups_query (c : Client) (u : User) : Query :=
  order_by
    (where_ (from c "group_members"
               (Select "group:group_id (*, events:event_id (id, name, image_url), members:group_members!group_id (id, user_id, is_admin, status))"
                       false false))
            (Eq "user_id" (VStr (user_id u))))
    "created_at" false.

(** [uniqueGroups]: the merged list keyed by [group.id]. *)
Definition uniqueGroups (allGroups : list value) (ids : list value)
  : list value :=
  Map_values (new_Map (combine ids allGroups)).

(** [group.event_id.toString() === eventId] *)
Definition event_matches (eventId : string) (g : value) : option bool :=
  match get_prop g "event_id" with
  | None | Some VUndef | Some VNull => None
  | Some e => Some (String.eqb (to_string e) eventId)
  end.

Definition keep {X} (flags : list bool) (l : list X) : list X :=
  map snd (filter fst (combine flags l)).

(** [filteredGroups]: the groups of the event when [event_id] is
    given; [None] when reading an [event_id] raises. *)
Definition filter_by_event (eventId : option string) (unique : list value)
  : option (list value) :=
  match present eventId with
  | None => Some unique
  | Some e => option_map (fun flags => keep flags unique)
                         (traverse (event_matches e) unique)
  end.

(** The page and the pagination record of the response. *)
Definition page_response (page pageSize : JS.num) (filteredGroups : list value)
  : Response :=
  let totalCount := Z.of_nat (List.length filteredGroups) in
  let paginatedGroups :=
    JS.slice filteredGroups (startRange page pageSize)
             (JS.num_add (endRange page pageSize) (Some 1%Z)) in
  ok (VObj [
    ("group_schedules", VArr paginatedGroups);
    ("pagination", VObj [
       ("page", of_num page);
       ("pageSize", of_num pageSize);
       ("totalCount", VNum totalCount);
       ("totalPages", ceil_quotient totalCount pageSize)])]).

(** What the list handler does once both queries have answered:
    merge, remove duplicates, filter, paginate. *)
Definition respond_with_groups (req : Request) (created member : value)
  : Prog Response :=
  array created "createdGroups" (fun createdGroups =>
  array member "memberGroups" (fun memberGroups =>
  each (fun item => get_prop item "group") memberGroups "group" (fun groups =>
  let allGroups := createdGroups ++ filter truthy groups in
  each (fun g => get_prop g "id") allGroups "id" (fun ids =>
  match filter_by_event (param "event_id" (searchParams req))
                        (uniqueGroups allGroups ids) with
  | None => Throw (type_error "cannot read property toString")
  | Some filteredGroups =>
      Ret (page_response (page_of req) (pageSize_of "20" req) filteredGroups)
  end)))).

(** Handler for GET /group-schedules *)
Definition handleListGroupSchedules (req : Request) : Prog Response :=
  guarded (
    auth! ut <- (getAuthenticatedUserAndToken req) ;
    match ut with
    | None => Ret unauthorizedResponse
    | Some (user, token) =>
      let supabaseClient := AuthClient token in
      await created <- (created_groups_query supabaseClient user) ;
      match error created with
      | Some e => Ret (serverErrorResponse (message e))
      | None =>
        await member <- (member_groups_query supabaseClient user) ;
        match error member with
        | Some e => Ret (serverErrorResponse (message e))
        | None => respond_with_groups req (data created) (data member)
        end
      end
    end).

Definition not_found_message : string :=
  "Group schedule not found or you don't have access".

(** Handler for GET /group-schedules/:id *)
Definition handleGetGroupSchedule (req : Request) : Prog Response :=
  guarded (
    auth! ut <- (getAuthenticatedUserAndToken req) ;
    match ut with
    | None => Ret unauthorizedResponse
    | Some (user, token) =>
      let supabaseClient := AuthClient token in
      match getGroupIdFromUrl (pathname req) with
      | None => Ret (badRequestResponse "Missing group ID")
      | Some groupId =>
        await isCreator <-
          (maybeSingle
             (where_ (where_ (from supabaseClient "group_schedules"
                                   (Select "*" false false))
                             (Eq "id" (VStr groupId)))
                     (Eq "created_by" (VStr (user_id user))))) ;
        match error isCreator with
        | Some e => Ret (serverErrorResponse (message e))
        | None =>
          let fetch (isMember : bool) : Prog Response :=
            if negb (truthy (data isCreator)) && negb isMember
            then Ret (notFoundResponse not_found_message)
            else
              await group <-
                (single
                   (where_ (from supabaseClient "group_schedules"
                              (Select "*, events:event_id (id, name, date_start, date_end, venue, city, country, image_url)"
                                      false false))
                           (Eq "id" (VStr groupId)))) ;
              match error group with
              | Some e => Ret (serverErrorResponse (message e))
              | None =>
                await members <-
                  (where_ (from supabaseClient "group_members"
                             (Select "id, user_id, is_admin, status, joined_at, created_at"
                                     false false))
                          (Eq "group_id" (VStr groupId))) ;
                match error members with
                | Some e => Ret (serverErrorResponse (message e))
                | None =>
                  Ret (ok (VObj (assign "members" (data members)
                                        (spread (data group)))))
                end
              end in
          if negb (truthy (data isCreator)) then
            await membership <-
              (maybeSingle
                 (where_ (where_ (from supabaseClient "group_members"
                                       (Select "*" false false))
                                 (Eq "group_id" (VStr groupId)))
                         (Eq "user_id" (VStr (user_id user))))) ;
            match error membership with
            | Some e => Ret (serverErrorResponse (message e))
            | None => fetch (truthy (data membership))
            end
          else fetch false
        end
      end
    end).

Section Clock.
(** [new Date().toISOString()] at the time of the request. *)
Variable now : string.

Definition rls_response (tbl suggestion : string) (e : PgError) : Response :=
  {| status := 403;
     body := VObj [
       ("error", VStr ("Row Level Security policy violation. Please verify your RLS policies for " ++ tbl ++ " table."));
       ("details", match message e with Some m => VStr m | None => VUndef end);
       ("suggestion", VStr suggestion)] |}.

Definition insert_group_query (c : Client) (name event_id : value) (u : User)
  : Query :=
  single (selecting (from c "group_schedules"
    (Insert [VObj [("name", name); ("event_id", event_id);
                   ("created_by", VStr (user_id u))]]))).

Definition insert_member_query (c : Client) (group_id : value) (u : User)
  : Query :=
  from c "group_members"
    (Insert [VObj [("group_id", group_id);
                   ("user_id", VStr (user_id u));
                   ("is_admin", VBool true);
                   ("status", VStr "accepted");
                   ("joined_at", VStr now)]]).

Definition delete_group_query (c : Client) (group_id : value) : Query :=
  where_ (from c "group_schedules" Delete) (Eq "id" group_id).

(** Handler for POST /group-schedules *)
Definition handleCreateGroupSchedule (req : Request) : Prog Response :=
  guarded (
    auth! ut <- (getAuthenticatedUserAndToken req) ;
    match ut with
    | None => Ret unauthorizedResponse
    | Some (user, token) =>
      let supabaseClient := AuthClient token in
      read_json req (fun body =>
      let! name := prop body "name" ;
      let! event_id := prop body "event_id" ;
      if negb (truthy name)
      then Ret (badRequestResponse "Missing required field: name")
      else if negb (truthy event_id)
      then Ret (badRequestResponse "Missing required field: event_id")
      else
        await group <- (insert_group_query supabaseClient name event_id user) ;
        match error group with
        | Some e =>
            if rls_violation e
            then Ret (rls_response "group_schedules"
                        "Make sure you have a policy allowing users to create groups with themselves as created_by." e)
            else Ret (serverErrorResponse (message e))
        | None =>
          let! group_id := prop (data group) "id" ;
          await member <- (insert_member_query supabaseClient group_id user) ;
          match error member with
          | Some e =>
              if rls_violation e
              then
                await cleanup <- (delete_group_query supabaseClient group_id) ;
                Ret (rls_response "group_members"
                       "Make sure you have a policy allowing the group creator to add themselves as a member." e)
              else
                await cleanup <- (delete_group_query supabaseClient group_id) ;
                Ret (serverErrorResponse (message e))
          | None =>
              Ret {| status := 201;
                     body := VObj [
                       ("success", VBool true);
                       ("group_schedule", data group);
                       ("message", VStr "Group and initial membership created successfully.")] |}
          end
        end)
    end).

End Clock.

Definition update_group_query (c : Client) (groupId : string) (updates : value)
  : Query :=
  single (selecting
    (where_ (from c "group_schedules" (Update updates))
            (Eq "id" (VStr groupId)))).

(** Handler for PUT /group-schedules/:id *)
Definition handleUpdateGroupSchedule (req : Request) : Prog Response :=
  guarded (
    auth! ut <- (getAuthenticatedUserAndToken req) ;
    match ut with
    | None => Ret unauthorizedResponse
    | Some (user, token) =>
      let supabaseClient := AuthClient token in
      match getGroupIdFromUrl (pathname req) with
      | None => Ret (badRequestResponse "Missing group ID")
      | Some groupId =>
        read_json req (fun updates =>
        strip updates "id" (fun updates =>
        strip updates "created_by" (fun updates =>
        await permissionCheck <-
          (maybeSingle
             (where_ (where_ (from supabaseClient "group_schedules"
                                   (Select "id, created_by" false false))
                             (Eq "id" (VStr groupId)))
                     (Eq "created_by" (VStr (user_id user))))) ;
        match error permissionCheck with
        | Some e => Ret (serverErrorResponse (message e))
        | None =>
          let update : Prog Response :=
            await updated <- (update_group_query supabaseClient groupId updates) ;
            match error updated with
            | Some e => Ret (serverErrorResponse (message e))
            | None => Ret (ok (success_with "group_schedule" (data updated)))
            end in
          if negb (truthy (data permissionCheck)) then
            await adminCheck <-
              (maybeSingle
                 (where_ (where_ (where_ (from supabaseClient "group_members"
                                               (Select "id" false false))
                                         (Eq "group_id" (VStr groupId)))
                                 (Eq "user_id" (VStr (user_id user))))
                         (Eq "is_admin" (VBool true)))) ;
            match error adminCheck with
            | Some e => Ret (serverErrorResponse (message e))
            | None =>
                if negb (truthy (data adminCheck))
                then Ret unauthorizedResponse
                else update
            end
          else update
        end)))
      end
    end).

(** Handler for DELETE /group-schedules/:id *)
Definition handleDeleteGroupSchedule (req : Request) : Prog Response :=
  guarded (
    auth! ut <- (getAuthenticatedUserAndToken req) ;
    match ut with
    | None => Ret unauthorizedResponse
    | Some (user, token) =>
      let supabaseClient := AuthClient token in
      match getGroupIdFromUrl (pathname req) with
      | None => Ret (badRequestResponse "Missing group ID")
      | Some groupId =>
        await permissionCheck <-
          (maybeSingle
             (where_ (where_ (from supabaseClient "group_schedules"
                                   (Select "id" false false))
                             (Eq "id" (VStr groupId)))
                     (Eq "created_by" (VStr (user_id user))))) ;
        match error permissionCheck with
        | Some e => Ret (serverErrorResponse (message e))
        | None =>
          if negb (truthy (data permissionCheck))
          then Ret unauthorizedResponse
          else
            await deleted <-
              (where_ (from supabaseClient "group_schedules" Delete)
                      (Eq "id" (VStr groupId))) ;
            match error deleted with
            | Some e => Ret (serverErrorResponse (message e))
            | None => Ret (ok success)
            end
        end
      end
    end).

(** Main handler *)
Definition serve (now : string) (req : Request) : Prog Response :=
  main_guard (
    let path := pathname req in
    let groupId := getGroupIdFromUrl path in
    let isBaseRoute :=
      String.eqb path "/group-schedules" || String.eqb path "/group-schedules/" in
    let isSpecificRoute :=
      match groupId with Some _ => true | None => false end in
    if isBaseRoute && String.eqb (method req) "GET"
    then handleListGroupSchedules req
    else if isBaseRoute && String.eqb (method req) "POST"
    then handleCreateGroupSchedule now req
    else if isSpecificRoute && String.eqb (method req) "GET"
    then handleGetGroupSchedule req
    else if isSpecificRoute && String.eqb (method req) "PUT"
    then handleUpdateGroupSchedule req
    else if isSpecificRoute && String.eqb (method req) "DELETE"
    then handleDeleteGroupSchedule req
    else Ret methodNotAllowedResponse).

End GroupSchedules.

(* ================================================================== *)
(** * supabase/functions/events/index.ts                              *)
(* ================================================================== *)

Module Events.
Import Json Http Supabase.
Local Open Scope prog_scope.

(** Expected format: /events/:id *)
Definition getEventIdFromUrl (path : string) : option string :=
  let pathParts := JS.split_slash path in
  if (3 <=? List.length pathParts)%nat then nth_error pathParts 2 else None.

Section Config.
(** [Deno.env.get("x-api-key")] *)
Variable API_KEY : option string.

(** Handler for POST /events *)
Definition handleCreateEvent (req : Request) : Prog Response :=
  if negb (verifyApiKey API_KEY req) then Ret unauthorizedResponse
  else guarded (
    read_json req (fun body =>
    let! name := prop body "name" ;
    let! date_start := prop body "date_start" ;
    let! date_end := prop body "date_end" ;
    let! venue := prop body "venue" ;
    let! city := prop body "city" ;
    let! country := prop body "country" ;
    let! featured := prop body "featured" ;
    let! details := prop body "details" ;
    let! image_url := prop body "image_url" ;
    if negb (truthy name) || negb (truthy date_start) || negb (truthy date_end)
    then Ret (badRequestResponse
                "Missing required fields: name, date_start, date_end")
    else
      await inserted <-
        (single (selecting (from AdminClient "events"
           (Insert [VObj [("name", name); ("date_start", date_start);
                          ("date_end", date_end); ("venue", venue);
                          ("city", city); ("country", country);
                          ("featured", featured); ("details", details);
                          ("image_url", image_url);
                          ("created_by", VNull)]])))) ;
      match error inserted with
      | Some e => Ret (serverErrorResponse (message e))
      | None => Ret (ok (success_with "event" (data inserted)))
      end)).

(** Handler for PUT /events/:id *)
Definition handleUpdateEvent (req : Request) : Prog Response :=
  if negb (verifyApiKey API_KEY req) then Ret unauthorizedResponse
  else guarded (
    match present (getEventIdFromUrl (pathname req)) with
    | None => Ret (badRequestResponse "Missing event ID")
    | Some eventId =>
      read_json req (fun updates =>
      strip updates "id" (fun updates =>
      strip updates "created_by" (fun updates =>
      await updated <-
        (single (selecting
           (where_ (from AdminClient "events" (Update updates))
                   (Eq "id" (VStr eventId))))) ;
      match error updated with
      | Some e => Ret (serverErrorResponse (message e))
      | None => Ret (ok (success_with "event" (data updated)))
      end)))
    end).

(** Handler for DELETE /events/:id *)
Definition handleDeleteEvent (req : Request) : Prog Response :=
  if negb (verifyApiKey API_KEY req) then Ret unauthorizedResponse
  else guarded (
    match present (getEventIdFromUrl (pathname req)) with
    | None => Ret (badRequestResponse "Missing event ID")
    | Some eventId =>
      await deleted <-
        (where_ (from AdminClient "events" Delete) (Eq "id" (VStr eventId))) ;
      match error deleted with
      | Some e => Ret (serverErrorResponse (message e))
      | None => Ret (ok success)
      end
    end).

End Config.

Definition list_events_query (req : Request) : Query :=
  let ps := searchParams req in
  let featured :=
    match param "featured" ps with
    | Some v => String.eqb v "true"
    | None => false
    end in
  let text name := match present (param name ps) with
                   | Some v => v | None => "" end in
  let given name := match present (param name ps) with
                    | Some _ => true | None => false end in
  let page := JS.parseInt (param_or "page" "1" ps) in
  let pageSize := JS.parseInt (param_or "pageSize" "10" ps) in
  let q0 := from AnonClient "events"
              (Select "id, name, date_start, date_end, venue, city, country, featured, details, image_url"
                      false false) in
  let q1 := where_if q0 featured (Eq "featured" (VBool true)) in
  let q2 := where_if q1 (given "search")
              (Ilike "name" ("%" ++ text "search" ++ "%")) in
  let q3 := where_if q2 (given "from") (Gte "date_start" (VStr (text "from"))) in
  let q4 := where_if q3 (given "to") (Lte "date_end" (VStr (text "to"))) in
  with_range q4 (startRange page pageSize)
                (endRange page pageSize).

Definition user_events_query (user : User) : Query :=
  where_ (from AnonClient "user_events" (Select "event_id" false false))
         (Eq "user_id" (VStr (user_id user))).

(** [{ ...event, has_user_event: userEventMap[event.id] || false }] *)
Definition enrich (userEventMap : list (string * value)) (event : value)
  : option value :=
  match get_prop event "id" with
  | None => None
  | Some id =>
      Some (VObj (assign "has_user_event"
                    (one_of (lookup (to_string id) userEventMap) (VBool false))
                    (spread event)))
  end.

(** Handler for GET /events *)
Definition handleListEvents (req : Request) : Prog Response :=
  guarded (
    auth! u <- (getAuthenticatedUser req) ;
    match u with
    | None => Ret unauthorizedResponse
    | Some user =>
      await events <- (list_events_query req) ;
      match error events with
      | Some e => Ret (serverErrorResponse (message e))
      | None =>
        await userEvents <- (user_events_query user) ;
        (* a failure here is logged and the handler goes on with no
           user events *)
        array (one_of (data userEvents) (VArr [])) "userEvents" (fun ues =>
        each (fun ue => get_prop ue "event_id") ues "event_id" (fun keys =>
        let userEventMap :=
          fromEntries (map (fun k => (to_string k, VBool true)) keys) in
        array (data events) "events" (fun evs =>
        each (enrich userEventMap) evs "id" (fun enrichedEvents =>
        Ret (ok (VArr enrichedEvents))))))
      end
    end).

(** Handler for GET /events/:id *)
Definition handleGetEvent (req : Request) : Prog Response :=
  guarded (
    auth! u <- (getAuthenticatedUser req) ;
    match u with
    | None => Ret unauthorizedResponse
    | Some user =>
      match present (getEventIdFromUrl (pathname req)) with
      | None => Ret (badRequestResponse "Missing event ID")
      | Some eventId =>
        await event <-
          (single (where_ (from AnonClient "events" (Select "*" false false))
                          (Eq "id" (VStr eventId)))) ;
        match error event with
        | Some e => Ret (serverErrorResponse (message e))
        | None =>
          if negb (truthy (data event))
          then Ret (notFoundResponse "Event not found")
          else
            await userEvent <-
              (maybeSingle
                 (where_ (where_ (from AnonClient "user_events"
                                       (Select "*" false false))
                                 (Eq "event_id" (VStr eventId)))
                         (Eq "user_id" (VStr (user_id user))))) ;
            (* a failure here is logged and the handler goes on *)
            Ret (ok (VObj (assign "has_user_event"
                             (VBool (truthy (data userEvent)))
                             (spread (data event)))))
        end
      end
    end).

(** [path.replace(/^\/functions\/v1/, '')] *)
Definition normalize (path : string) : string :=
  if JS.startsWith path "/functions/v1"
  then JS.drop (String.length "/functions/v1") path
  else path.

(** [new URL(`http://localhost${normalizedPath}`).pathname], or
    [None] where the constructor raises.  What is left of the path
    name of the request once the prefix is gone is empty, and then
    the path name of the new URL is the root; or it starts with a
    slash, and then it is made of segments of the path name of the
    request, which the URL parser has normalised already, and is the
    path name of the new URL as it stands; or it starts with another
    character and runs on from [localhost] into the host and the
    port of the new URL (as in [/functions/v1:80/events/7] or
    [/functions/v1:abc]).  The grammar of hosts and ports of the URL
    standard is not modelled: [host_suffix] stands for the
    constructor on such a remainder. *)
Definition localhost_pathname (host_suffix : string -> option string)
           (normalizedPath : string) : option string :=
  if String.eqb normalizedPath "" then Some "/"
  else if JS.startsWith normalizedPath "/" then Some normalizedPath
  else host_suffix normalizedPath.

(** Main handler *)
Definition serve (API_KEY : option string)
           (host_suffix : string -> option string) (req : Request)
  : Prog Response :=
  main_guard (
    let normalizedPath := normalize (pathname req) in
    match localhost_pathname host_suffix normalizedPath with
    | None => Throw (type_error "Invalid URL")
    | Some reparsed =>
      let eventId := getEventIdFromUrl reparsed in
      let m := method req in
      if String.eqb normalizedPath "/events"
         || String.eqb normalizedPath "/events/"
      then
        if String.eqb m "POST" then handleCreateEvent API_KEY req
        else if String.eqb m "GET" then handleListEvents req
        else Ret methodNotAllowedResponse
      else if JS.startsWith normalizedPath "/events/"
              && is_present eventId
      then
        if String.eqb m "GET" then handleGetEvent req
        else if String.eqb m "PUT" then handleUpdateEvent API_KEY req
        else if String.eqb m "DELETE" then handleDeleteEvent API_KEY req
        else Ret methodNotAllowedResponse
      else Ret methodNotAllowedResponse
    end).

End Events.

(* ================================================================== *)
(** * supabase/functions/lineups/index.ts                             *)
(* ================================================================== *)

Module Lineups.
Import Json Http Supabase.
Local Open Scope prog_scope.

Definition getEventIdFromUrl (path : string) : option string :=
  scan_nested (fun p => String.eqb p "events" || String.eqb p "lineups")
              "lineup" (JS.split_slash path).

Definition getLineupEntryIdFromUrl (path : string) : option string :=
  scan_after (fun p _ => String.eqb p "lineups") (JS.split_slash path).

Definition insert_lineup_query
           (event_id artist_id is_headliner tier announcement_date : value)
  : Query :=
  single (selecting (from AnonClient "lineups"
    (Insert [VObj [("event_id", event_id); ("artist_id", artist_id);
                   ("is_headliner", is_headliner); ("tier", tier);
                   ("announcement_date", announcement_date)]]))).

(** Handler for POST /lineups *)
Definition handleAddLineupEntry (req : Request) : Prog Response :=
  guarded (
    auth! u <- (getAuthenticatedUser req) ;
    match u with
    | None => Ret unauthorizedResponse
    | Some user =>
      read_json req (fun body =>
      let! event_id := prop body "event_id" ;
      let! artist_id := prop body "artist_id" ;
      let! is_headliner := prop body "is_headliner" ;
      let! tier := prop body "tier" ;
      let! announcement_date := prop body "announcement_date" ;
      if negb (truthy event_id) || negb (truthy artist_id)
      then Ret (badRequestResponse "Missing required fields: event_id, artist_id")
      else
        await event <- (exists_query "events" "id" event_id) ;
        if missing event
        then Ret (notFoundResponse "Event not found or access denied")
        else
          await artist <- (exists_query "artists" "id" artist_id) ;
          if missing artist
          then Ret (notFoundResponse "Artist not found")
          else
            await inserted <-
              (insert_lineup_query event_id artist_id is_headliner tier
                                   announcement_date) ;
            match error inserted with
            | Some e =>
                if String.eqb (code e) "23505"
                then Ret (conflictResponse
                            "This artist is already in the lineup for this event")
                else Ret (serverErrorResponse (message e))
            | None => Ret (ok (success_with "entry" (data inserted)))
            end)
    end).

(** Handler for GET /events/:eventId/lineup *)
Definition handleListLineup (req : Request) : Prog Response :=
  guarded (
    auth! u <- (getAuthenticatedUser req) ;
    match u with
    | None => Ret unauthorizedResponse
    | Some user =>
      match present (getEventIdFromUrl (pathname req)) with
      | None => Ret (badRequestResponse "Missing event ID")
      | Some eventId =>
        await event <- (exists_query "events" "id" (VStr eventId)) ;
        if missing event
        then Ret (notFoundResponse "Event not found or access denied")
        else
          await lineup <-
            (order_by
               (order_by
                  (where_ (from AnonClient "lineups"
                             (Select "id, event_id, artist_id, is_headliner, tier, announcement_date, artists:artist_id (id, name, spotify_id, image_url)"
                                     false false))
                          (Eq "event_id" (VStr eventId)))
                  "tier" true)
               "is_headliner" false) ;
          match error lineup with
          | Some e => Ret (serverErrorResponse (message e))
          | None => Ret (ok (data lineup))
          end
      end
    end).

(** Handler for DELETE /lineups/:entryId *)
Definition handleRemoveLineupEntry (req : Request) : Prog Response :=
  guarded (
    auth! u <- (getAuthenticatedUser req) ;
    match u with
    | None => Ret unauthorizedResponse
    | Some user =>
      match present (getLineupEntryIdFromUrl (pathname req)) with
      | None => Ret (badRequestResponse "Missing lineup entry ID")
      | Some entryId =>
        await entry <- (exists_query "lineups" "id, event_id" (VStr entryId)) ;
        if missing entry
        then Ret (notFoundResponse "Lineup entry not found")
        else
          let! event_id := prop (data entry) "event_id" ;
          await event <- (exists_query "events" "id" event_id) ;
          if missing event
          then Ret unauthorizedResponse
          else
            await deleted <-
              (where_ (from AnonClient "lineups" Delete)
                      (Eq "id" (VStr entryId))) ;
            match error deleted with
            | Some e => Ret (serverErrorResponse (message e))
            | None => Ret (ok success)
            end
      end
    end).

(** Main handler *)
Definition serve (req : Request) : Prog Response :=
  main_guard (
    let path := pathname req in
    let m := method req in
    let eventId := getEventIdFromUrl path in
    let entryId := getLineupEntryIdFromUrl path in
    let isEventLineupRoute := JS.includes path "/lineup" && is_present eventId in
    let isLineupPostRoute :=
      String.eqb path "/lineups" || String.eqb path "/lineups/" in
    let isLineupEntryRoute := JS.includes path "/lineups/" && is_present entryId in
    if isLineupPostRoute && String.eqb m "POST" then handleAddLineupEntry req
    else if isEventLineupRoute && String.eqb m "GET" then handleListLineup req
    else if isLineupEntryRoute && String.eqb m "DELETE"
    then handleRemoveLineupEntry req
    else Ret methodNotAllowedResponse).

End Lineups.

(* ================================================================== *)
(** * supabase/functions/artists/index.ts                             *)
(* ================================================================== *)

Module Artists.
Import Json Http Supabase.
Local Open Scope prog_scope.

(** Look for the "/artists/:id" pattern; the segment has to be a
    valid ID and not another route. *)
Definition getArtistIdFromUrl (path : string) : option string :=
  scan_after
    (fun part id => String.eqb part "artists"
                    && negb (String.eqb id "")
                    && negb (JS.isNaN_Number id))
    (JS.split_slash path).

(** Handler for POST /artists *)
Definition handleCreateArtist (req : Request) : Prog Response :=
  guarded (
    auth! u <- (getAuthenticatedUser req) ;
    match u with
    | None => Ret unauthorizedResponse
    | Some user =>
      read_json req (fun body =>
      let! name := prop body "name" ;
      let! spotify_id := prop body "spotify_id" ;
      let! spotify_url := prop body "spotify_url" ;
      let! followers := prop body "followers" ;
      let! genres := prop body "genres" ;
      let! popularity := prop body "popularity" ;
      let! image_url := prop body "image_url" ;
      let! top_tracks := prop body "top_tracks" ;
      let! related_artists := prop body "related_artists" ;
      if negb (truthy name)
      then Ret (badRequestResponse "Missing required field: name")
      else
        await inserted <-
          (single (selecting (from AnonClient "artists"
             (Insert [VObj [("name", name); ("spotify_id", spotify_id);
                            ("spotify_url", spotify_url);
                            ("followers", followers); ("genres", genres);
                            ("popularity", popularity);
                            ("image_url", image_url);
                            ("top_tracks", top_tracks);
                            ("related_artists", related_artists)]])))) ;
        match error inserted with
        | Some e => Ret (serverErrorResponse (message e))
        | None => Ret {| status := 201;
                         body := success_with "artist" (data inserted) |}
        end)
    end).

(** The search filter of the list and of its count. *)
Definition search_filter (req : Request) (q : Query) : Query :=
  match present (param "search" (searchParams req)) with
  | Some search => where_ q (Ilike "name" ("%" ++ search ++ "%"))
  | None => q
  end.

Definition count_artists_query (req : Request) : Query :=
  search_filter req (from AnonClient "artists" (Select "id" true true)).

Definition list_artists_query (req : Request) : Query :=
  order_by
    (with_range
       (search_filter req (from AnonClient "artists" (Select "*" false false)))
       (startRange (page_of req) (pageSize_of "20" req))
       (endRange (page_of req) (pageSize_of "20" req)))
    "name" true.

(** [totalCount ? Math.ceil(totalCount / pageSize) : 0]; the count
    of a reply is a number or [null]. *)
Definition totalPages (totalCount : value) (pageSize : JS.num) : value :=
  if truthy totalCount then
    match totalCount with
    | VNum n => ceil_quotient n pageSize
    | _ => VNaN
    end
  else VNum 0.

(** Handler for GET /artists *)
Definition handleListArtists (req : Request) : Prog Response :=
  guarded (
    auth! u <- (getAuthenticatedUser req) ;
    match u with
    | None => Ret unauthorizedResponse
    | Some user =>
      await counted <- (count_artists_query req) ;
      match error counted with
      | Some e => Ret (serverErrorResponse (message e))
      | None =>
        let totalCount := count counted in
        await listed <- (list_artists_query req) ;
        match error listed with
        | Some e => Ret (serverErrorResponse (message e))
        | None =>
          Ret (ok (VObj [
            ("artists", data listed);
            ("pagination", VObj [
               ("page", of_num (page_of req));
               ("pageSize", of_num (pageSize_of "20" req));
               ("totalCount", one_of totalCount (VNum 0));
               ("totalPages", totalPages totalCount (pageSize_of "20" req))])]))
        end
      end
    end).

Definition artist_query (c : Client) (columns artistId : string) : Query :=
  single (where_ (from c "artists" (Select columns false false))
                 (Eq "id" (VStr artistId))).

(** The answer to a failed look-up of one artist. *)
Definition lookup_failure (e : PgError) : Response :=
  if String.eqb (code e) "PGRST116"
  then notFoundResponse "Artist not found"
  else serverErrorResponse (message e).

(** Handler for GET /artists/:id *)
Definition handleGetArtist (req : Request) : Prog Response :=
  guarded (
    auth! u <- (getAuthenticatedUser req) ;
    match u with
    | None => Ret unauthorizedResponse
    | Some user =>
      match getArtistIdFromUrl (pathname req) with
      | None => Ret (badRequestResponse "Missing artist ID")
      | Some artistId =>
        await artist <- (artist_query AnonClient "*" artistId) ;
        match error artist with
        | Some e => Ret (lookup_failure e)
        | None => Ret (ok (data artist))
        end
      end
    end).

(** Handler for PUT /artists/:id *)
Definition handleUpdateArtist (req : Request) : Prog Response :=
  guarded (
    auth! u <- (getAuthenticatedUser req) ;
    match u with
    | None => Ret unauthorizedResponse
    | Some user =>
      match getArtistIdFromUrl (pathname req) with
      | None => Ret (badRequestResponse "Missing artist ID")
      | Some artistId =>
        read_json req (fun updates =>
        strip updates "id" (fun updates =>
        await existingArtist <- (artist_query AnonClient "id" artistId) ;
        match error existingArtist with
        | Some e => Ret (lookup_failure e)
        | None =>
          await updated <-
            (single (selecting
               (where_ (from AnonClient "artists" (Update updates))
                       (Eq "id" (VStr artistId))))) ;
          match error updated with
          | Some e => Ret (serverErrorResponse (message e))
          | None => Ret (ok (success_with "artist" (data updated)))
          end
        end))
      end
    end).

Definition dependency_query (tbl artistId : string) : Query :=
  where_ (from AdminClient tbl (Select "*" true true))
         (Eq "artist_id" (VStr artistId)).

(** [count && count > 0] *)
Definition positive (c : value) : bool :=
  match c with
  | VNum n => (0 <? n)%Z
  | VInf negative => negb negative
  | _ => false
  end.

Definition blockedResponse (message key : string) (c : value) : Response :=
  {| status := 409;
     body := VObj [("error", VStr message);
                   ("dependencies", VObj [(key, c)])] |}.

Definition delete_artist_query (artistId : string) : Query :=
  where_ (from AdminClient "artists" Delete) (Eq "id" (VStr artistId)).

Section Config.
(** [Deno.env.get("x-api-key")] *)
Variable API_KEY : option string.

(** Handler for DELETE /artists/:id *)
Definition handleDeleteArtist (req : Request) : Prog Response :=
  guarded (
    if negb (verifyApiKey API_KEY req) then Ret unauthorizedResponse
    else
      match getArtistIdFromUrl (pathname req) with
      | None => Ret (badRequestResponse "Missing artist ID")
      | Some artistId =>
        await existingArtist <- (artist_query AdminClient "id" artistId) ;
        match error existingArtist with
        | Some e => Ret (lookup_failure e)
        | None =>
          await lineups <- (dependency_query "lineups" artistId) ;
          match error lineups with
          | Some e => Ret (serverErrorResponse (message e))
          | None =>
            if positive (count lineups)
            then Ret (blockedResponse
                        "Cannot delete artist with existing lineup entries"
                        "lineups" (count lineups))
            else
              await setTimes <- (dependency_query "set_times" artistId) ;
              match error setTimes with
              | Some e => Ret (serverErrorResponse (message e))
              | None =>
                if positive (count setTimes)
                then Ret (blockedResponse
                            "Cannot delete artist with existing set times"
                            "set_times" (count setTimes))
                else
                  await collabs <-
                    (dependency_query "artist_collaborations" artistId) ;
                  match error collabs with
                  | Some e => Ret (serverErrorResponse (message e))
                  | None =>
                    if positive (count collabs)
                    then Ret (blockedResponse
                                "Cannot delete artist with existing collaborations"
                                "collaborations" (count collabs))
                    else
                      await deleted <- (delete_artist_query artistId) ;
                      match error deleted with
                      | Some e => Ret (serverErrorResponse (message e))
                      | None => Ret (ok success)
                      end
                  end
              end
          end
        end
      end).

(** Main handler *)
Definition serve (req : Request) : Prog Response :=
  main_guard (
    let path := pathname req in
    let m := method req in
    let artistId := getArtistIdFromUrl path in
    let isArtistsBaseRoute :=
      String.eqb path "/artists" || String.eqb path "/artists/" in
    let isArtistSpecificRoute :=
      match artistId with Some _ => true | None => false end in
    if isArtistsBaseRoute && String.eqb m "POST" then handleCreateArtist req
    else if isArtistsBaseRoute && String.eqb m "GET" then handleListArtists req
    else if isArtistSpecificRoute && String.eqb m "GET" then handleGetArtist req
    else if isArtistSpecificRoute && String.eqb m "PUT"
    then handleUpdateArtist req
    else if isArtistSpecificRoute && String.eqb m "DELETE"
    then handleDeleteArtist req
    else Ret methodNotAllowedResponse).

End Config.

End Artists.

(* ================================================================== *)
(** * supabase/functions/stages/index.ts                              *)
(* ================================================================== *)

Module Stages.
Import Json Http Supabase.
Local Open Scope prog_scope.

Definition getEventIdFromUrl (path : string) : option string :=
  scan_nested (fun p => String.eqb p "events") "stages"
                      (JS.split_slash path).

Definition getStageIdFromUrl (path : string) : option string :=
  scan_after
    (fun part id => String.eqb part "stages" && negb (String.eqb id "events"))
    (JS.split_slash path).

Definition stage_query (stageId : value) : Query :=
  exists_query "stages" "id, event_id" stageId.

Section Conversion.
(** [Number(eventId)]: the handler only forwards the result to the
    store as the new row's [event_id]. *)
Variable Number : string -> value.

(** Handler for POST /events/:eventId/stages *)
Definition handleCreateStage (req : Request) : Prog Response :=
  guarded (
    auth! u <- (getAuthenticatedUser req) ;
    match u with
    | None => Ret unauthorizedResponse
    | Some user =>
      match present (getEventIdFromUrl (pathname req)) with
      | None => Ret (badRequestResponse "Missing event ID")
      | Some eventId =>
        read_json req (fun body =>
        let! name := prop body "name" ;
        let! description := prop body "description" ;
        if negb (truthy name) then Ret (badRequestResponse "Name is required")
        else
          await event <- (exists_query "events" "id" (VStr eventId)) ;
          if missing event
          then Ret (notFoundResponse "Event not found or access denied")
          else
            await inserted <-
              (single (selecting (from AnonClient "stages"
                 (Insert [VObj [("name", name);
                                ("event_id", Number eventId);
                                ("description", description)]])))) ;
            match error inserted with
            | Some e => Ret (serverErrorResponse (message e))
            | None => Ret (ok (success_with "stage" (data inserted)))
            end)
      end
    end).
End Conversion.

(** Handler for GET /events/:eventId/stages *)
Definition handleListStages (req : Request) : Prog Response :=
  guarded (
    auth! u <- (getAuthenticatedUser req) ;
    match u with
    | None => Ret unauthorizedResponse
    | Some user =>
      match present (getEventIdFromUrl (pathname req)) with
      | None => Ret (badRequestResponse "Missing event ID")
      | Some eventId =>
        await event <- (exists_query "events" "id" (VStr eventId)) ;
        if missing event
        then Ret (notFoundResponse "Event not found or access denied")
        else
          await stages <-
            (order_by
               (where_ (from AnonClient "stages" (Select "*" false false))
                       (Eq "event_id" (VStr eventId)))
               "name" true) ;
          match error stages with
          | Some e => Ret (serverErrorResponse (message e))
          | None => Ret (ok (data stages))
          end
      end
    end).

(** Handler for PUT /stages/:stageId *)
Definition handleUpdateStage (req : Request) : Prog Response :=
  guarded (
    auth! u <- (getAuthenticatedUser req) ;
    match u with
    | None => Ret unauthorizedResponse
    | Some user =>
      match present (getStageIdFromUrl (pathname req)) with
      | None => Ret (badRequestResponse "Missing stage ID")
      | Some stageId =>
        read_json req (fun updates =>
        strip updates "id" (fun updates =>
        strip updates "event_id" (fun updates =>
        await stage <- (stage_query (VStr stageId)) ;
        if missing stage
        then Ret (notFoundResponse "Stage not found")
        else
          let! event_id := prop (data stage) "event_id" ;
          await event <- (exists_query "events" "id" event_id) ;
          if missing event
          then Ret unauthorizedResponse
          else
            await updated <-
              (single (selecting
                 (where_ (from AnonClient "stages" (Update updates))
                         (Eq "id" (VStr stageId))))) ;
            match error updated with
            | Some e => Ret (serverErrorResponse (message e))
            | None => Ret (ok (success_with "stage" (data updated)))
            end)))
      end
    end).

(** Handler for DELETE /stages/:stageId *)
Definition handleDeleteStage (req : Request) : Prog Response :=
  guarded (
    auth! u <- (getAuthenticatedUser req) ;
    match u with
    | None => Ret unauthorizedResponse
    | Some user =>
      match present (getStageIdFromUrl (pathname req)) with
      | None => Ret (badRequestResponse "Missing stage ID")
      | Some stageId =>
        await stage <- (stage_query (VStr stageId)) ;
        if missing stage
        then Ret (notFoundResponse "Stage not found")
        else
          let! event_id := prop (data stage) "event_id" ;
          await event <- (exists_query "events" "id" event_id) ;
          if missing event
          then Ret unauthorizedResponse
          else
            await deleted <-
              (where_ (from AnonClient "stages" Delete)
                      (Eq "id" (VStr stageId))) ;
            match error deleted with
            | Some e => Ret (serverErrorResponse (message e))
            | None => Ret (ok success)
            end
      end
    end).

(** Main handler *)
Definition serve (Number : string -> value) (req : Request) : Prog Response :=
  main_guard (
    let path := pathname req in
    let m := method req in
    if is_present (getEventIdFromUrl path) then
      if String.eqb m "POST" then handleCreateStage Number req
      else if String.eqb m "GET" then handleListStages req
      else Ret methodNotAllowedResponse
    else if is_present (getStageIdFromUrl path) then
      if String.eqb m "PUT" then handleUpdateStage req
      else if String.eqb m "DELETE" then handleDeleteStage req
      else Ret methodNotAllowedResponse
    else Ret methodNotAllowedResponse).

End Stages.

(* ================================================================== *)
(** * supabase/functions/set-times/index.ts                           *)
(* ================================================================== *)

Module SetTimes.
Import Json Http Supabase.
Local Open Scope prog_scope.

Definition getEventIdFromUrl (path : string) : option string :=
  scan_nested
    (fun p => String.eqb p "events" || String.eqb p "set-times")
    "schedule" (JS.split_slash path).

Definition getSetTimeIdFromUrl (path : string) : option string :=
  scan_after
    (fun p _ => String.eqb p "set_times" || String.eqb p "set-times")
    (JS.split_slash path).

Definition getCollaborationIdFromUrl (path : string) : option string :=
  scan_after
    (fun p _ => String.eqb p "artist_collaborations")
    (JS.split_slash path).

Definition set_time_query (columns : string) (id : value) : Query :=
  exists_query "set_times" columns id.

Definition stage_event_query (stage_id : value) : Query :=
  exists_query "stages" "event_id" stage_id.

(** The walk from a stage to its event that the write handlers
    share: the stage has to be found (500 otherwise) and the event
    has to be visible (401 otherwise). *)
Definition through_stage (stage_id : value) (cont : Prog Response)
  : Prog Response :=
  await stage <- (stage_event_query stage_id) ;
  if missing stage
  then Ret (serverErrorResponse (Some "Error retrieving stage information"))
  else
    let! event_id := prop (data stage) "event_id" ;
    await event <- (exists_query "events" "id" event_id) ;
    if missing event then Ret unauthorizedResponse else cont.

(** Handler for POST /set_times *)
Definition handleCreateSetTime (req : Request) : Prog Response :=
  guarded (
    auth! u <- (getAuthenticatedUser req) ;
    match u with
    | None => Ret unauthorizedResponse
    | Some user =>
      read_json req (fun body =>
      let! artist_id := prop body "artist_id" ;
      let! stage_id := prop body "stage_id" ;
      let! start_time := prop body "start_time" ;
      let! end_time := prop body "end_time" ;
      let! notes := prop body "notes" ;
      if negb (truthy artist_id) || negb (truthy stage_id)
         || negb (truthy start_time) || negb (truthy end_time)
      then Ret (badRequestResponse
                  "Missing required fields: artist_id, stage_id, start_time, end_time")
      else
        await artist <- (exists_query "artists" "id" artist_id) ;
        if missing artist
        then Ret (notFoundResponse "Artist not found")
        else
          await stage <- (Stages.stage_query stage_id) ;
          if missing stage
          then Ret (notFoundResponse "Stage not found")
          else
            let! event_id := prop (data stage) "event_id" ;
            await event <- (exists_query "events" "id" event_id) ;
            if missing event
            then Ret unauthorizedResponse
            else
              await inserted <-
                (single (selecting (from AnonClient "set_times"
                   (Insert [VObj [("artist_id", artist_id);
                                  ("stage_id", stage_id);
                                  ("start_time", start_time);
                                  ("end_time", end_time);
                                  ("notes", notes)]])))) ;
              match error inserted with
              | Some e => Ret (serverErrorResponse (message e))
              | None => Ret (ok (success_with "set_time" (data inserted)))
              end)
    end).

Definition collaborations_query (setTimeIds : list value) : Query :=
  where_ (from AnonClient "artist_collaborations"
            (Select "id, set_time_id, artist:artist_id (id, name, image_url)"
                    false false))
         (In_ "set_time_id" setTimeIds).

(** [collaborationMap[setTime.id] || []]: the artists of the
    collaborations filed under the key of this set time, in order. *)
Definition collaborators_of (collabs : list (value * value)) (id : value)
  : value :=
  VArr (map snd (filter (fun c => String.eqb (to_string (fst c)) (to_string id))
                        collabs)).

(** One collaboration as the pair of its key and its artist. *)
Definition collab_entry (collab : value) : option (value * value) :=
  match get_prop collab "set_time_id", get_prop collab "artist" with
  | Some k, Some a => Some (k, a)
  | _, _ => None
  end.

(** [{ ...setTime, stage: stageMap[setTime.stage_id],
       collaborators: collaborationMap[setTime.id] || [] }] *)
Definition enrich (stageMap : list (string * value))
           (collabs : list (value * value)) (setTime : value) : option value :=
  match get_prop setTime "stage_id", get_prop setTime "id" with
  | Some stage_id, Some id =>
      Some (VObj (assign "collaborators" (collaborators_of collabs id)
                   (assign "stage" (lookup (to_string stage_id) stageMap)
                           (spread setTime))))
  | _, _ => None
  end.

(** [{ stage, set_times: enrichedSetTimes.filter(st => st.stage_id === stage.id) }] *)
Definition group_by_stage (enriched : list value) (stage : value)
  : option value :=
  match get_prop stage "id" with
  | None => None
  | Some id =>
      Some (VObj [("stage", stage);
                  ("set_times",
                   VArr (filter (fun st => strict_eq (lookup "stage_id" (spread st)) id)
                                enriched))])
  end.

(** Handler for GET /events/:eventId/schedule *)
Definition handleListSetTimes (req : Request) : Prog Response :=
  guarded (
    auth! u <- (getAuthenticatedUser req) ;
    match u with
    | None => Ret unauthorizedResponse
    | Some user =>
      match present (getEventIdFromUrl (pathname req)) with
      | None => Ret (badRequestResponse "Missing event ID")
      | Some eventId =>
        await event <- (exists_query "events" "id" (VStr eventId)) ;
        if missing event
        then Ret (notFoundResponse "Event not found or access denied")
        else
          await stages <-
            (where_ (from AnonClient "stages"
                       (Select "id, name, description" false false))
                    (Eq "event_id" (VStr eventId))) ;
          match error stages with
          | Some e => Ret (serverErrorResponse (message e))
          | None =>
            array (one_of (data stages) (VArr [])) "stages" (fun ss =>
            each (fun s => get_prop s "id") ss "id" (fun keys =>
            let stageMap :=
              fromEntries (combine (map to_string keys) ss) in
            array (data stages) "stages" (fun stageList =>
            each (fun s => get_prop s "id") stageList "id" (fun stageIds =>
            match stageIds with
            | [] => Ret (ok (VArr []))
            | _ =>
              await setTimes <-
                (order_by
                   (where_ (from AnonClient "set_times"
                              (Select "id, start_time, end_time, notes, stage_id, artist:artist_id (id, name, image_url)"
                                      false false))
                           (In_ "stage_id" stageIds))
                   "start_time" true) ;
              match error setTimes with
              | Some e => Ret (serverErrorResponse (message e))
              | None =>
                array (data setTimes) "setTimes" (fun sts =>
                each (fun st => get_prop st "id") sts "id" (fun setTimeIds =>
                await collaborations <- (collaborations_query setTimeIds) ;
                (* a failure here is logged and the handler goes on
                   without collaborations *)
                array (one_of (data collaborations) (VArr []))
                      "collaborations" (fun cs =>
                each collab_entry cs "set_time_id" (fun collabs =>
                each (enrich stageMap collabs) sts "stage_id" (fun enriched =>
                each (group_by_stage enriched) stageList "id" (fun schedule =>
                Ret (ok (VArr schedule))))))))
              end
            end))))
          end
      end
    end).

(** [updates.stage_id && updates.stage_id !== setTime.stage_id] *)
Definition moves_stage (new_stage old_stage : value) : bool :=
  truthy new_stage && negb (strict_eq new_stage old_stage).

(** Handler for PUT /set_times/:setTimeId *)
Definition handleUpdateSetTime (req : Request) : Prog Response :=
  guarded (
    auth! u <- (getAuthenticatedUser req) ;
    match u with
    | None => Ret unauthorizedResponse
    | Some user =>
      match present (getSetTimeIdFromUrl (pathname req)) with
      | None => Ret (badRequestResponse "Missing set time ID")
      | Some setTimeId =>
        read_json req (fun updates =>
        strip updates "id" (fun updates =>
        await setTime <- (set_time_query "id, stage_id" (VStr setTimeId)) ;
        if missing setTime
        then Ret (notFoundResponse "Set time not found")
        else
          let! new_stage := prop updates "stage_id" ;
          let! old_stage := prop (data setTime) "stage_id" ;
          let rest : Prog Response :=
            through_stage old_stage (
              await updated <-
                (single (selecting
                   (where_ (from AnonClient "set_times" (Update updates))
                           (Eq "id" (VStr setTimeId))))) ;
              match error updated with
              | Some e => Ret (serverErrorResponse (message e))
              | None => Ret (ok (success_with "set_time" (data updated)))
              end) in
          if moves_stage new_stage old_stage then
            await stage <- (Stages.stage_query new_stage) ;
            if missing stage
            then Ret (notFoundResponse "New stage not found")
            else rest
          else rest))
      end
    end).

(** Handler for DELETE /set_times/:setTimeId *)
Definition handleDeleteSetTime (req : Request) : Prog Response :=
  guarded (
    auth! u <- (getAuthenticatedUser req) ;
    match u with
    | None => Ret unauthorizedResponse
    | Some user =>
      match present (getSetTimeIdFromUrl (pathname req)) with
      | None => Ret (badRequestResponse "Missing set time ID")
      | Some setTimeId =>
        await setTime <- (set_time_query "id, stage_id" (VStr setTimeId)) ;
        if missing setTime
        then Ret (notFoundResponse "Set time not found")
        else
          let! stage_id := prop (data setTime) "stage_id" ;
          through_stage stage_id (
            await deleted <-
              (where_ (from AnonClient "set_times" Delete)
                      (Eq "id" (VStr setTimeId))) ;
            match error deleted with
            | Some e => Ret (serverErrorResponse (message e))
            | None => Ret (ok success)
            end)
      end
    end).

(** Handler for POST /set_times/:setTimeId/collaborations *)
Definition handleAddCollaboration (req : Request) : Prog Response :=
  guarded (
    auth! u <- (getAuthenticatedUser req) ;
    match u with
    | None => Ret unauthorizedResponse
    | Some user =>
      match present (getSetTimeIdFromUrl (pathname req)) with
      | None => Ret (badRequestResponse "Missing set time ID")
      | Some setTimeId =>
        read_json req (fun body =>
        let! artist_id := prop body "artist_id" ;
        if negb (truthy artist_id)
        then Ret (badRequestResponse "Missing required field: artist_id")
        else
          await setTime <-
            (set_time_query "id, stage_id, artist_id" (VStr setTimeId)) ;
          if missing setTime
          then Ret (notFoundResponse "Set time not found")
          else
            let! main_artist := prop (data setTime) "artist_id" ;
            if strict_eq main_artist artist_id
            then Ret (badRequestResponse
                        "Cannot add main artist as a collaborator")
            else
              await artist <- (exists_query "artists" "id" artist_id) ;
              if missing artist
              then Ret (notFoundResponse "Artist not found")
              else
                let! stage_id := prop (data setTime) "stage_id" ;
                through_stage stage_id (
                  await inserted <-
                    (single (selecting (from AnonClient "artist_collaborations"
                       (Insert [VObj [("set_time_id",
                                       of_num (JS.parseInt setTimeId));
                                      ("artist_id", artist_id)]])))) ;
                  match error inserted with
                  | Some e =>
                      if String.eqb (code e) "23505"
                      then Ret (conflictResponse
                                  "This artist is already a collaborator for this set time")
                      else Ret (serverErrorResponse (message e))
                  | None =>
                      Ret (ok (success_with "collaboration" (data inserted)))
                  end))
      end
    end).

(** Handler for GET /set_times/:setTimeId/collaborations *)
Definition handleListCollaborations (req : Request) : Prog Response :=
  guarded (
    auth! u <- (getAuthenticatedUser req) ;
    match u with
    | None => Ret unauthorizedResponse
    | Some user =>
      match present (getSetTimeIdFromUrl (pathname req)) with
      | None => Ret (badRequestResponse "Missing set time ID")
      | Some setTimeId =>
        await setTime <- (set_time_query "id, stage_id" (VStr setTimeId)) ;
        if missing setTime
        then Ret (notFoundResponse "Set time not found")
        else
          let! stage_id := prop (data setTime) "stage_id" ;
          through_stage stage_id (
            await collabs <-
              (where_ (from AnonClient "artist_collaborations"
                         (Select "id, set_time_id, artist:artist_id (id, name, spotify_id, image_url)"
                                 false false))
                      (Eq "set_time_id" (VStr setTimeId))) ;
            match error collabs with
            | Some e => Ret (serverErrorResponse (message e))
            | None => Ret (ok (data collabs))
            end)
      end
    end).

(** Handler for DELETE /artist_collaborations/:collabId *)
Definition handleRemoveCollaboration (req : Request) : Prog Response :=
  guarded (
    auth! u <- (getAuthenticatedUser req) ;
    match u with
    | None => Ret unauthorizedResponse
    | Some user =>
      match present (getCollaborationIdFromUrl (pathname req)) with
      | None => Ret (badRequestResponse "Missing collaboration ID")
      | Some collabId =>
        await collab <-
          (exists_query "artist_collaborations" "id, set_time_id"
                                (VStr collabId)) ;
        if missing collab
        then Ret (notFoundResponse "Collaboration not found")
        else
          let! set_time_id := prop (data collab) "set_time_id" ;
          await setTime <- (set_time_query "stage_id" set_time_id) ;
          if missing setTime
          then Ret (notFoundResponse "Associated set time not found")
          else
            let! stage_id := prop (data setTime) "stage_id" ;
            through_stage stage_id (
              await deleted <-
                (where_ (from AnonClient "artist_collaborations" Delete)
                        (Eq "id" (VStr collabId))) ;
              match error deleted with
              | Some e => Ret (serverErrorResponse (message e))
              | None => Ret (ok success)
              end)
      end
    end).

(** Main handler *)
Definition serve (req : Request) : Prog Response :=
  main_guard (
    let path := pathname req in
    let m := method req in
    let eventId := is_present (getEventIdFromUrl path) in
    let setTimeId := is_present (getSetTimeIdFromUrl path) in
    let collabId := is_present (getCollaborationIdFromUrl path) in
    let isScheduleRoute := JS.includes path "/schedule" && eventId in
    let isSetTimesPostRoute :=
      String.eqb path "/set_times" || String.eqb path "/set_times/"
      || String.eqb path "/set-times" || String.eqb path "/set-times/" in
    let isSetTimeRoute :=
      (JS.includes path "/set_times/" || JS.includes path "/set-times/")
      && setTimeId
      && negb (JS.includes path "/collaborations")
      && negb (JS.includes path "/schedule") in
    let isCollaborationsPostRoute :=
      JS.includes path "/collaborations" && setTimeId
      && negb (JS.includes path "artist_collaborations") in
    let isCollaborationsGetRoute := isCollaborationsPostRoute in
    let isArtistCollaborationsRoute :=
      JS.includes path "/artist_collaborations/" && collabId in
    if isSetTimesPostRoute && String.eqb m "POST" then handleCreateSetTime req
    else if isScheduleRoute && String.eqb m "GET" then handleListSetTimes req
    else if isSetTimeRoute && String.eqb m "PUT" then handleUpdateSetTime req
    else if isSetTimeRoute && String.eqb m "DELETE" then handleDeleteSetTime req
    else if isCollaborationsPostRoute && String.eqb m "POST"
    then handleAddCollaboration req
    else if isCollaborationsGetRoute && String.eqb m "GET"
    then handleListCollaborations req
    else if isArtistCollaborationsRoute && String.eqb m "DELETE"
    then handleRemoveCollaboration req
    else Ret methodNotAllowedResponse).

End SetTimes.

(* ================================================================== *)
(** * A reference store                                               *)
(* ================================================================== *)

(** Modelled from the spec: the Persistence Store and the
    Authentication Provider are external collaborators (sections 2 and
    6), "relational tables with foreign keys; consulted, never
    implemented here".  The reference store below gives the queries
    the meaning the specification relies on: filtered reads, counts,
    offset ranges, inserts with server-assigned ids, updates, deletes,
    and the three uniqueness constraints of section 3, reported with
    code 23505.  Column projection, embedded resources, ordering and
    cascades are not modelled: a read returns whole rows in table
    order.  Any call can also be made to fail (network, row-level
    security, ...) by the fault plan of the world. *)

Module Store.
Import Json Http Supabase.

Record DB : Type := {
  tables : list (string * list value);
  next_id : Z
}.

Fixpoint rows_of (t : string) (ts : list (string * list value)) : list value :=
  match ts with
  | [] => []
  | (t', rows) :: rest => if String.eqb t t' then rows else rows_of t rest
  end.

Fixpoint set_rows (t : string) (rows : list value)
         (ts : list (string * list value)) : list (string * list value) :=
  match ts with
  | [] => [(t, rows)]
  | (t', rows') :: rest =>
      if String.eqb t t' then (t, rows) :: rest
      else (t', rows') :: set_rows t rows rest
  end.

Definition column (c : string) (row : value) : value := lookup c (spread row).

(** A literal reaches the store as text and is compared with the
    text of the stored value; NULL equals nothing. *)
Definition lit_eq (stored lit : value) : bool :=
  match stored with
  | VUndef | VNull => false
  | _ => String.eqb (to_string stored) (to_string lit)
  end.

Definition lit_le (a b : value) : bool :=
  match a, b with
  | VNum x, VNum y => (x <=? y)%Z
  | (VUndef | VNull), _ => false
  | _, _ => String.leb (to_string a) (to_string b)
  end.

(** LIKE without regard to case: [%] stands for any run of
    characters and [_] for any one. *)
Fixpoint like (pattern s : list ascii) : bool :=
  match pattern with
  | [] => match s with [] => true | _ => false end
  | p :: pattern' =>
      if Ascii.eqb p "%"%char then
        (fix any (s : list ascii) : bool :=
           like pattern' s ||
           match s with [] => false | _ :: s' => any s' end) s
      else
        match s with
        | [] => false
        | c :: s' =>
            (Ascii.eqb p "_"%char || Ascii.eqb (JS.lower p) (JS.lower c))
            && like pattern' s'
        end
  end.

Definition matches (row : value) (f : Filter) : bool :=
  match f with
  | Eq c v => lit_eq (column c row) v
  | Ilike c pattern =>
      match column c row with
      | VStr s => like (list_ascii_of_string pattern) (list_ascii_of_string s)
      | _ => false
      end
  | Gte c v => lit_le v (column c row)
  | Lte c v => lit_le (column c row) v
  | In_ c vs => existsb (lit_eq (column c row)) vs
  end.

Definition selected (fs : list Filter) (row : value) : bool :=
  forallb (matches row) fs.

(** The uniqueness constraints of the data model. *)
Definition unique_keys (t : string) : list (list string) :=
  if String.eqb t "lineups" then [["event_id"; "artist_id"]]
  else if String.eqb t "artist_collaborations" then [["set_time_id"; "artist_id"]]
  else if String.eqb t "group_members" then [["group_id"; "user_id"]]
  else [].

Definition agree_on (key : list string) (a b : value) : bool :=
  forallb (fun c => lit_eq (column c a) (column c b)) key.

Definition violates (t : string) (rows : list value) (row : value) : bool :=
  existsb (fun key => existsb (agree_on key row) rows) (unique_keys t).

Definition no_error (d c : value) : Reply :=
  {| data := d; error := None; count := c |}.

Definition failure (e : PgError) : Reply :=
  {| data := VNull; error := Some e; count := VNull |}.

Definition not_one_row : PgError :=
  {| code := "PGRST116";
     message := Some "JSON object requested, multiple (or no) rows returned" |}.

Definition unique_violation : PgError :=
  {| code := "23505";
     message := Some "duplicate key value violates unique constraint" |}.

Definition bad_range : PgError :=
  {| code := "PGRST103";
     message := Some "Requested range not satisfiable" |}.

(** The rows of a reply under [.single()], [.maybeSingle()] or
    neither. *)
Definition shape (card : Cardinality) (rows : list value) (c : value) : Reply :=
  match card, rows with
  | Many, _ => no_error (VArr rows) c
  | Single, [row] => no_error row c
  | Single, _ => failure not_one_row
  | MaybeSingle, [] => no_error VNull c
  | MaybeSingle, [row] => no_error row c
  | MaybeSingle, _ => failure not_one_row
  end.

(** Offset and limit of [.range(from, to)]. *)
Definition window (r : option (JS.num * JS.num)) (rows : list value)
  : option (list value) :=
  match r with
  | None => Some rows
  | Some (Some a, Some b) =>
      if (0 <=? a)%Z && (a <=? b)%Z
      then Some (firstn (Z.to_nat (b - a + 1)) (skipn (Z.to_nat a) rows))
      else None
  | Some _ => None
  end.

Definition defined (fs : list (string * value)) : list (string * value) :=
  filter (fun kv => match snd kv with VUndef => false | _ => true end) fs.

Definition with_id (id : Z) (row : value) : value :=
  VObj (assign "id" (VNum id) (defined (spread row))).

Definition patch (changes row : value) : value :=
  VObj (fold_left (fun acc kv => assign (fst kv) (snd kv) acc)
                  (defined (spread changes)) (spread row)).

(** One query against the database. *)
Definition exec (db : DB) (q : Query) : Reply * DB :=
  let rows := rows_of (table q) (tables db) in
  match action q with
  | Select _ count_exact head =>
      let hits := filter (selected (filters q)) rows in
      let c := if count_exact then VNum (Z.of_nat (List.length hits)) else VNull in
      match window (range q) hits with
      | None => (failure bad_range, db)
      | Some page =>
          if head then (no_error VNull c, db)
          else (shape (cardinality q) page c, db)
      end
  | Insert [row] =>
      if violates (table q) rows row then (failure unique_violation, db)
      else
        let stored := with_id (next_id db) row in
        ((if returning q then shape (cardinality q) [stored] VNull
          else no_error VNull VNull),
         {| tables := set_rows (table q) (rows ++ [stored]) (tables db);
            next_id := (next_id db + 1)%Z |})
  | Insert _ =>
      (failure {| code := "PGRST102"; message := Some "unsupported body" |}, db)
  | Update changes =>
      let hits := filter (selected (filters q)) rows in
      let rows' := map (fun r => if selected (filters q) r
                                 then patch changes r else r) rows in
      ((if returning q
        then shape (cardinality q) (map (patch changes) hits) VNull
        else no_error VNull VNull),
       {| tables := set_rows (table q) rows' (tables db);
          next_id := next_id db |})
  | Delete =>
      (no_error VNull VNull,
       {| tables := set_rows (table q)
                      (filter (fun r => negb (selected (filters q) r)) rows)
                      (tables db);
          next_id := next_id db |})
  end.

(** The world a request runs in: the authentication provider, the
    database, and what goes wrong: the n-th entry of the fault plan
    makes the n-th store call of the request fail with that error
    and leave the database as it is. *)
Record World : Type := {
  auth : string -> AuthReply;
  db : DB;
  faults : list (option PgError)
}.

Definition call (w : World) (q : Query) : Reply * World :=
  match faults w with
  | Some e :: rest =>
      (failure e, {| auth := auth w; db := db w; faults := rest |})
  | plan =>
      let (r, db') := exec (db w) q in
      (r, {| auth := auth w; db := db'; faults := tl plan |})
  end.

Inductive Outcome (A : Type) : Type :=
| Returned (a : A)
| Raised (message : string).
Arguments Returned {A} a.
Arguments Raised {A} message.

(** What one request does: its outcome, the world afterwards and the
    store calls it made, each with its reply, in order. *)
Record Run (A : Type) : Type := {
  outcome : Outcome A;
  after : World;
  calls : list (Query * Reply)
}.

Fixpoint run {A} (p : Prog A) (w : World) : Run A :=
  match p with
  | Ret a => {| outcome := Returned a; after := w; calls := [] |}
  | Throw m => {| outcome := Raised m; after := w; calls := [] |}
  | GetUser token k => run (k (auth w token)) w
  | Ask q k =>
      let (r, w') := call w q in
      let rest := run (k r) w' in
      {| outcome := outcome rest; after := after rest;
         calls := (q, r) :: calls rest |}
  end.

Definition response {A} (r : Run A) : option A :=
  match outcome r with Returned a => Some a | Raised _ => None end.

Definition rows_after {A} (r : Run A) (t : string) : list value :=
  rows_of t (tables (db (after r))).

Definition is_write (q : Query) : bool :=
  match action q with
  | Select _ _ _ => false
  | _ => true
  end.

Definition is_delete (q : Query) : bool :=
  match action q with
  | Delete => true
  | _ => false
  end.

(** A program played against scripted answers instead of a world. *)
Fixpoint play {A} (p : Prog A) (user : AuthReply) (script : list Reply)
  : option (Outcome A) :=
  match p with
  | Ret a => Some (Returned a)
  | Throw m => Some (Raised m)
  | GetUser _ k => play (k user) user script
  | Ask _ k =>
      match script with
      | r :: rest => play (k r) user rest
      | [] => None
      end
  end.

(** Every server-assigned id in use is below the next one. *)
Definition id_below (n : Z) (row : value) : bool :=
  match column "id" row with
  | VNum i => (i <? n)%Z
  | _ => false
  end.

Definition fresh_ids (d : DB) : bool :=
  forallb (fun t => forallb (id_below (next_id d)) (snd t)) (tables d).

End Store.

(* ================================================================== *)
(** * Vocabulary of the properties                                    *)
(* ================================================================== *)

Module Props.
Import Json Http Supabase Store.

(** The same request under another [Authorization] header. *)
Definition with_authorization (a : option string) (req : Request) : Request :=
  {| method := method req; pathname := pathname req;
     searchParams := searchParams req; authorization := a;
     x_api_key := x_api_key req; json := json req |}.

(** An error response: a status of 400 or more. *)
Definition is_error (r : Response) : bool := (400 <=? status r)%Z.


(** The store calls whose failure a handler logs and survives: the
    look-up of the caller's saved events (events list and detail)
    and the look-up of the collaborations of a schedule. *)
Definition tolerated (q : Query) : bool :=
  String.eqb (table q) "user_events"
  || (String.eqb (table q) "artist_collaborations"
      && match action q, filters q with
         | Select _ _ _, [In_ _ _] => true
         | _, _ => false
         end).

(** The compensating delete of group creation: the failed call is
    the insert of the creator's membership, and the delete takes the
    row of [group_schedules] whose id that membership names, the
    group the request has just created. *)
Definition compensates (failed_call q : Query) : Prop :=
  exists member,
    table failed_call = "group_members"
    /\ action failed_call = Insert [member]
    /\ client q = client failed_call
    /\ table q = "group_schedules"
    /\ action q = Delete
    /\ filters q = [Eq "id" (column "group_id" member)].

(** What a handler may still do once a store call has failed: answer
    with an error at once, or, where the failed call was the insert
    of the membership in group creation, make the compensating delete
    and answer with an error whatever the store replies to it. *)
Definition winds_down (failed_call : Query) (p : Prog Response) : Prop :=
  match p with
  | Ret r => is_error r = true
  | Throw _ | GetUser _ _ => False
  | Ask q k =>
      compensates failed_call q
      /\ forall rep, exists r, k rep = Ret r /\ is_error r = true
  end.

(** Fail-stop handling of store errors: whenever a store call that
    is not [tolerant] answers with an error, the handler winds down
    to an error response; after a failed tolerated call it makes no
    further call.  No exception escapes a handler. *)
Fixpoint fail_stop (tolerant : Query -> bool) (p : Prog Response) : Prop :=
  match p with
  | Ret _ => True
  | Throw _ => False
  | GetUser _ k => forall a, fail_stop tolerant (k a)
  | Ask q k =>
      forall rep,
        (failed rep = true ->
         (tolerant q = false -> winds_down q (k rep))
         /\ (tolerant q = true -> exists r, k rep = Ret r))
        /\ fail_stop tolerant (k rep)
  end.

(** The twenty-nine request handlers of the six function files. *)
Definition all_handlers (API_KEY : option string) (now : string)
           (Number : string -> value) : list (Request -> Prog Response) :=
  [ Events.handleCreateEvent API_KEY; Events.handleListEvents;
    Events.handleGetEvent; Events.handleUpdateEvent API_KEY;
    Events.handleDeleteEvent API_KEY;
    Lineups.handleAddLineupEntry; Lineups.handleListLineup;
    Lineups.handleRemoveLineupEntry;
    Artists.handleCreateArtist; Artists.handleListArtists;
    Artists.handleGetArtist; Artists.handleUpdateArtist;
    Artists.handleDeleteArtist API_KEY;
    Stages.handleCreateStage Number; Stages.handleListStages;
    Stages.handleUpdateStage; Stages.handleDeleteStage;
    SetTimes.handleCreateSetTime; SetTimes.handleListSetTimes;
    SetTimes.handleUpdateSetTime; SetTimes.handleDeleteSetTime;
    SetTimes.handleAddCollaboration; SetTimes.handleListCollaborations;
    SetTimes.handleRemoveCollaboration;
    GroupSchedules.handleListGroupSchedules;
    GroupSchedules.handleGetGroupSchedule;
    GroupSchedules.handleCreateGroupSchedule now;
    GroupSchedules.handleUpdateGroupSchedule;
    GroupSchedules.handleDeleteGroupSchedule ].

(** The six main handlers, one per function file. *)
Definition all_functions (API_KEY : option string) (now : string)
           (Number : string -> value) (host_suffix : string -> option string)
  : list (Request -> Prog Response) :=
  [ Events.serve API_KEY host_suffix; Lineups.serve; Artists.serve API_KEY;
    Stages.serve Number; SetTimes.serve; GroupSchedules.serve now ].

(** The property as the specification words it: no exception. *)
Definition surfaces_every_failure (p : Prog Response) : Prop :=
  fail_stop (fun _ => false) p.

(** The value of a property of a response body. *)
Definition body_field (k : string) (r : Response) : value :=
  lookup k (spread (body r)).

(** Rows of a table that carry a given literal in a column. *)
Definition having (c : string) (v : value) (row : value) : bool :=
  lit_eq (column c row) v.

(** The caller created the group: a row of [group_schedules] with
    this id and this creator. *)
Definition is_creator (d : DB) (groupId : string) (u : User) : bool :=
  existsb (fun row => having "id" (VStr groupId) row
                      && having "created_by" (VStr (user_id u)) row)
          (rows_of "group_schedules" (tables d)).

(** The caller is a member of the group. *)
Definition is_member (d : DB) (groupId : string) (u : User) : bool :=
  existsb (fun row => having "group_id" (VStr groupId) row
                      && having "user_id" (VStr (user_id u)) row)
          (rows_of "group_members" (tables d)).


(** No two rows of a table agree on a key. *)
Definition unique_on (key : list string) (rows : list value) : Prop :=
  ForallOrdPairs (fun a b => agree_on key a b = false) rows.

(** The keys of the group tables: the primary key of
    [group_schedules] and one membership per group and user. *)
Definition group_keys_hold (d : DB) : Prop :=
  unique_on ["id"] (rows_of "group_schedules" (tables d))
  /\ unique_on ["group_id"; "user_id"] (rows_of "group_members" (tables d)).

(** The bearer token of the request resolves to this user. *)
Definition authenticates (w : World) (req : Request) (u : User) (token : string)
  : Prop :=
  bearer_token req = Some token
  /\ token <> ""
  /\ auth w token = AuthReturns false (Some u).

(** The store call is among those a run made. *)
Definition issued {A} (r : Run A) (p : Query -> bool) : Prop :=
  exists q rep, In (q, rep) (calls r) /\ p q = true.

Definition writes_table (t : string) (q : Query) : bool :=
  is_write q && String.eqb (table q) t.


Definition deletes_from (t : string) (q : Query) : bool :=
  is_delete q && String.eqb (table q) t.

(** A program that never consults the authentication provider. *)
Fixpoint ignores_identity (p : Prog Response) : Prop :=
  match p with
  | Ret _ | Throw _ => True
  | GetUser _ _ => False
  | Ask _ k => forall rep, ignores_identity (k rep)
  end.

(** Every response the program can return satisfies [P], whatever
    the collaborators answer. *)
Fixpoint always (P : Response -> Prop) (p : Prog Response) : Prop :=
  match p with
  | Ret r => P r
  | Throw _ => True
  | GetUser _ k => forall a, always P (k a)
  | Ask _ k => forall rep, always P (k rep)
  end.

(** A handler behind the administrative key only: the bearer token
    of the request does not enter the program, the program never
    asks who the caller is, a request without the matching key is
    answered 401 before any store call, and a request with it is
    never answered 401. *)
Definition gated_by_key_alone (API_KEY : option string)
           (h : Request -> Prog Response) (req : Request) : Prop :=
  (forall bearer, h (with_authorization bearer req) = h req)
  /\ ignores_identity (h req)
  /\ (verifyApiKey API_KEY req = false -> h req = Ret unauthorizedResponse)
  /\ (verifyApiKey API_KEY req = true ->
      always (fun r => status r <> 401%Z) (h req)).

(** The same world behind another authentication provider. *)
Definition with_provider (a : string -> AuthReply) (w : World) : World :=
  {| auth := a; db := db w; faults := faults w |}.

(** [l1] is [l2] with some items left out. *)
Inductive sublist {X : Type} : list X -> list X -> Prop :=
| sublist_nil : sublist [] []
| sublist_skip x l1 l2 : sublist l1 l2 -> sublist l1 (x :: l2)
| sublist_keep x l1 l2 : sublist l1 l2 -> sublist (x :: l1) (x :: l2).

(** The [id] of each row of a list. *)
Definition ids_of (rows : list value) : list value :=
  map (column "id") rows.

(** Ids pairwise different as keys of a [Map]. *)
Definition distinct_keys (ids : list value) : Prop :=
  ForallOrdPairs (fun a b => same_value_zero a b = false) ids.

(** The records at the zero-based positions [(page-1)*pageSize] to
    [page*pageSize - 1] of a list. *)
Definition page_window {X} (page pageSize : Z) (rows : list X) : list X :=
  firstn (Z.to_nat pageSize) (skipn (Z.to_nat ((page - 1) * pageSize)) rows).

(** [pages] is the quotient of [total] by [pageSize] rounded up:
    the least number of pages that hold [total] records. *)
Definition is_ceiling (total pageSize pages : Z) : Prop :=
  ((pages - 1) * pageSize < total <= pages * pageSize)%Z.


(** A property of the pagination record of a response. *)
Definition pagination_field (k : string) (r : Response) : value :=
  lookup k (spread (body_field "pagination" r)).

(** What a lineup insert needs to reach the store: a caller, a body
    with an event and an artist, and both of them found. *)
Record LineupRequest (a : string -> AuthReply) (d : DB) (req : Request)
       (event_id artist_id is_headliner tier announcement_date : value)
  : Prop := {
  lr_token : exists token u,
      bearer_token req = Some token /\ String.eqb token "" = false
      /\ a token = AuthReturns false (Some u);
  lr_body : exists body,
      json req = BodyJson body
      /\ get_prop body "event_id" = Some event_id
      /\ get_prop body "artist_id" = Some artist_id
      /\ get_prop body "is_headliner" = Some is_headliner
      /\ get_prop body "tier" = Some tier
      /\ get_prop body "announcement_date" = Some announcement_date;
  lr_event_id : truthy event_id = true;
  lr_artist_id : truthy artist_id = true;
  lr_event : exists ev,
      filter (selected [Eq "id" event_id]) (rows_of "events" (tables d)) = [ev];
  lr_artist : exists ar,
      filter (selected [Eq "id" artist_id]) (rows_of "artists" (tables d)) = [ar]
}.
(** The row a lineup insert sends to the store. *)
Definition lineup_row (event_id artist_id is_headliner tier announcement_date : value)
  : value :=
  VObj [("event_id", event_id); ("artist_id", artist_id);
        ("is_headliner", is_headliner); ("tier", tier);
        ("announcement_date", announcement_date)].

(** The 409 of a lineup conflict. *)
Definition lineup_conflict : Response :=
  conflictResponse "This artist is already in the lineup for this event".

(** A lineup entry for this event and this artist is in the store. *)
Definition in_lineup (d : DB) (event_id artist_id : value) : bool :=
  existsb (fun row => lit_eq event_id (column "event_id" row)
                      && lit_eq artist_id (column "artist_id" row))
          (rows_of "lineups" (tables d)).

(** The database once the row [stored] has gone into [lineups]. *)
Definition with_lineup (d : DB) (stored : value) : DB :=
  {| tables := set_rows "lineups" (rows_of "lineups" (tables d) ++ [stored])
                        (tables d);
     next_id := next_id d + 1 |}.
(** The database once the row [g] has gone into [group_schedules]. *)
Definition with_group (d : DB) (g : value) : DB :=
  {| tables := set_rows "group_schedules"
                 (rows_of "group_schedules" (tables d) ++ [g]) (tables d);
     next_id := next_id d + 1 |}.
(** The row a successful creation adds to [group_schedules]. *)
Definition new_group_row (d : DB) (name event_id : value) (u : User) : value :=
  with_id (next_id d)
          (VObj [("name", name); ("event_id", event_id);
                 ("created_by", VStr (user_id u))]).

(** The row a successful creation adds to [group_members]: the
    caller, as an accepted admin of the new group. *)
Definition new_member_row (now : string) (d : DB) (u : User) : value :=
  with_id (next_id d + 1)
          (VObj [("group_id", VNum (next_id d));
                 ("user_id", VStr (user_id u));
                 ("is_admin", VBool true);
                 ("status", VStr "accepted");
                 ("joined_at", VStr now)]).

(** The response that surfaces a failed member insert: 403 for a
    row-level-security rejection, 500 otherwise. *)
Definition member_failure_response (e : PgError) : Response :=
  if GroupSchedules.rls_violation e
  then GroupSchedules.rls_response "group_members"
         "Make sure you have a policy allowing the group creator to add themselves as a member." e
  else serverErrorResponse (message e).
(** A world whose store answers every call. *)
Definition healthy (a : string -> AuthReply) (d : DB) : World :=
  {| auth := a; db := d; faults := [] |}.

(** The reply of the reference store to a query. *)
Definition answer (d : DB) (q : Query) : Reply := fst (exec d q).
(** How many rows of [tbl] refer to the artist. *)
Definition references (d : DB) (tbl artistId : string) : Z :=
  Z.of_nat (List.length (filter (selected [Eq "artist_id" (VStr artistId)])
                                (rows_of tbl (tables d)))).

(** The artist is in the store. *)
Definition artist_exists (d : DB) (artistId : string) : Prop :=
  exists ar, filter (selected [Eq "id" (VStr artistId)])
                    (rows_of "artists" (tables d)) = [ar].

(** The rows of [artists] without the artist. *)
Definition other_artists (d : DB) (artistId : string) : list value :=
  filter (fun row => negb (selected [Eq "id" (VStr artistId)] row))
         (rows_of "artists" (tables d)).

(** Every entry of the map sits under the id of its group. *)
Definition keyed_by_id (m : list (value * value)) : Prop :=
  Forall (fun e => column "id" (snd e) = fst e) m.

(** The request names no caller the authentication provider vouches
    for: no [Authorization] header, an empty token, or a token the
    provider rejects, answers with no user, or raises on. *)
Definition anonymous (a : string -> AuthReply) (req : Request) : bool :=
  match bearer_token req with
  | None => true
  | Some token =>
      String.eqb token ""
      || match a token with
         | AuthReturns false (Some _) => false
         | _ => true
         end
  end.

(** The twenty-five handlers behind the bearer token. *)
Definition user_handlers (now : string) (Number : string -> value)
  : list (Request -> Prog Response) :=
  [ Events.handleListEvents; Events.handleGetEvent;
    Lineups.handleAddLineupEntry; Lineups.handleListLineup;
    Lineups.handleRemoveLineupEntry;
    Artists.handleCreateArtist; Artists.handleListArtists;
    Artists.handleGetArtist; Artists.handleUpdateArtist;
    Stages.handleCreateStage Number; Stages.handleListStages;
    Stages.handleUpdateStage; Stages.handleDeleteStage;
    SetTimes.handleCreateSetTime; SetTimes.handleListSetTimes;
    SetTimes.handleUpdateSetTime; SetTimes.handleDeleteSetTime;
    SetTimes.handleAddCollaboration; SetTimes.handleListCollaborations;
    SetTimes.handleRemoveCollaboration;
    GroupSchedules.handleListGroupSchedules;
    GroupSchedules.handleGetGroupSchedule;
    GroupSchedules.handleCreateGroupSchedule now;
    GroupSchedules.handleUpdateGroupSchedule;
    GroupSchedules.handleDeleteGroupSchedule ].

(** The twelve handlers that read a request body. *)
Definition body_handlers (API_KEY : option string) (now : string)
           (Number : string -> value) : list (Request -> Prog Response) :=
  [ Events.handleCreateEvent API_KEY; Events.handleUpdateEvent API_KEY;
    Lineups.handleAddLineupEntry;
    Artists.handleCreateArtist; Artists.handleUpdateArtist;
    Stages.handleCreateStage Number; Stages.handleUpdateStage;
    SetTimes.handleCreateSetTime; SetTimes.handleUpdateSetTime;
    SetTimes.handleAddCollaboration;
    GroupSchedules.handleCreateGroupSchedule now;
    GroupSchedules.handleUpdateGroupSchedule ].

(** The answers to a request whose body cannot be read. *)
Definition refusal_or_parse_error (m : string) (r : Response) : Prop :=
  r = unauthorizedResponse
  \/ (exists why, r = badRequestResponse why)
  \/ r = serverErrorResponse (Some m).

(** The methods the main handlers route. *)
Definition routed_method (m : string) : bool :=
  String.eqb m "GET" || String.eqb m "POST"
  || String.eqb m "PUT" || String.eqb m "DELETE".

(** Every store call the program can make satisfies [P], whatever
    the collaborators answer. *)
Fixpoint every_call (P : Query -> Prop) (p : Prog Response) : Prop :=
  match p with
  | Ret _ | Throw _ => True
  | GetUser _ k => forall a, every_call P (k a)
  | Ask q k => P q /\ forall rep, every_call P (k rep)
  end.

(** An insert of one row into [t] made of exactly the columns
    [cols], those of [required] with a truthy value. *)
Definition inserts_only (t : string) (cols required : list string) (q : Query)
  : Prop :=
  exists fields,
    action q = Insert [VObj fields] /\ table q = t
    /\ map fst fields = cols
    /\ Forall (fun c => truthy (lookup c fields) = true) required.

(** Every insert among the calls has one of the given shapes. *)
Definition inserts_among (shapes : list (string * list string * list string))
           (q : Query) : Prop :=
  match action q with
  | Insert _ => Exists (fun s => inserts_only (fst (fst s)) (snd (fst s)) (snd s) q)
                       shapes
  | _ => True
  end.

(** The caller of a request, as a user handler sees it. *)
Definition caller (a : string -> AuthReply) (req : Request) (u : User) : Prop :=
  exists token,
    bearer_token req = Some token /\ String.eqb token "" = false
    /\ a token = AuthReturns false (Some u).

(** The rows of a table with this id. *)
Definition rows_with_id (d : DB) (t : string) (id : value) : list value :=
  filter (selected [Eq "id" id]) (rows_of t (tables d)).

(** The columns of an artist that a creation sets. *)
Definition artist_columns : list string :=
  ["name"; "spotify_id"; "spotify_url"; "followers"; "genres";
   "popularity"; "image_url"; "top_tracks"; "related_artists"].

(** The row a successful creation adds to [artists]. *)
Definition new_artist_row (d : DB) (fields : list (string * value)) : value :=
  with_id (next_id d) (VObj (map (fun c => (c, lookup c fields)) artist_columns)).

(** A path segment: a string without the separator. *)
Fixpoint no_slash (s : string) : bool :=
  match s with
  | EmptyString => true
  | String c rest => negb (Ascii.eqb c "/"%char) && no_slash rest
  end.

(** A store call on [events] that picks its row by this id. *)
Definition events_by_id (id : string) (q : Query) : Prop :=
  table q = "events" -> filters q = [Eq "id" (VStr id)].

(** The group belongs to the event named by the parameter:
    [group.event_id.toString() === eventId]. *)
Definition of_event (eventId : string) (g : value) : bool :=
  String.eqb (to_string (column "event_id" g)) eventId.


(** The saved events of the caller hold this event: one of their
    keys has the text of the event's number. *)
Definition saved (keys : list value) (n : Z) : bool :=
  existsb (fun k => String.eqb (to_string k) (string_of_Z n)) keys.

(** An event of the list as the response shows it: the columns of
    the event, and the flag. *)
Definition flagged (keys : list value) (event shown : value) : Prop :=
  (forall c, c <> "has_user_event" -> column c shown = column c event)
  /\ (forall n, column "id" event = VNum n ->
                column "has_user_event" shown = VBool (saved keys n)).




(** The members of a group, as the store holds them. *)
Definition members_of (d : DB) (groupId : string) : list value :=
  filter (selected [Eq "group_id" (VStr groupId)])
         (rows_of "group_members" (tables d)).

(** The rows of a table but the one of this id. *)
Definition rows_without (d : DB) (t : string) (id : value) : list value :=
  filter (fun row => negb (selected [Eq "id" id] row)) (rows_of t (tables d)).

(** The rows of [user_events] that tie the user to the event. *)
Definition saved_rows (d : DB) (eventId : string) (u : User) : list value :=
  filter (selected [Eq "event_id" (VStr eventId); Eq "user_id" (VStr (user_id u))])
         (rows_of "user_events" (tables d)).


(** The fields of a body once the column [k] is out of it if it was
    truthy. *)
Definition without_truthy (k : string) (fields : list (string * value))
  : list (string * value) :=
  if truthy (lookup k fields) then remove k fields else fields.

(** What an update sends to the store for the body of its request,
    [protected] being the columns the handler takes out: an object
    goes without those of them that were truthy; a value that is no
    object (an array, a number, a text) has none of these properties
    and goes as it is. *)
Definition sent_for (protected : list string) (body : value) : value :=
  match body with
  | VObj fields =>
      VObj (fold_left (fun fs k => without_truthy k fs) protected fields)
  | _ => body
  end.

(** A store call that, if it is an update, sends these changes. *)
Definition sends (changes : value) (q : Query) : Prop :=
  match action q with
  | Update sent => sent = changes
  | _ => True
  end.

(** The store calls of a run that write, in order. *)
Definition writes {A} (r : Run A) : list Query :=
  filter is_write (map fst (calls r)).





End Props.

(* ================================================================== *)
(** * A small festival, for the examples                              *)
(* ================================================================== *)

Module Sample.
Import Json Http Supabase Store.

Definition alice : User := {| user_id := "alice" |}.
Definition bob : User := {| user_id := "bob" |}.
Definition carol : User := {| user_id := "carol" |}.

Definition provider (token : string) : AuthReply :=
  if String.eqb token "tok-alice" then AuthReturns false (Some alice)
  else if String.eqb token "tok-bob" then AuthReturns false (Some bob)
  else if String.eqb token "tok-carol" then AuthReturns false (Some carol)
  else AuthReturns true None.

(** Bob created group 1 for event 7; Bob and Carol are its admin
    members; artist 10 plays event 7, artist 11 is booked nowhere. *)
Definition database : DB :=
  {| tables := [
       ("events", [VObj [("id", VNum 7); ("name", VStr "Summer Festival")]]);
       ("artists", [VObj [("id", VNum 10); ("name", VStr "Deadmau5")];
                    VObj [("id", VNum 11); ("name", VStr "Rezz")]]);
       ("lineups", [VObj [("id", VNum 20); ("event_id", VNum 7);
                          ("artist_id", VNum 10)]]);
       ("set_times", []);
       ("artist_collaborations", []);
       ("group_schedules",
        [VObj [("id", VNum 1); ("name", VStr "Squad"); ("event_id", VNum 7);
               ("created_by", VStr "bob")]]);
       ("group_members",
        [VObj [("id", VNum 2); ("group_id", VNum 1); ("user_id", VStr "bob");
               ("is_admin", VBool true); ("status", VStr "accepted")];
         VObj [("id", VNum 3); ("group_id", VNum 1); ("user_id", VStr "carol");
               ("is_admin", VBool true); ("status", VStr "accepted")]])];
     next_id := 100 |}.

Definition world (plan : list (option PgError)) : World :=
  {| auth := provider; db := database; faults := plan |}.

Definition request (m path : string) (token : option string)
           (key : option string) (b : JsonBody) : Request :=
  {| method := m; pathname := path; searchParams := [];
     authorization := option_map (fun t => ("Bearer " ++ t)%string) token;
     x_api_key := key; json := b |}.

Definition no_body : JsonBody := BodyThrows "Unexpected end of JSON input".

Definition now : string := "2025-07-01T18:00:00.000Z".

Definition secret : option string := Some "s3cret".

Definition broken : PgError :=
  {| code := "08006"; message := Some "connection failure" |}.

Definition denied : PgError :=
  {| code := "42501";
     message := Some "new row violates row-level security policy for table" |}.

(** The answers of the store to Bob's list of groups: he created
    group 1, and he is a member of groups 1 and 5. *)
Definition group1 : value :=
  VObj [("id", VNum 1); ("name", VStr "Squad"); ("event_id", VNum 7);
        ("created_by", VStr "bob")].

Definition group5 : value :=
  VObj [("id", VNum 5); ("name", VStr "Ravers"); ("event_id", VNum 7);
        ("created_by", VStr "carol")].

Definition created_by_bob : Reply := no_error (VArr [group1]) VNull.

Definition joined_by_bob : Reply :=
  no_error (VArr [VObj [("group", group1)]; VObj [("group", group5)]]) VNull.

Definition list_groups_request : Request :=
  request "GET" "/group-schedules" (Some "tok-bob") None no_body.

Definition list_groups_response : Response :=
  ok (VObj [
    ("group_schedules", VArr [group1; group5]);
    ("pagination", VObj [("page", VNum 1); ("pageSize", VNum 20);
                         ("totalCount", VNum 2); ("totalPages", VNum 1)])]).

(** Twenty-three artists, numbered from 1. *)
Definition artist (n : nat) : value :=
  VObj [("id", VNum (Z.of_nat n)); ("name", VStr "artist")].



(** Alice creates a group for event 7. *)
Definition create_body : value :=
  VObj [("name", VStr "Our Festival Squad"); ("event_id", VNum 7)].

Definition create_request : Request :=
  request "POST" "/group-schedules" (Some "tok-alice") None (BodyJson create_body).

(** Alice adds an artist to the lineup of event 7. *)
Definition lineup_body (artist_id : Z) : value :=
  VObj [("event_id", VNum 7); ("artist_id", VNum artist_id);
        ("is_headliner", VBool true); ("tier", VStr "headliner");
        ("announcement_date", VStr "2025-03-01")].

Definition add_lineup_request (artist_id : Z) : Request :=
  request "POST" "/lineups" (Some "tok-alice") None
          (BodyJson (lineup_body artist_id)).

(** An administrator deletes an artist. *)
Definition delete_artist_request (artistId : string) : Request :=
  request "DELETE" ("/artists/" ++ artistId) None secret no_body.



(** Alice renames artist 10 and tries to move it to another id. *)
Definition rename_artist_request : Request :=
  request "PUT" "/artists/10" (Some "tok-alice") None
          (BodyJson (VObj [("id", VNum 99); ("name", VStr "deadmau5")])).

(** Alice creates an artist; the body names an id of its own. *)
Definition new_artist_request : Request :=
  request "POST" "/artists" (Some "tok-alice") None
          (BodyJson (VObj [("id", VNum 1); ("name", VStr "Eprom")])).

(** Bob looks an artist up. *)
Definition get_artist_request (artistId : string) : Request :=
  request "GET" ("/artists/" ++ artistId) (Some "tok-bob") None no_body.

(** Alice removes a lineup entry. *)
Definition remove_lineup_request (entryId : string) : Request :=
  request "DELETE" ("/lineups/" ++ entryId) (Some "tok-alice") None no_body.

(** One stage of event 7 and the set of artist 10 on it. *)
Definition timetable : DB :=
  {| tables := [
       ("events", [VObj [("id", VNum 7); ("name", VStr "Summer Festival")]]);
       ("artists", [VObj [("id", VNum 10); ("name", VStr "Deadmau5")];
                    VObj [("id", VNum 11); ("name", VStr "Rezz")]]);
       ("stages", [VObj [("id", VNum 30); ("name", VStr "Main");
                         ("event_id", VNum 7)]]);
       ("set_times", [VObj [("id", VNum 40); ("artist_id", VNum 10);
                            ("stage_id", VNum 30)]]);
       ("artist_collaborations", [])];
     next_id := 100 |}.

(** Alice names an artist as a collaborator of set time 40. *)
Definition collaboration_request (artist_id : Z) : Request :=
  request "POST" "/set_times/40/collaborations" (Some "tok-alice") None
          (BodyJson (VObj [("artist_id", VNum artist_id)])).

(** Bob asks for event 7 through the prefix of the functions
    gateway. *)
Definition prefixed_event_request : Request :=
  request "GET" "/functions/v1/events/7" (Some "tok-bob") None no_body.

(** The copy of group 1 that comes with Bob's membership. *)
Definition group1_as_member : value :=
  VObj [("id", VNum 1); ("name", VStr "Squad"); ("event_id", VNum 7);
        ("created_by", VStr "bob"); ("joined", VBool true)].

(** Bob lists his groups for event 7. *)
Definition list_groups_of_event_request : Request :=
  {| method := "GET"; pathname := "/group-schedules";
     searchParams := [("event_id", "7")];
     authorization := Some "Bearer tok-bob"; x_api_key := None;
     json := no_body |}.


(** Two events as the store lists them, and Bob's saved events. *)
Definition listed_events : Reply :=
  no_error (VArr [VObj [("id", VNum 7); ("name", VStr "Summer Festival")];
                  VObj [("id", VNum 8); ("name", VStr "Winter Festival")]])
           VNull.

Definition saved_by_bob : Reply :=
  no_error (VArr [VObj [("event_id", VNum 8)]]) VNull.

Definition list_events_request : Request :=
  request "GET" "/events" (Some "tok-bob") None no_body.



(** Bob asks for the schedule of event 7. *)
Definition schedule_request : Request :=
  request "GET" "/events/7/schedule" (Some "tok-bob") None no_body.

(** Alice removes a set time. *)
Definition delete_set_time_request (id : string) : Request :=
  request "DELETE" ("/set_times/" ++ id) (Some "tok-alice") None no_body.

(** The timetable with a set time left behind on a stage that is
    gone. *)
Definition dangling : DB :=
  {| tables := [
       ("events", [VObj [("id", VNum 7); ("name", VStr "Summer Festival")]]);
       ("stages", []);
       ("set_times", [VObj [("id", VNum 40); ("artist_id", VNum 10);
                            ("stage_id", VNum 30)]])];
     next_id := 100 |}.

(** Carol asks for group 1, of which she is a member. *)
Definition get_group_request : Request :=
  request "GET" "/group-schedules/1" (Some "tok-carol") None no_body.

(** Alice renames an artist that is not there, and moves set time 40
    to a stage that is not there. *)
Definition rename_absent_artist_request : Request :=
  request "PUT" "/artists/12" (Some "tok-alice") None
          (BodyJson (VObj [("name", VStr "Nobody")])).

Definition move_set_time_request : Request :=
  request "PUT" "/set_times/40" (Some "tok-alice") None
          (BodyJson (VObj [("stage_id", VNum 31)])).

(** Bob asks for the lineup of an event that is not there. *)
Definition lineup_of_absent_event_request : Request :=
  request "GET" "/events/8/lineup" (Some "tok-bob") None no_body.

(** Bob has saved event 7. *)
Definition with_saved_event : DB :=
  {| tables := [
       ("events", [VObj [("id", VNum 7); ("name", VStr "Summer Festival")]]);
       ("user_events", [VObj [("id", VNum 50); ("event_id", VNum 7);
                              ("user_id", VStr "bob")]])];
     next_id := 100 |}.

Definition get_event_request (id : string) : Request :=
  request "GET" ("/events/" ++ id) (Some "tok-bob") None no_body.

Definition delete_event_request (id : string) : Request :=
  request "DELETE" ("/events/" ++ id) None secret no_body.

End Sample.

Unset Implicit Arguments.

(* ================================================================== *)
(** * Path segments and IDs                                           *)
(* ================================================================== *)

Section Extractors.
Import Json Http Supabase Store Props.

Lemma scan_after_accepted (accepts : string -> string -> bool) pathParts id :
  scan_after accepts pathParts = Some id ->
  exists part, In part pathParts /\ In id pathParts /\ accepts part id = true.
Proof.
  induction pathParts as [|part rest IH]; simpl; [discriminate|].
  destruct rest as [|next rest']; [discriminate|].
  destruct (accepts part next) eqn:Hacc.
  - intros [= <-]. exists part. simpl. auto.
  - intros H. destruct (IH H) as (p & Hp & Hid & Ha).
    exists p. simpl in *. auto.
Qed.

Lemma scan_after_rejected (accepts : string -> string -> bool) pathParts :
  (forall part id, accepts part id = false) ->
  scan_after accepts pathParts = None.
Proof.
  intros Hrej. induction pathParts as [|part rest IH]; simpl; [reflexivity|].
  destruct rest as [|next rest']; [reflexivity|].
  rewrite Hrej. exact IH.
Qed.

(** What [getGroupIdFromUrl] returns is never a non-numeric segment. *)
Lemma getGroupIdFromUrl_numeric path id :
  GroupSchedules.getGroupIdFromUrl path = Some id ->
  JS.isNaN_Number id = false /\ id <> "".
Proof.
  unfold GroupSchedules.getGroupIdFromUrl. intros H.
  apply scan_after_accepted in H. destruct H as (part & _ & _ & Hacc).
  apply andb_prop in Hacc. destruct Hacc as [Hacc Hnum].
  apply andb_prop in Hacc. destruct Hacc as [_ Hne].
  apply negb_true_iff in Hnum. apply negb_true_iff in Hne.
  split; [exact Hnum|]. intros ->. discriminate.
Qed.

(** What [getArtistIdFromUrl] returns is never a non-numeric segment. *)
Lemma getArtistIdFromUrl_numeric path id :
  Artists.getArtistIdFromUrl path = Some id ->
  JS.isNaN_Number id = false /\ id <> "".
Proof.
  unfold Artists.getArtistIdFromUrl. intros H.
  apply scan_after_accepted in H. destruct H as (part & _ & _ & Hacc).
  apply andb_prop in Hacc. destruct Hacc as [Hacc Hnum].
  apply andb_prop in Hacc. destruct Hacc as [_ Hne].
  apply negb_true_iff in Hnum. apply negb_true_iff in Hne.
  split; [exact Hnum|]. intros ->. discriminate.
Qed.

(** The segment [scan_after] returns is never the first of the path. *)
Lemma scan_after_tail (accepts : string -> string -> bool) pathParts id :
  scan_after accepts pathParts = Some id -> In id (tl pathParts).
Proof.
  induction pathParts as [|part rest IH]; simpl; [discriminate|].
  destruct rest as [|next rest']; [discriminate|].
  destruct (accepts part next).
  - intros [= <-]. left. reflexivity.
  - intros H. right. exact (IH H).
Qed.

(** A path none of whose segments after the first converts to a
    number has no group ID and no artist ID.  (The first segment of
    a path name is the empty text before its leading slash.) *)
Lemma numeric_extractors_reject path :
  (forall seg, In seg (tl (JS.split_slash path)) -> JS.isNaN_Number seg = true) ->
  GroupSchedules.getGroupIdFromUrl path = None
  /\ Artists.getArtistIdFromUrl path = None.
Proof.
  intros Hnan. split.
  - destruct (GroupSchedules.getGroupIdFromUrl path) as [id|] eqn:H; [|reflexivity].
    pose proof (getGroupIdFromUrl_numeric _ _ H) as [Hnum _].
    unfold GroupSchedules.getGroupIdFromUrl in H.
    apply scan_after_tail in H.
    rewrite (Hnan _ H) in Hnum. discriminate.
  - destruct (Artists.getArtistIdFromUrl path) as [id|] eqn:H; [|reflexivity].
    pose proof (getArtistIdFromUrl_numeric _ _ H) as [Hnum _].
    unfold Artists.getArtistIdFromUrl in H.
    apply scan_after_tail in H.
    rewrite (Hnan _ H) in Hnum. discriminate.
Qed.

(** So it is for a path whose segments are [group-schedules] and
    [abc]. *)
Lemma non_numeric_path_has_no_id :
  GroupSchedules.getGroupIdFromUrl "/group-schedules/abc" = None
  /\ Artists.getArtistIdFromUrl "/group-schedules/abc" = None.
Proof.
  apply numeric_extractors_reject.
  intros seg [<-|[<-|[]]]; reflexivity.
Qed.

End Extractors.

Section ExtractorsAtWork.
Import Json Http Supabase Store Props Sample.

(** C5, at its failing input.  The segment [abc] does not convert to
    a number.  The group and artist extractors return null for it,
    but the set-time, lineup-entry and collaboration extractors
    return it as the ID, and DELETE /set_times/abc is dispatched to
    the delete handler, which looks the set time [abc] up in the
    store and answers 404, where the route-not-matched answer would
    be 405. *)
Theorem non_numeric_segment_taken_for_an_id :
  JS.isNaN_Number "abc" = true
  /\ GroupSchedules.getGroupIdFromUrl "/group-schedules/abc" = None
  /\ Artists.getArtistIdFromUrl "/artists/abc" = None
  /\ SetTimes.getSetTimeIdFromUrl "/set_times/abc" = Some "abc"
  /\ Lineups.getLineupEntryIdFromUrl "/lineups/abc" = Some "abc"
  /\ SetTimes.getCollaborationIdFromUrl "/artist_collaborations/abc" = Some "abc"
  /\ (let r := run (SetTimes.serve
                      (request "DELETE" "/set_times/abc" (Some "tok-alice")
                               None no_body))
                   (world []) in
      map fst (calls r)
      = [SetTimes.set_time_query "id, stage_id" (VStr "abc")]
      /\ response r = Some (notFoundResponse "Set time not found")
      /\ response r <> Some methodNotAllowedResponse)
  /\ (let r := run (GroupSchedules.serve now
                      (request "DELETE" "/group-schedules/abc"
                               (Some "tok-alice") None no_body))
                   (world []) in
      calls r = [] /\ response r = Some methodNotAllowedResponse).
Proof.
  repeat split; try reflexivity.
  vm_compute. discriminate.
Qed.

End ExtractorsAtWork.

(* ================================================================== *)
(** * Proof automation for handler programs                           *)
(* ================================================================== *)

Ltac break_match :=
  match goal with
  | |- context [match ?x with _ => _ end] =>
      lazymatch x with
      | context [match _ with _ => _ end] => fail
      | _ => destruct x eqn:?
      end
  end.

Ltac open_prog :=
  unfold Supabase.guarded, Supabase.main_guard, Supabase.read_json,
         Supabase.field, Supabase.strip, Supabase.array, Supabase.each in *.

Ltac split_play H :=
  repeat (simpl in H;
          match type of H with
          | context [match ?x with _ => _ end] => destruct x eqn:?
          end).

Ltac walk := repeat (open_prog; simpl; try break_match; intros).

(* ================================================================== *)
(** * The administrative path                                         *)
(* ================================================================== *)

Section AdministrativePath.
Import Json Http Supabase Store Props Sample.

Lemma run_ignores_identity (p : Prog Response) :
  ignores_identity p ->
  forall a w,
    outcome (run p (with_provider a w)) = outcome (run p w)
    /\ db (after (run p (with_provider a w))) = db (after (run p w))
    /\ calls (run p (with_provider a w)) = calls (run p w).
Proof.
  induction p as [r|m|token k IH|q k IH]; simpl; intros Hp a w.
  - auto.
  - auto.
  - contradiction.
  - unfold call. simpl.
    destruct (faults w) as [|[e|] rest]; simpl.
    + destruct (exec (db w) q) as [rep d'].
      specialize (IH rep (Hp rep) a {| auth := auth w; db := d'; faults := [] |}).
      unfold with_provider in IH. simpl in *.
      destruct IH as (H1 & H2 & H3). rewrite H1, H2, H3. auto.
    + specialize (IH (failure e) (Hp _) a {| auth := auth w; db := db w; faults := rest |}).
      unfold with_provider in IH. simpl in *.
      destruct IH as (H1 & H2 & H3). rewrite H1, H2, H3. auto.
    + destruct (exec (db w) q) as [rep d'].
      specialize (IH rep (Hp rep) a {| auth := auth w; db := d'; faults := rest |}).
      unfold with_provider in IH. simpl in *.
      destruct IH as (H1 & H2 & H3). rewrite H1, H2, H3. auto.
Qed.

Lemma run_always (P : Response -> Prop) (p : Prog Response) :
  always P p ->
  forall w r, response (run p w) = Some r -> P r.
Proof.
  unfold response.
  induction p as [r|m|token k IH|q k IH]; simpl; intros Hp w r'.
  - intros [= <-]. exact Hp.
  - discriminate.
  - apply IH, Hp.
  - destruct (call w q) as [rep w']. simpl. apply IH, Hp.
Qed.

Lemma handleCreateEvent_gated key req :
  gated_by_key_alone key (Events.handleCreateEvent key) req.
Proof.
  unfold gated_by_key_alone, Events.handleCreateEvent. open_prog.
  repeat split.
  - walk; exact I.
  - intros ->. reflexivity.
  - intros ->. walk; discriminate.
Qed.

Lemma handleUpdateEvent_gated key req :
  gated_by_key_alone key (Events.handleUpdateEvent key) req.
Proof.
  unfold gated_by_key_alone, Events.handleUpdateEvent. open_prog.
  repeat split.
  - walk; exact I.
  - intros ->. reflexivity.
  - intros ->. walk; discriminate.
Qed.

Lemma handleDeleteEvent_gated key req :
  gated_by_key_alone key (Events.handleDeleteEvent key) req.
Proof.
  unfold gated_by_key_alone, Events.handleDeleteEvent. open_prog.
  repeat split.
  - walk; exact I.
  - intros ->. reflexivity.
  - intros ->. walk; discriminate.
Qed.

(** C9.  Event create, update and delete are decided by the
    [x-api-key] header alone: whatever the [Authorization] header
    the handler is the same program, that program never consults the
    authentication provider, without the configured key it answers
    401 and makes no store call at all, and with the key it is never
    answered 401. *)
Theorem event_writes_gated_by_api_key_alone :
  forall (API_KEY : option string) (req : Request),
    gated_by_key_alone API_KEY (Events.handleCreateEvent API_KEY) req
    /\ gated_by_key_alone API_KEY (Events.handleUpdateEvent API_KEY) req
    /\ gated_by_key_alone API_KEY (Events.handleDeleteEvent API_KEY) req.
Proof.
  intros key req.
  split; [apply handleCreateEvent_gated|].
  split; [apply handleUpdateEvent_gated|apply handleDeleteEvent_gated].
Qed.

(** Two requests that differ in their bearer token only have the
    same outcome, leave the same rows and make the same calls, in
    any world and behind any authentication provider. *)
Corollary event_writes_same_for_any_bearer :
  forall (API_KEY : option string) (req : Request) bearer provider w,
    let r1 := run (Events.handleUpdateEvent API_KEY
                     (with_authorization bearer req))
                  (with_provider provider w) in
    let r2 := run (Events.handleUpdateEvent API_KEY req) w in
    outcome r1 = outcome r2
    /\ db (after r1) = db (after r2)
    /\ calls r1 = calls r2.
Proof.
  intros key req bearer provider w.
  destruct (handleUpdateEvent_gated key req) as (Hsame & Hid & _).
  simpl. rewrite Hsame. apply run_ignores_identity, Hid.
Qed.

Lemma event_writes_gated_by_api_key_alone_witness :
  let req := request "PUT" "/events/7" (Some "tok-alice") (Some "guess")
                     (BodyJson (VObj [("featured", VBool false)])) in
  verifyApiKey secret req = false
  /\ Events.handleUpdateEvent secret req = Ret unauthorizedResponse
  /\ verifyApiKey secret (request "PUT" "/events/7" None secret
                            (BodyJson (VObj [("featured", VBool false)])))
     = true.
Proof.
  simpl. split; [reflexivity|]. split; [|reflexivity].
  destruct (event_writes_gated_by_api_key_alone secret
              (request "PUT" "/events/7" (Some "tok-alice") (Some "guess")
                       (BodyJson (VObj [("featured", VBool false)]))))
    as (_ & (_ & _ & Hgate & _) & _).
  exact (Hgate eq_refl).
Defined.

End AdministrativePath.

(* ================================================================== *)
(** * Store failures                                                  *)
(* ================================================================== *)

Ltac settle_failure :=
  match goal with
  | H : Supabase.failed ?r = true |- _ =>
      unfold Supabase.failed in *;
      destruct (Supabase.error r) eqn:?; [clear H | discriminate H]
  end.

Ltac close_failure :=
  match goal with
  | |- exists r, Supabase.Ret _ = Supabase.Ret r => eexists; reflexivity
  | |- exists r, Supabase.Ret _ = Supabase.Ret r /\ _ =>
      eexists; split; reflexivity
  | |- Props.compensates _ _ =>
      unfold Props.compensates; eexists; repeat split
  | |- _ = true => reflexivity
  | H : _ = _ |- _ => discriminate H
  | |- _ <> _ =>
      let H := fresh in
      intro H; discriminate H
  end.

Ltac open_queries :=
  unfold Events.user_events_query,
         Artists.count_artists_query, Artists.list_artists_query,
         Artists.search_filter, Artists.artist_query,
         Artists.dependency_query, Artists.delete_artist_query,
         Lineups.insert_lineup_query, Stages.stage_query,
         SetTimes.set_time_query, SetTimes.stage_event_query,
         SetTimes.collaborations_query,
         GroupSchedules.created_groups_query,
         GroupSchedules.member_groups_query,
         GroupSchedules.insert_group_query,
         GroupSchedules.insert_member_query,
         GroupSchedules.delete_group_query,
         GroupSchedules.update_group_query,
         Supabase.exists_query, Supabase.where_if in *.

Ltac fail_stop_walk :=
  unfold Supabase.getAuthenticatedUser, Supabase.getAuthenticatedUserAndToken,
         SetTimes.through_stage, Supabase.missing in *;
  repeat (open_prog; open_queries; simpl;
          first [ exact I
                | close_failure
                | settle_failure
                | match goal with
                  | |- _ /\ _ => split
                  | Hq : Props.tolerated ?q = _
                    |- context [Props.tolerated ?q] => rewrite Hq
                  | |- context [Props.tolerated ?q] =>
                      let b := eval lazy in (Props.tolerated q) in
                      change (Props.tolerated q) with b
                  end
                | break_match
                | intro ]).

Section StoreFailures.
Import Json Http Supabase Store Props Sample.

Lemma handleCreateEvent_fail_stop key req :
  fail_stop tolerated (Events.handleCreateEvent key req).
Proof. unfold Events.handleCreateEvent. fail_stop_walk. Qed.

Lemma list_events_query_table req :
  table (Events.list_events_query req) = "events".
Proof.
  unfold Events.list_events_query, where_if.
  repeat break_match; reflexivity.
Qed.

Lemma list_events_query_not_tolerated req :
  tolerated (Events.list_events_query req) = false.
Proof. unfold tolerated. rewrite list_events_query_table. reflexivity. Qed.

Lemma handleListEvents_fail_stop req :
  fail_stop tolerated (Events.handleListEvents req).
Proof.
  unfold Events.handleListEvents.
  pose proof (list_events_query_not_tolerated req) as Hq.
  revert Hq. generalize (Events.list_events_query req). intros q Hq.
  fail_stop_walk.
Qed.

Lemma handleGetEvent_fail_stop req :
  fail_stop tolerated (Events.handleGetEvent req).
Proof. unfold Events.handleGetEvent. fail_stop_walk. Qed.

Lemma handleUpdateEvent_fail_stop key req :
  fail_stop tolerated (Events.handleUpdateEvent key req).
Proof. unfold Events.handleUpdateEvent. fail_stop_walk. Qed.

Lemma handleDeleteEvent_fail_stop key req :
  fail_stop tolerated (Events.handleDeleteEvent key req).
Proof. unfold Events.handleDeleteEvent. fail_stop_walk. Qed.

Lemma handleAddLineupEntry_fail_stop req :
  fail_stop tolerated (Lineups.handleAddLineupEntry req).
Proof. unfold Lineups.handleAddLineupEntry. fail_stop_walk. Qed.

Lemma handleListLineup_fail_stop req :
  fail_stop tolerated (Lineups.handleListLineup req).
Proof. unfold Lineups.handleListLineup. fail_stop_walk. Qed.

Lemma handleRemoveLineupEntry_fail_stop req :
  fail_stop tolerated (Lineups.handleRemoveLineupEntry req).
Proof. unfold Lineups.handleRemoveLineupEntry. fail_stop_walk. Qed.

Lemma handleCreateArtist_fail_stop req :
  fail_stop tolerated (Artists.handleCreateArtist req).
Proof. unfold Artists.handleCreateArtist. fail_stop_walk. Qed.

Lemma handleListArtists_fail_stop req :
  fail_stop tolerated (Artists.handleListArtists req).
Proof. unfold Artists.handleListArtists. fail_stop_walk. Qed.

Lemma handleGetArtist_fail_stop req :
  fail_stop tolerated (Artists.handleGetArtist req).
Proof. unfold Artists.handleGetArtist. unfold Artists.lookup_failure. fail_stop_walk. Qed.

Lemma handleUpdateArtist_fail_stop req :
  fail_stop tolerated (Artists.handleUpdateArtist req).
Proof. unfold Artists.handleUpdateArtist. unfold Artists.lookup_failure. fail_stop_walk. Qed.

Lemma handleDeleteArtist_fail_stop key req :
  fail_stop tolerated (Artists.handleDeleteArtist key req).
Proof. unfold Artists.handleDeleteArtist. unfold Artists.lookup_failure. fail_stop_walk. Qed.

Lemma handleCreateStage_fail_stop Number req :
  fail_stop tolerated (Stages.handleCreateStage Number req).
Proof. unfold Stages.handleCreateStage. fail_stop_walk. Qed.

Lemma handleListStages_fail_stop req :
  fail_stop tolerated (Stages.handleListStages req).
Proof. unfold Stages.handleListStages. fail_stop_walk. Qed.

Lemma handleUpdateStage_fail_stop req :
  fail_stop tolerated (Stages.handleUpdateStage req).
Proof. unfold Stages.handleUpdateStage. fail_stop_walk. Qed.

Lemma handleDeleteStage_fail_stop req :
  fail_stop tolerated (Stages.handleDeleteStage req).
Proof. unfold Stages.handleDeleteStage. fail_stop_walk. Qed.

Lemma handleCreateSetTime_fail_stop req :
  fail_stop tolerated (SetTimes.handleCreateSetTime req).
Proof. unfold SetTimes.handleCreateSetTime. fail_stop_walk. Qed.

Lemma handleListSetTimes_fail_stop req :
  fail_stop tolerated (SetTimes.handleListSetTimes req).
Proof. unfold SetTimes.handleListSetTimes. fail_stop_walk. Qed.

Lemma handleUpdateSetTime_fail_stop req :
  fail_stop tolerated (SetTimes.handleUpdateSetTime req).
Proof. unfold SetTimes.handleUpdateSetTime. fail_stop_walk. Qed.

Lemma handleDeleteSetTime_fail_stop req :
  fail_stop tolerated (SetTimes.handleDeleteSetTime req).
Proof. unfold SetTimes.handleDeleteSetTime. fail_stop_walk. Qed.

Lemma handleAddCollaboration_fail_stop req :
  fail_stop tolerated (SetTimes.handleAddCollaboration req).
Proof. unfold SetTimes.handleAddCollaboration. fail_stop_walk. Qed.

Lemma handleListCollaborations_fail_stop req :
  fail_stop tolerated (SetTimes.handleListCollaborations req).
Proof. unfold SetTimes.handleListCollaborations. fail_stop_walk. Qed.

Lemma handleRemoveCollaboration_fail_stop req :
  fail_stop tolerated (SetTimes.handleRemoveCollaboration req).
Proof. unfold SetTimes.handleRemoveCollaboration. fail_stop_walk. Qed.

Lemma handleListGroupSchedules_fail_stop req :
  fail_stop tolerated (GroupSchedules.handleListGroupSchedules req).
Proof. unfold GroupSchedules.handleListGroupSchedules. unfold GroupSchedules.respond_with_groups. fail_stop_walk. Qed.

Lemma handleGetGroupSchedule_fail_stop req :
  fail_stop tolerated (GroupSchedules.handleGetGroupSchedule req).
Proof. unfold GroupSchedules.handleGetGroupSchedule. fail_stop_walk. Qed.

Lemma handleCreateGroupSchedule_fail_stop now req :
  fail_stop tolerated (GroupSchedules.handleCreateGroupSchedule now req).
Proof. unfold GroupSchedules.handleCreateGroupSchedule. fail_stop_walk. Qed.

Lemma handleUpdateGroupSchedule_fail_stop req :
  fail_stop tolerated (GroupSchedules.handleUpdateGroupSchedule req).
Proof. unfold GroupSchedules.handleUpdateGroupSchedule. fail_stop_walk. Qed.

Lemma handleDeleteGroupSchedule_fail_stop req :
  fail_stop tolerated (GroupSchedules.handleDeleteGroupSchedule req).
Proof. unfold GroupSchedules.handleDeleteGroupSchedule. fail_stop_walk. Qed.

Lemma winds_down_try_catch q (p : Prog Response) h :
  winds_down q p -> winds_down q (try_catch p h).
Proof.
  destruct p as [r|m|token k|q' k]; simpl; try tauto.
  intros (Hdel & Hk). split; [exact Hdel|].
  intros rep. destruct (Hk rep) as (r & -> & Hr). exists r. auto.
Qed.

(** After a failed store call that is not tolerated, the only call
    a handler can still make is the compensating delete, and that
    only where the failed call is the insert of a membership. *)
Lemma winds_down_calls q (p : Prog Response) :
  winds_down q p ->
  table q <> "group_members" ->
  exists r, p = Ret r /\ is_error r = true.
Proof.
  destruct p as [r|m|token k|q' k]; simpl; try tauto.
  - intros Hr _. exists r. auto.
  - intros [(member & Ht & _) _] Hne. contradiction.
Qed.

Lemma fail_stop_try_catch tolerant (p : Prog Response) h :
  fail_stop tolerant p -> fail_stop tolerant (try_catch p h).
Proof.
  induction p as [r|m|token k IH|q k IH]; simpl; try tauto.
  - intros Hk a. apply IH, Hk.
  - intros Hk rep. destruct (Hk rep) as [Hfail Hrest]. split.
    + intros Hf. destruct (Hfail Hf) as [Hstrict Htol]. split.
      * intros Hq. apply winds_down_try_catch, Hstrict, Hq.
      * intros Hq. destruct (Htol Hq) as [r Hr]. exists r.
        rewrite Hr. reflexivity.
    + apply IH, Hrest.
Qed.

Create HintDb handlers.
Hint Resolve handleCreateEvent_fail_stop handleListEvents_fail_stop handleGetEvent_fail_stop handleUpdateEvent_fail_stop handleDeleteEvent_fail_stop handleAddLineupEntry_fail_stop handleListLineup_fail_stop handleRemoveLineupEntry_fail_stop handleCreateArtist_fail_stop handleListArtists_fail_stop handleGetArtist_fail_stop handleUpdateArtist_fail_stop handleDeleteArtist_fail_stop handleCreateStage_fail_stop handleListStages_fail_stop handleUpdateStage_fail_stop handleDeleteStage_fail_stop handleCreateSetTime_fail_stop handleListSetTimes_fail_stop handleUpdateSetTime_fail_stop handleDeleteSetTime_fail_stop handleAddCollaboration_fail_stop handleListCollaborations_fail_stop handleRemoveCollaboration_fail_stop handleListGroupSchedules_fail_stop handleGetGroupSchedule_fail_stop handleCreateGroupSchedule_fail_stop handleUpdateGroupSchedule_fail_stop handleDeleteGroupSchedule_fail_stop : handlers.

Ltac route :=
  unfold main_guard; apply fail_stop_try_catch;
  repeat (break_match; auto with handlers); simpl; auto with handlers.

Lemma Events_serve_fail_stop key host_suffix req :
  fail_stop tolerated (Events.serve key host_suffix req).
Proof.
  unfold Events.serve. cbv zeta.
  destruct (Events.localhost_pathname _ _); [route|exact I].
Qed.

Lemma Lineups_serve_fail_stop req :
  fail_stop tolerated (Lineups.serve req).
Proof. unfold Lineups.serve. route. Qed.

Lemma Artists_serve_fail_stop key req :
  fail_stop tolerated (Artists.serve key req).
Proof. unfold Artists.serve. route. Qed.

Lemma Stages_serve_fail_stop Number req :
  fail_stop tolerated (Stages.serve Number req).
Proof. unfold Stages.serve. route. Qed.

Lemma SetTimes_serve_fail_stop req :
  fail_stop tolerated (SetTimes.serve req).
Proof. unfold SetTimes.serve. route. Qed.

Lemma GroupSchedules_serve_fail_stop now req :
  fail_stop tolerated (GroupSchedules.serve now req).
Proof. unfold GroupSchedules.serve. route. Qed.

Hint Resolve Events_serve_fail_stop Lineups_serve_fail_stop
     Artists_serve_fail_stop Stages_serve_fail_stop
     SetTimes_serve_fail_stop GroupSchedules_serve_fail_stop : handlers.

(** C6, as the code has it.  In each of the twenty-nine handlers and
    the six main handlers, a store call that answers with an error
    ends the request with an error response at once.  Nothing more
    is asked of the store, with one exception: when the insert of
    the creator's membership fails in group creation, the handler
    deletes the group it has just created (the row of
    [group_schedules] whose id the membership names) and answers
    with the error whatever the store replies.  No failed call is
    made again and no success response is built.
    The exceptions are the three enrichment look-ups of [tolerated]
    (the caller's saved events in the events list and detail, the
    collaborations of a schedule): their failure is logged and the
    handler answers from what it has, without a further store call.
    No exception escapes a handler. *)
Theorem store_failures_end_the_request_unless_tolerated :
  forall (API_KEY : option string) (now : string) (Number : string -> value)
         (host_suffix : string -> option string),
    Forall (fun h => forall req, fail_stop tolerated (h req))
           (all_handlers API_KEY now Number
            ++ all_functions API_KEY now Number host_suffix).
Proof.
  intros key now Number host_suffix. unfold all_handlers, all_functions. simpl.
  repeat (constructor; [intro; auto with handlers|]).
  constructor.
Qed.

(** C6 as stated fails: the events list ignores a failed look-up of
    the caller's saved events.  With the connection failing on the
    second store call, the first call's rows come back with status
    200. *)
Lemma events_list_ignores_failed_lookup :
  let req := request "GET" "/events" (Some "tok-alice") None no_body in
  let r := run (Events.handleListEvents req) (world [None; Some broken]) in
  map (fun c => failed (snd c)) (calls r) = [false; true]
  /\ option_map status (response r) = Some 200%Z
  /\ ~ surfaces_every_failure (Events.handleListEvents req).
Proof.
  simpl. split; [reflexivity|]. split; [reflexivity|].
  unfold surfaces_every_failure. intros H. simpl in H.
  specialize (H (AuthReturns false (Some alice))). simpl in H.
  destruct (H (no_error (VArr []) VNull)) as [_ H2]. simpl in H2.
  destruct (H2 (failure broken)) as [H3 _].
  destruct (H3 eq_refl) as [H4 _].
  specialize (H4 eq_refl). simpl in H4. discriminate H4.
Qed.

End StoreFailures.

(* ================================================================== *)
(** * The list of group schedules                                     *)
(* ================================================================== *)

Section GroupList.
Import Json Http Supabase Store Props Sample.

Lemma sublist_refl {X} (l : list X) : sublist l l.
Proof. induction l; [apply sublist_nil | apply sublist_keep; auto]. Qed.

Lemma sublist_nil_l {X} (l : list X) : sublist [] l.
Proof. induction l; [apply sublist_nil | apply sublist_skip; auto]. Qed.

Lemma sublist_trans {X} (l1 l2 l3 : list X) :
  sublist l1 l2 -> sublist l2 l3 -> sublist l1 l3.
Proof.
  intros H12 H23. revert l1 H12.
  induction H23 as [|x l2 l3 H IH|x l2 l3 H IH]; intros l1 H12.
  - exact H12.
  - apply sublist_skip. auto.
  - inversion H12; subst.
    + apply sublist_skip. auto.
    + apply sublist_keep. auto.
Qed.

Lemma sublist_firstn {X} n (l : list X) : sublist (firstn n l) l.
Proof.
  revert n. induction l as [|x l IH]; intros [|n]; simpl;
    auto using sublist_nil_l, sublist_nil, sublist_keep.
Qed.

Lemma sublist_skipn {X} n (l : list X) : sublist (skipn n l) l.
Proof.
  revert n. induction l as [|x l IH]; intros [|n]; simpl;
    auto using sublist_refl, sublist_nil, sublist_skip.
Qed.

Lemma sublist_slice {X} (l : list X) a b : sublist (JS.slice l a b) l.
Proof.
  unfold JS.slice.
  eapply sublist_trans; [apply sublist_firstn | apply sublist_skipn].
Qed.

Lemma sublist_keep_flags {X} flags (l : list X) :
  sublist (GroupSchedules.keep flags l) l.
Proof.
  unfold GroupSchedules.keep. revert flags.
  induction l as [|x l IH]; intros [|[|] flags]; simpl;
    auto using sublist_nil_l, sublist_nil, sublist_skip, sublist_keep.
Qed.

Lemma sublist_map {X Y} (f : X -> Y) l1 l2 :
  sublist l1 l2 -> sublist (map f l1) (map f l2).
Proof.
  induction 1; simpl;
    auto using sublist_nil, sublist_skip, sublist_keep.
Qed.

Lemma sublist_Forall {X} (P : X -> Prop) l1 l2 :
  sublist l1 l2 -> Forall P l2 -> Forall P l1.
Proof.
  induction 1; intros HF; auto; inversion HF; subst; auto.
Qed.

Lemma sublist_pairs {X} (R : X -> X -> Prop) l1 l2 :
  sublist l1 l2 -> ForallOrdPairs R l2 -> ForallOrdPairs R l1.
Proof.
  induction 1 as [|x l1 l2 H IH|x l1 l2 H IH]; intros HF; auto.
  - inversion HF; subst; auto.
  - inversion HF; subst. constructor; auto.
    eapply sublist_Forall; eauto.
Qed.

(** ** Key equality of [Map] *)

Lemma same_value_zero_eq a b : same_value_zero a b = true -> a = b.
Proof.
  destruct a, b; simpl; try discriminate; try reflexivity; intros H.
  - apply Bool.eqb_prop in H. congruence.
  - apply Z.eqb_eq in H. congruence.
  - apply Bool.eqb_prop in H. congruence.
  - apply String.eqb_eq in H. congruence.
Qed.

Lemma same_value_zero_sym a b : same_value_zero a b = same_value_zero b a.
Proof.
  destruct a, b; simpl; try reflexivity.
  - destruct b, b0; reflexivity.
  - apply Z.eqb_sym.
  - destruct negative, negative0; reflexivity.
  - apply String.eqb_sym.
Qed.

Lemma same_value_zero_refl a : is_primitive a = true -> same_value_zero a a = true.
Proof.
  destruct a; simpl; try reflexivity; try discriminate; intros _.
  - destruct b; reflexivity.
  - apply Z.eqb_refl.
  - destruct negative; reflexivity.
  - apply String.eqb_refl.
Qed.

Lemma distinct_keys_NoDup ids :
  distinct_keys ids -> forallb is_primitive ids = true -> NoDup ids.
Proof.
  induction 1 as [|k ids Hk Hrest IH]; simpl; intros Hp.
  - constructor.
  - apply andb_prop in Hp. destruct Hp as [Hpk Hp]. constructor; auto.
    intros Hin. rewrite Forall_forall in Hk.
    specialize (Hk _ Hin). rewrite same_value_zero_refl in Hk by exact Hpk.
    discriminate.
Qed.

(** ** [new Map(...)] keeps one entry per key *)

Lemma map_set_apart k' k v m :
  same_value_zero k k' = false ->
  Forall (fun k2 => same_value_zero k' k2 = false) (map fst m) ->
  Forall (fun k2 => same_value_zero k' k2 = false)
         (map fst (GroupSchedules.map_set k v m)).
Proof.
  intros Hs. induction m as [|[k2 v2] m IH]; simpl; intros Hm.
  - constructor; [|constructor]. rewrite same_value_zero_sym. exact Hs.
  - inversion Hm; subst.
    destruct (same_value_zero k k2) eqn:Hs2; simpl.
    + apply same_value_zero_eq in Hs2. subst. constructor; auto.
    + constructor; auto.
Qed.

Lemma map_set_keys k v m :
  distinct_keys (map fst m) ->
  distinct_keys (map fst (GroupSchedules.map_set k v m)).
Proof.
  unfold distinct_keys.
  induction m as [|[k' v'] m IH]; simpl; intros Hd.
  - constructor; constructor.
  - inversion Hd as [|? ? Hk Hrest]; subst.
    destruct (same_value_zero k k') eqn:Hs; simpl.
    + apply same_value_zero_eq in Hs. subst. constructor; auto.
    + constructor; auto using map_set_apart.
Qed.

Lemma map_set_keyed k v m :
  column "id" v = k -> keyed_by_id m -> keyed_by_id (GroupSchedules.map_set k v m).
Proof.
  unfold keyed_by_id. intros Hv.
  induction m as [|[k' v'] m IH]; simpl; intros Hm.
  - constructor; auto.
  - inversion Hm as [|? ? He Hrest]. clear Hm.
    destruct (same_value_zero k k'); constructor; auto.
Qed.

Lemma new_Map_invariant entries :
  keyed_by_id entries ->
  distinct_keys (map fst (GroupSchedules.new_Map entries))
  /\ keyed_by_id (GroupSchedules.new_Map entries).
Proof.
  unfold GroupSchedules.new_Map.
  assert (Hgen : forall acc,
             keyed_by_id entries ->
             distinct_keys (map fst acc) -> keyed_by_id acc ->
             distinct_keys (map fst (fold_left
                (fun m e => GroupSchedules.map_set (fst e) (snd e) m) entries acc))
             /\ keyed_by_id (fold_left
                (fun m e => GroupSchedules.map_set (fst e) (snd e) m) entries acc)).
  { induction entries as [|[k v] entries IH]; simpl; intros acc He Hd Hk.
    - auto.
    - inversion He; subst. apply IH; auto.
      + apply map_set_keys; auto.
      + apply map_set_keyed; auto. }
  intros He. apply Hgen; auto; constructor.
Qed.

Lemma get_prop_column v k x : get_prop v k = Some x -> column k v = x.
Proof.
  unfold column. destruct v; simpl; try discriminate; congruence.
Qed.

Lemma traverse_keyed groups ids :
  traverse (fun g => get_prop g "id") groups = Some ids ->
  keyed_by_id (combine ids groups).
Proof.
  unfold keyed_by_id. revert ids.
  induction groups as [|g groups IH]; simpl; intros ids.
  - intros [= <-]. constructor.
  - destruct (get_prop g "id") as [k|] eqn:Hk; [|discriminate].
    destruct (traverse _ groups) as [ks|]; [|discriminate].
    intros [= <-]. simpl. constructor; auto.
    apply get_prop_column. exact Hk.
Qed.

(** [uniqueGroups] holds each id once. *)
Lemma uniqueGroups_distinct allGroups ids :
  traverse (fun g => get_prop g "id") allGroups = Some ids ->
  distinct_keys (ids_of (GroupSchedules.uniqueGroups allGroups ids)).
Proof.
  intros Ht. apply traverse_keyed in Ht.
  destruct (new_Map_invariant _ Ht) as [Hd Hk].
  unfold GroupSchedules.uniqueGroups, GroupSchedules.Map_values, ids_of.
  rewrite map_map.
  replace (map (fun x => column "id" (snd x)) (GroupSchedules.new_Map (combine ids allGroups)))
    with (map fst (GroupSchedules.new_Map (combine ids allGroups))); [exact Hd|].
  unfold keyed_by_id in Hk. clear Hd.
  induction Hk as [|e m He Hm IH]; simpl; [reflexivity|].
  rewrite He, IH. reflexivity.
Qed.

Lemma filter_by_event_sublist eventId unique filtered :
  GroupSchedules.filter_by_event eventId unique = Some filtered ->
  sublist filtered unique.
Proof.
  unfold GroupSchedules.filter_by_event.
  destruct (present eventId) as [e|].
  - destruct (traverse (GroupSchedules.event_matches e) unique) as [flags|];
      simpl; [|discriminate].
    intros [= <-]. apply sublist_keep_flags.
  - intros [= <-]. apply sublist_refl.
Qed.

Lemma distinct_keys_sublist rows1 rows2 :
  sublist rows1 rows2 ->
  distinct_keys (ids_of rows2) -> distinct_keys (ids_of rows1).
Proof.
  intros Hs. apply sublist_pairs. unfold ids_of. apply sublist_map, Hs.
Qed.

(** C10.  Whatever the two queries of the list handler answer, a
    200 response holds each group id at most once: the merged list
    is first reduced to one entry per [group.id] (the keys of the
    [Map]), then filtered by event, then cut to the page.  The ids
    of the page are pairwise different as [Map] keys, and hence
    without duplicates when they are numbers or other primitive
    values. *)
Theorem listed_groups_hold_each_id_once :
  forall req a created member resp,
    play (GroupSchedules.handleListGroupSchedules req) a [created; member]
    = Some (Returned resp) ->
    status resp = 200%Z ->
    exists unique filtered groups,
      distinct_keys (ids_of unique)
      /\ GroupSchedules.filter_by_event (param "event_id" (searchParams req))
                                        unique = Some filtered
      /\ groups = JS.slice filtered
                           (startRange (page_of req) (pageSize_of "20" req))
                           (JS.num_add
                              (endRange (page_of req) (pageSize_of "20" req))
                              (Some 1%Z))
      /\ body_field "group_schedules" resp = VArr groups
      /\ distinct_keys (ids_of groups)
      /\ (forallb is_primitive (ids_of groups) = true -> NoDup (ids_of groups)).
Proof.
  intros req a created member resp Hplay Hstatus.
  unfold GroupSchedules.handleListGroupSchedules,
         GroupSchedules.respond_with_groups,
         getAuthenticatedUserAndToken in Hplay.
  open_prog.
  split_play Hplay;
    try discriminate Hplay;
    try (injection Hplay as <-; discriminate Hstatus).
  injection Hplay as <-.
  match goal with
  | Ht : traverse (fun g => get_prop g "id") ?all = Some ?ids,
    Hf : GroupSchedules.filter_by_event _ _ = Some ?f |- _ =>
      pose proof (uniqueGroups_distinct _ _ Ht) as Hu;
      pose proof (filter_by_event_sublist _ _ _ Hf) as Hsub;
      exists (GroupSchedules.uniqueGroups all ids), f
  end.
  eexists. split; [exact Hu|]. split; [eassumption|].
  split; [reflexivity|]. split; [reflexivity|].
  match goal with |- ?D /\ _ => assert (Hd : D) end.
  { eapply distinct_keys_sublist; [|exact Hu].
    eapply sublist_trans; [apply sublist_slice | exact Hsub]. }
  split; [exact Hd|]. apply distinct_keys_NoDup, Hd.
Qed.

Lemma listed_groups_hold_each_id_once_witness :
  play (GroupSchedules.handleListGroupSchedules list_groups_request)
       (AuthReturns false (Some bob)) [created_by_bob; joined_by_bob]
  = Some (Returned list_groups_response)
  /\ status list_groups_response = 200%Z
  /\ exists groups,
       body_field "group_schedules" list_groups_response = VArr groups
       /\ NoDup (ids_of groups).
Proof.
  assert (H1 : play (GroupSchedules.handleListGroupSchedules list_groups_request)
                    (AuthReturns false (Some bob)) [created_by_bob; joined_by_bob]
               = Some (Returned list_groups_response)) by reflexivity.
  assert (H2 : status list_groups_response = 200%Z) by reflexivity.
  split; [exact H1|]. split; [exact H2|].
  destruct (listed_groups_hold_each_id_once _ _ _ _ _ H1 H2)
    as (unique & filtered & groups & _ & _ & _ & Hbody & _ & Hnodup).
  exists groups. split; [exact Hbody|].
  apply Hnodup. injection Hbody as <-. reflexivity.
Defined.

End GroupList.

(* ================================================================== *)
(** * Pagination                                                      *)
(* ================================================================== *)

Section Pagination.
Import Json Http Supabase Store Props Sample.

Lemma ceil_div_is_ceiling total pageSize :
  (1 <= pageSize)%Z -> is_ceiling total pageSize (JS.ceil_div total pageSize).
Proof.
  intros Hs. unfold is_ceiling, JS.ceil_div.
  pose proof (Z.div_mod (- total) pageSize ltac:(lia)) as Hdm.
  pose proof (Z.mod_pos_bound (- total) pageSize ltac:(lia)) as Hb.
  nia.
Qed.

Lemma is_ceiling_unique total pageSize (Hs : (1 <= pageSize)%Z) p1 p2 :
  is_ceiling total pageSize p1 -> is_ceiling total pageSize p2 -> p1 = p2.
Proof. unfold is_ceiling. intros. nia. Qed.

Lemma ceil_div_zero pageSize : (1 <= pageSize)%Z -> JS.ceil_div 0 pageSize = 0%Z.
Proof.
  intros Hs. apply (is_ceiling_unique 0 pageSize Hs).
  - apply ceil_div_is_ceiling, Hs.
  - unfold is_ceiling. lia.
Qed.

(** [slice(startRange, endRange + 1)] is the window of the page. *)
Lemma slice_is_page_window {X} (rows : list X) page pageSize :
  (1 <= page)%Z -> (1 <= pageSize)%Z ->
  JS.slice rows (startRange (Some page) (Some pageSize))
           (JS.num_add (endRange (Some page) (Some pageSize)) (Some 1%Z))
  = page_window page pageSize rows.
Proof.
  intros Hp Hs. unfold JS.slice, page_window, startRange, endRange. simpl.
  set (len := Z.of_nat (length rows)).
  set (from := ((page - 1) * pageSize)%Z).
  assert (Hfrom : (0 <= from)%Z) by (unfold from; nia).
  replace (page * pageSize - 1 + 1)%Z with (from + pageSize)%Z
    by (unfold from; lia).
  destruct (Z.ltb_spec from 0); [lia|].
  destruct (Z.ltb_spec (from + pageSize) 0); [lia|].
  destruct (Z.le_gt_cases len from) as [Hout|Hin].
  - (* the page starts beyond the last record *)
    rewrite Z.min_r by lia. rewrite Z.min_r by lia.
    rewrite !skipn_all2 by (unfold len in *; lia).
    rewrite !firstn_nil. reflexivity.
  - rewrite (Z.min_l from len) by lia.
    destruct (Z.le_gt_cases (from + pageSize) len) as [Hfull|Hshort].
    + rewrite Z.min_l by lia. f_equal. lia.
    + rewrite Z.min_r by lia.
      assert (Hlen : length (skipn (Z.to_nat from) rows)
                     = Z.to_nat (len - from)).
      { rewrite length_skipn. unfold len. lia. }
      rewrite !firstn_all2; try reflexivity; rewrite Hlen; lia.
Qed.

Lemma page_window_length {X} (rows : list X) page pageSize :
  (length (page_window page pageSize rows) <= Z.to_nat pageSize)%nat.
Proof. unfold page_window. apply firstn_le_length. Qed.









End Pagination.

(* ================================================================== *)
(** * Requests against the reference store                            *)
(* ================================================================== *)

Section ReferenceRuns.
Import Json Http Supabase Store Props Sample.

Lemma rows_of_set_rows_same t rows ts : rows_of t (set_rows t rows ts) = rows.
Proof.
  induction ts as [|[t' rows'] ts IH]; simpl.
  - rewrite String.eqb_refl. reflexivity.
  - destruct (String.eqb t t') eqn:E; simpl.
    + rewrite String.eqb_refl. reflexivity.
    + rewrite E. exact IH.
Qed.

Lemma rows_of_set_rows_other t t' rows ts :
  String.eqb t' t = false ->
  rows_of t' (set_rows t rows ts) = rows_of t' ts.
Proof.
  intros Hne. induction ts as [|[t2 rows2] ts IH]; simpl.
  - rewrite Hne. reflexivity.
  - destruct (String.eqb t t2) eqn:E; simpl.
    + apply String.eqb_eq in E. subst t2. rewrite Hne. reflexivity.
    + destruct (String.eqb t' t2); [reflexivity|exact IH].
Qed.

Lemma exec_read d q : is_write q = false -> snd (exec d q) = d.
Proof.
  unfold is_write, exec. destruct (action q); try discriminate. intros _.
  destruct (window (range q) _); [destruct head|]; reflexivity.
Qed.

Lemma run_read {A} q (k : Reply -> Prog A) a d :
  is_write q = false ->
  run (Ask q k) (healthy a d)
  = let rest := run (k (answer d q)) (healthy a d) in
    {| outcome := outcome rest; after := after rest;
       calls := (q, answer d q) :: calls rest |}.
Proof.
  intros Hq. simpl. unfold call, healthy, answer. simpl.
  pose proof (exec_read d q Hq) as Hd.
  destruct (exec d q) as [r d']. simpl in *. subst d'. reflexivity.
Qed.

Lemma run_user {A} token (k : AuthReply -> Prog A) w :
  run (GetUser token k) w = run (k (auth w token)) w.
Proof. reflexivity. Qed.

Lemma filter_none {X} (p q : X -> bool) rows :
  (forall r, q r = p r) -> existsb p rows = false -> filter q rows = [].
Proof.
  intros Hpq. induction rows as [|r rows IH]; simpl; [reflexivity|].
  rewrite Hpq. destruct (p r); simpl; [discriminate|]. exact IH.
Qed.

Lemma answer_select d c t cols ret fs ord card :
  answer d {| client := c; table := t; action := Select cols false false;
              returning := ret; filters := fs; order := ord; range := None;
              cardinality := card |}
  = shape card (filter (selected fs) (rows_of t (tables d))) VNull.
Proof. reflexivity. Qed.

Lemma selected_two row c1 v1 c2 v2 :
  selected [Eq c1 v1; Eq c2 v2] row = having c1 v1 row && having c2 v2 row.
Proof. unfold selected, having. simpl. rewrite andb_true_r. reflexivity. Qed.


Lemma creator_lookup_empty d c cols groupId u :
  is_creator d groupId u = false ->
  answer d (maybeSingle
              (where_ (where_ (from c "group_schedules"
                                    (Select cols false false))
                              (Eq "id" (VStr groupId)))
                      (Eq "created_by" (VStr (user_id u)))))
  = no_error VNull VNull.
Proof.
  intros Hc. unfold maybeSingle, where_, from. simpl.
  rewrite answer_select.
  rewrite (filter_none _ (selected [Eq "id" (VStr groupId);
                                    Eq "created_by" (VStr (user_id u))]) _
                       (fun r => selected_two r _ _ _ _) Hc).
  reflexivity.
Qed.

Lemma membership_lookup_empty d c groupId u :
  is_member d groupId u = false ->
  answer d (maybeSingle
              (where_ (where_ (from c "group_members"
                                    (Select "*" false false))
                              (Eq "group_id" (VStr groupId)))
                      (Eq "user_id" (VStr (user_id u)))))
  = no_error VNull VNull.
Proof.
  intros Hc. unfold maybeSingle, where_, from. simpl.
  rewrite answer_select.
  rewrite (filter_none _ (selected [Eq "group_id" (VStr groupId);
                                    Eq "user_id" (VStr (user_id u))]) _
                       (fun r => selected_two r _ _ _ _) Hc).
  reflexivity.
Qed.

Lemma get_group_without_access a d req u token groupId :
  bearer_token req = Some token -> (token =? "") = false ->
  a token = AuthReturns false (Some u) ->
  GroupSchedules.getGroupIdFromUrl (pathname req) = Some groupId ->
  is_creator d groupId u = false ->
  is_member d groupId u = false ->
  let r := run (GroupSchedules.handleGetGroupSchedule req) (healthy a d) in
  response r = Some (notFoundResponse GroupSchedules.not_found_message)
  /\ db (after r) = d.
Proof.
  intros Hb Hne Ha Hid Hc Hm.
  unfold GroupSchedules.handleGetGroupSchedule, getAuthenticatedUserAndToken.
  rewrite Hb, Hne.
  unfold guarded. cbn [bind try_catch]. rewrite run_user.
  cbn [auth healthy]. rewrite Ha. rewrite Hid. cbn [bind try_catch].
  rewrite run_read by reflexivity. cbn zeta.
  rewrite (creator_lookup_empty d _ _ _ _ Hc).
  cbn [error data no_error truthy negb try_catch].
  rewrite run_read by reflexivity. cbn zeta.
  rewrite (membership_lookup_empty d _ _ _ Hm).
  cbn [error data no_error truthy negb andb try_catch].
  repeat split.
Qed.

(** C2.  A GET of a group schedule by an authenticated caller who is
    neither its creator nor one of its members is answered 404 with
    the one not-found body, whether or not a group with that id
    exists; the store is left as it was. *)
Theorem inaccessible_group_is_not_found :
  forall w req u token groupId,
    authenticates w req u token ->
    GroupSchedules.getGroupIdFromUrl (pathname req) = Some groupId ->
    faults w = [] ->
    is_creator (db w) groupId u = false ->
    is_member (db w) groupId u = false ->
    let r := run (GroupSchedules.handleGetGroupSchedule req) w in
    response r = Some (notFoundResponse GroupSchedules.not_found_message)
    /\ option_map status (response r) = Some 404%Z
    /\ db (after r) = db w.
Proof.
  intros [a d f] req u token groupId (Hb & Hne & Ha) Hid Hf Hc Hm.
  simpl in *. subst f. fold (healthy a d). apply String.eqb_neq in Hne.
  destruct (get_group_without_access a d req u token groupId
              Hb Hne Ha Hid Hc Hm) as [Hresp Hdb].
  rewrite Hresp. repeat split. exact Hdb.
Qed.

Lemma inaccessible_group_is_not_found_witness :
  let existing := request "GET" "/group-schedules/1" (Some "tok-alice") None no_body in
  let absent := request "GET" "/group-schedules/999" (Some "tok-alice") None no_body in
  is_creator database "1" alice = false
  /\ is_member database "1" alice = false
  /\ response (run (GroupSchedules.handleGetGroupSchedule existing) (world []))
     = Some (notFoundResponse GroupSchedules.not_found_message)
  /\ response (run (GroupSchedules.handleGetGroupSchedule absent) (world []))
     = Some (notFoundResponse GroupSchedules.not_found_message).
Proof.
  cbv zeta.
  assert (Hauth : forall path,
             authenticates (world [])
               (request "GET" path (Some "tok-alice") None no_body)
               alice "tok-alice").
  { intros path. split; [reflexivity|]. split; [discriminate|reflexivity]. }
  assert (Hc1 : is_creator database "1" alice = false) by (vm_compute; reflexivity).
  assert (Hm1 : is_member database "1" alice = false) by (vm_compute; reflexivity).
  assert (Hc2 : is_creator database "999" alice = false) by (vm_compute; reflexivity).
  assert (Hm2 : is_member database "999" alice = false) by (vm_compute; reflexivity).
  assert (Hid1 : GroupSchedules.getGroupIdFromUrl "/group-schedules/1" = Some "1")
    by (vm_compute; reflexivity).
  assert (Hid2 : GroupSchedules.getGroupIdFromUrl "/group-schedules/999" = Some "999")
    by (vm_compute; reflexivity).
  split; [exact Hc1|]. split; [exact Hm1|]. split.
  - exact (proj1 (inaccessible_group_is_not_found (world []) _ alice "tok-alice"
                    "1" (Hauth _) Hid1 eq_refl Hc1 Hm1)).
  - exact (proj1 (inaccessible_group_is_not_found (world []) _ alice "tok-alice"
                    "999" (Hauth _) Hid2 eq_refl Hc2 Hm2)).
Defined.

(** Forbidden and absent look the same: the response to a caller
    without access to an existing group equals the response to a
    request for a group that does not exist. *)
Corollary forbidden_and_absent_look_the_same :
  forall w1 w2 req u token groupId,
    authenticates w1 req u token -> authenticates w2 req u token ->
    GroupSchedules.getGroupIdFromUrl (pathname req) = Some groupId ->
    faults w1 = [] -> faults w2 = [] ->
    (* the group exists in the first world, out of the caller's reach *)
    existsb (having "id" (VStr groupId))
            (rows_of "group_schedules" (tables (db w1))) = true ->
    is_creator (db w1) groupId u = false ->
    is_member (db w1) groupId u = false ->
    (* and not in the second *)
    existsb (having "id" (VStr groupId))
            (rows_of "group_schedules" (tables (db w2))) = false ->
    is_member (db w2) groupId u = false ->
    response (run (GroupSchedules.handleGetGroupSchedule req) w1)
    = response (run (GroupSchedules.handleGetGroupSchedule req) w2).
Proof.
  intros w1 w2 req u token groupId Ha1 Ha2 Hid Hf1 Hf2 _ Hc1 Hm1 Hno Hm2.
  assert (Hc2 : is_creator (db w2) groupId u = false).
  { unfold is_creator.
    induction (rows_of "group_schedules" (tables (db w2))) as [|r rows IH];
      simpl in *; [reflexivity|].
    apply orb_false_elim in Hno. destruct Hno as [Hr Hrows].
    rewrite Hr. simpl. auto. }
  destruct w1 as [a1 d1 f1], w2 as [a2 d2 f2].
  destruct Ha1 as (Hb & Hne & Ha1). destruct Ha2 as (_ & _ & Ha2).
  simpl in *. subst f1 f2. apply String.eqb_neq in Hne.
  fold (healthy a1 d1). fold (healthy a2 d2).
  destruct (get_group_without_access a1 d1 req u token groupId
              Hb Hne Ha1 Hid Hc1 Hm1) as [-> _].
  destruct (get_group_without_access a2 d2 req u token groupId
              Hb Hne Ha2 Hid Hc2 Hm2) as [-> _].
  reflexivity.
Qed.

(** ** A key selects at most one row *)

Lemma filter_at_most_one {X} (R : X -> X -> bool) (p : X -> bool) rows :
  ForallOrdPairs (fun a b => R a b = false) rows ->
  (forall a b, p a = true -> p b = true -> R a b = true) ->
  filter p rows = [] \/ exists row, filter p rows = [row] /\ p row = true.
Proof.
  intros Hu Hp. induction Hu as [|a rows Ha Hrest IH]; simpl; [auto|].
  destruct (p a) eqn:Hpa.
  - right. exists a. split; [|exact Hpa]. f_equal.
    clear IH Hrest. induction rows as [|b rows IHb]; simpl; [reflexivity|].
    inversion Ha as [|? ? Hab Hrows]; subst.
    destruct (p b) eqn:Hpb.
    + rewrite (Hp a b Hpa Hpb) in Hab. discriminate.
    + auto.
  - exact IH.
Qed.

Lemma filter_some {X} (p q : X -> bool) rows :
  (forall r, q r = p r) -> existsb p rows = true -> filter q rows <> [].
Proof.
  intros Hpq. induction rows as [|r rows IH]; simpl; [discriminate|].
  rewrite Hpq. destruct (p r); simpl; [discriminate|]. exact IH.
Qed.

Lemma having_same c v a b :
  having c v a = true -> having c v b = true ->
  lit_eq (column c a) (column c b) = true.
Proof.
  unfold having, lit_eq. intros Ha Hb.
  destruct (column c a); try discriminate;
    destruct (column c b); try discriminate;
    apply String.eqb_eq in Ha; apply String.eqb_eq in Hb;
    apply String.eqb_eq; congruence.
Qed.

Lemma having_truthy c v row : having c v row = true -> truthy row = true.
Proof.
  unfold having, column. destruct row; simpl; try discriminate; reflexivity.
Qed.

(** The look-up of a group by id and creator: no row, or the one row. *)
Lemma creator_lookup d c cols groupId u :
  unique_on ["id"] (rows_of "group_schedules" (tables d)) ->
  exists rep,
    answer d (maybeSingle
                (where_ (where_ (from c "group_schedules"
                                      (Select cols false false))
                                (Eq "id" (VStr groupId)))
                        (Eq "created_by" (VStr (user_id u)))))
    = rep
    /\ error rep = None
    /\ truthy (data rep) = is_creator d groupId u.
Proof.
  intros Hu. unfold maybeSingle, where_, from. simpl. rewrite answer_select.
  destruct (filter_at_most_one (agree_on ["id"])
              (selected [Eq "id" (VStr groupId);
                         Eq "created_by" (VStr (user_id u))]) _ Hu)
    as [Hnone|(row & Hone & Hrow)].
  - intros a b Ha Hb. rewrite selected_two in Ha, Hb.
    apply andb_prop in Ha. apply andb_prop in Hb.
    unfold agree_on. simpl. rewrite andb_true_r.
    eapply having_same; [apply Ha|apply Hb].
  - rewrite Hnone. eexists. split; [reflexivity|]. split; [reflexivity|].
    simpl. symmetry. unfold is_creator.
    destruct (existsb _ _) eqn:He; [|reflexivity].
    exfalso. eapply filter_some; [|exact He|exact Hnone].
    intros r. apply selected_two.
  - rewrite Hone. eexists. split; [reflexivity|]. split; [reflexivity|].
    simpl. rewrite selected_two in Hrow. apply andb_prop in Hrow.
    rewrite (having_truthy _ _ _ (proj1 Hrow)). symmetry.
    unfold is_creator.
    destruct (existsb _ _) eqn:He; [reflexivity|]. exfalso.
    rewrite (filter_none _ (selected [Eq "id" (VStr groupId);
                                      Eq "created_by" (VStr (user_id u))]) _
                         (fun r => selected_two r _ _ _ _) He) in Hone.
    discriminate.
Qed.


(** ** Which calls a run made *)

Lemma issued_first {A} q (k : Reply -> Prog A) w p :
  p q = true -> issued (run (Ask q k) w) p.
Proof.
  intros Hp. simpl. destruct (call w q) as [rep w']. simpl.
  exists q, rep. split; [left; reflexivity|exact Hp].
Qed.

Lemma issued_read {A} q (k : Reply -> Prog A) a d p :
  is_write q = false -> p q = false ->
  issued (run (Ask q k) (healthy a d)) p
  <-> issued (run (k (answer d q)) (healthy a d)) p.
Proof.
  intros Hq Hp. rewrite run_read by exact Hq. unfold issued. simpl. split.
  - intros (q' & rep & [Heq|Hin] & Hq').
    + injection Heq as <- <-. congruence.
    + exists q', rep. auto.
  - intros (q' & rep & Hin & Hq'). exists q', rep. auto.
Qed.

Lemma issued_ret (r : Response) w p : ~ issued (run (Ret r) w) p.
Proof. intros (q & rep & [] & _). Qed.

Lemma not_issued_later {A} (rest : Run A) q rep p :
  p q = false -> ~ issued rest p ->
  ~ issued {| outcome := outcome rest; after := after rest;
              calls := (q, rep) :: calls rest |} p.
Proof.
  intros Hq Hrest (q' & rep' & [Heq|Hin] & Hq').
  - injection Heq as <- <-. congruence.
  - apply Hrest. exists q', rep'. auto.
Qed.

Lemma issued_later {A} (rest : Run A) q rep p :
  issued rest p ->
  issued {| outcome := outcome rest; after := after rest;
            calls := (q, rep) :: calls rest |} p.
Proof.
  intros (q' & rep' & Hin & Hq'). exists q', rep'. split; [right|]; assumption.
Qed.










Lemma write_is_issued {A} (r : Run A) q (p : Query -> bool) :
  writes r = [q] -> (forall q', p q' = true -> is_write q' = true) ->
  issued r p -> p q = true.
Proof.
  unfold writes. intros Hw Hp (q' & rep & Hin & Hq').
  assert (Hin' : In q' (filter is_write (map fst (calls r)))).
  { apply filter_In. split; [|apply Hp, Hq'].
    apply (in_map fst) in Hin. exact Hin. }
  rewrite Hw in Hin'. destruct Hin' as [<-|[]]. exact Hq'.
Qed.



End ReferenceRuns.

(* ================================================================== *)
(** * Group creation and its compensation                             *)
(* ================================================================== *)

Section GroupCreation.
Import Json Http Supabase Store Props Sample.

Lemma string_of_Z_inj a b : string_of_Z a = string_of_Z b -> a = b.
Proof.
  unfold string_of_Z. intros H.
  assert (Hnn : forall z, Z.to_int z <> Decimal.Pos Decimal.Nil
                          /\ Z.to_int z <> Decimal.Neg Decimal.Nil).
  { intros [|p|p]; simpl; split; try discriminate;
      intros [= Hp]; exact (Unsigned.to_uint_nonnil _ Hp). }
  apply (f_equal NilZero.int_of_string) in H.
  rewrite !NilZero.isi in H by apply Hnn.
  injection H as H. apply to_int_inj, H.
Qed.

Lemma lookup_assign_same k v fs : lookup k (assign k v fs) = v.
Proof.
  induction fs as [|[k' v'] fs IH]; simpl.
  - rewrite String.eqb_refl. reflexivity.
  - destruct (String.eqb k k') eqn:E; simpl.
    + rewrite String.eqb_refl. reflexivity.
    + rewrite E. exact IH.
Qed.

Lemma column_with_id n row : column "id" (with_id n row) = VNum n.
Proof. unfold column, with_id. simpl. apply lookup_assign_same. Qed.

Lemma fresh_rows d t :
  fresh_ids d = true -> forallb (id_below (next_id d)) (rows_of t (tables d)) = true.
Proof.
  unfold fresh_ids. generalize (next_id d). intros n.
  induction (tables d) as [|[t' rows] ts IH]; simpl; [reflexivity|].
  intros H. apply andb_prop in H. destruct H as [Hrows Hts].
  destruct (String.eqb t t'); auto.
Qed.

(** Deleting the row with the newest id removes that row only. *)
Lemma delete_new_row n rows stored :
  forallb (id_below n) rows = true ->
  column "id" stored = VNum n ->
  filter (fun r => negb (selected [Eq "id" (VNum n)] r)) (rows ++ [stored])
  = rows.
Proof.
  intros Hrows Hstored. rewrite filter_app.
  assert (Hnew : filter (fun r => negb (selected [Eq "id" (VNum n)] r)) [stored]
                 = []).
  { cbn [filter]. unfold selected. cbn [forallb matches]. unfold lit_eq.
    rewrite Hstored. cbn [to_string]. rewrite String.eqb_refl. reflexivity. }
  rewrite Hnew, app_nil_r. clear Hnew.
  induction rows as [|r rows IH]; [reflexivity|].
  cbn [forallb] in Hrows. apply andb_prop in Hrows. destruct Hrows as [Hr Hrows].
  cbn [filter]. rewrite (IH Hrows).
  unfold selected. cbn [forallb matches]. unfold lit_eq, id_below in *.
  destruct (column "id" r); try discriminate. cbn [to_string].
  destruct (String.eqb_spec (string_of_Z z) (string_of_Z n)) as [E|E].
  - apply string_of_Z_inj in E. subst. rewrite Z.ltb_irrefl in Hr. discriminate.
  - reflexivity.
Qed.

(** ** The three store calls of a group creation *)

Lemma call_cases w q :
  (exists e rest,
      faults w = Some e :: rest
      /\ call w q = (failure e, {| auth := auth w; db := db w; faults := rest |}))
  \/ call w q = (fst (exec (db w) q),
                 {| auth := auth w; db := snd (exec (db w) q);
                    faults := tl (faults w) |}).
Proof.
  unfold call. destruct (faults w) as [|[e|] rest].
  - right. destruct (exec (db w) q); reflexivity.
  - left. exists e, rest. auto.
  - right. destruct (exec (db w) q); reflexivity.
Qed.

Lemma exec_insert_group d c name event_id u :
  exec d (GroupSchedules.insert_group_query c name event_id u)
  = (no_error (new_group_row d name event_id u) VNull,
     with_group d (new_group_row d name event_id u)).
Proof. reflexivity. Qed.

Lemma new_group_id d name event_id u :
  get_prop (new_group_row d name event_id u) "id" = Some (VNum (next_id d)).
Proof.
  unfold new_group_row, with_id. cbn [get_prop].
  rewrite lookup_assign_same. reflexivity.
Qed.

Lemma exec_insert_member d now c group_id u :
  let row := VObj [("group_id", group_id); ("user_id", VStr (user_id u));
                   ("is_admin", VBool true); ("status", VStr "accepted");
                   ("joined_at", VStr now)] in
  let rows := rows_of "group_members" (tables d) in
  exec d (GroupSchedules.insert_member_query now c group_id u)
  = if violates "group_members" rows row
    then (failure unique_violation, d)
    else (no_error VNull VNull,
          {| tables := set_rows "group_members"
                         (rows ++ [with_id (next_id d) row]) (tables d);
             next_id := next_id d + 1 |}).
Proof. reflexivity. Qed.

Lemma exec_delete_group d c n :
  exec d (GroupSchedules.delete_group_query c (VNum n))
  = (no_error VNull VNull,
     {| tables := set_rows "group_schedules"
                    (filter (fun r => negb (selected [Eq "id" (VNum n)] r))
                            (rows_of "group_schedules" (tables d)))
                    (tables d);
        next_id := next_id d |}).
Proof. reflexivity. Qed.

(** The compensating delete, run after the new group [g] went in:
    one call, and when the store carries it out the group table is
    back to what it was. *)
Lemma compensation a d f c g (resp : Response) :
  fresh_ids d = true ->
  column "id" g = VNum (next_id d) ->
  let r := run (Ask (GroupSchedules.delete_group_query c (VNum (next_id d)))
                    (fun _ => Ret resp))
               {| auth := a; db := with_group d g; faults := f |} in
  exists r3,
    calls r = [(GroupSchedules.delete_group_query c (VNum (next_id d)), r3)]
    /\ response r = Some resp
    /\ (error r3 = None ->
        rows_after r "group_schedules" = rows_of "group_schedules" (tables d)
        /\ rows_after r "group_members" = rows_of "group_members" (tables d)).
Proof.
  intros Hfresh Hg. cbv zeta. cbn [run].
  destruct (call_cases {| auth := a; db := with_group d g; faults := f |}
              (GroupSchedules.delete_group_query c (VNum (next_id d))))
    as [(e & rest & Hf & ->)| ->].
  - exists (failure e). cbn. split; [reflexivity|]. split; [reflexivity|].
    discriminate.
  - rewrite exec_delete_group. cbn [fst snd].
    eexists. split; [reflexivity|]. split; [reflexivity|]. intros _.
    unfold rows_after. cbn [after db tables with_group].
    rewrite rows_of_set_rows_same.
    rewrite (rows_of_set_rows_other "group_schedules" "group_members")
      by reflexivity.
    rewrite rows_of_set_rows_same.
    rewrite (rows_of_set_rows_other "group_schedules" "group_members")
      by reflexivity.
    split; [|reflexivity].
    apply delete_new_row; [apply fresh_rows, Hfresh | exact Hg].
Qed.

(** C1, as the code has it.  For an authenticated request with
    [name] and [event_id] present, against a store whose ids in use
    are below the next one: a 201 response means the store holds
    exactly its former rows plus one new group row and one new
    member row, the caller as accepted admin of the new group; and
    when the group insert succeeds and the member insert fails, the
    handler issues the delete of the just-created group as its one
    further call and surfaces the member-insert error: 403 for a
    row-level-security rejection, 500 otherwise.  The result of that
    delete is not looked at: the group row is gone afterwards when
    the store carries the delete out. *)
Theorem group_creation_is_compensated :
  forall now w req u token body name event_id,
    authenticates w req u token ->
    fresh_ids (db w) = true ->
    json req = BodyJson body ->
    get_prop body "name" = Some name ->
    get_prop body "event_id" = Some event_id ->
    truthy name = true ->
    truthy event_id = true ->
    let r := run (GroupSchedules.handleCreateGroupSchedule now req) w in
    let before t := rows_of t (tables (db w)) in
    (option_map status (response r) = Some 201%Z ->
     rows_after r "group_schedules"
     = before "group_schedules" ++ [new_group_row (db w) name event_id u]
     /\ rows_after r "group_members"
        = before "group_members" ++ [new_member_row now (db w) u])
    /\ (forall q1 r1 q2 r2 rest e,
          calls r = (q1, r1) :: (q2, r2) :: rest ->
          error r1 = None -> error r2 = Some e ->
          exists r3,
            rest = [(GroupSchedules.delete_group_query (AuthClient token)
                       (VNum (next_id (db w))), r3)]
            /\ response r = Some (member_failure_response e)
            /\ status (member_failure_response e)
               = (if GroupSchedules.rls_violation e then 403 else 500)%Z
            /\ (error r3 = None ->
                rows_after r "group_schedules" = before "group_schedules"
                /\ rows_after r "group_members" = before "group_members")).
Proof.
  intros now [a d f] req u token body name event_id (Hb & Hne & Ha)
         Hfresh Hjson Hname Hevent Htn Hte.
  cbn [db auth faults] in *. apply String.eqb_neq in Hne.
  cbv zeta.
  unfold GroupSchedules.handleCreateGroupSchedule, getAuthenticatedUserAndToken.
  rewrite Hb, Hne. unfold guarded, read_json, field.
  cbn [bind try_catch]. rewrite !run_user. cbn [auth]. rewrite Ha.
  cbn [bind try_catch]. rewrite Hjson, Hname, Hevent, Htn, Hte.
  cbn [negb try_catch]. cbn [run].
  (* the group insert *)
  destruct (call_cases {| auth := a; db := d; faults := f |}
              (GroupSchedules.insert_group_query (AuthClient token)
                                                 name event_id u))
    as [(e1 & f1 & _ & ->)| ->].
  { cbn [error failure]. split.
    - destruct (GroupSchedules.rls_violation e1); cbn; discriminate.
    - intros q1 r1 q2 r2 rest e Hcalls.
      destruct (GroupSchedules.rls_violation e1); cbn in Hcalls; discriminate. }
  rewrite exec_insert_group. cbn [fst snd error no_error data auth db faults].
  rewrite new_group_id. cbn [try_catch run].
  set (g := new_group_row d name event_id u).
  assert (Hg : column "id" g = VNum (next_id d)) by apply column_with_id.
  (* the member insert *)
  destruct (call_cases {| auth := a; db := with_group d g; faults := tl f |}
              (GroupSchedules.insert_member_query now (AuthClient token)
                                                  (VNum (next_id d)) u))
    as [(e2 & f2 & _ & ->)| ->]; cbn [auth db faults].
  - (* it fails by a fault *)
    cbn [error failure].
    unfold member_failure_response.
    destruct (GroupSchedules.rls_violation e2) eqn:Hrls; cbn [try_catch].
    + destruct (compensation a d f2 (AuthClient token) g
                  (GroupSchedules.rls_response "group_members"
                      "Make sure you have a policy allowing the group creator to add themselves as a member." e2)
                  Hfresh Hg)
        as (r3 & Hcalls & Hresp & Hrows).
      unfold response, rows_after in *. split.
      * cbn [outcome]. destruct (outcome _); [|discriminate].
        injection Hresp as ->. cbn. discriminate.
      * intros q1 r1 q2 r2 rest e Hc' _ He. cbn [calls] in Hc'.
        injection Hc' as <- <- <- <- <-. cbn in He. injection He as <-.
        rewrite Hrls. exists r3. cbn [outcome after]. auto.
    + destruct (compensation a d f2 (AuthClient token) g
                  (serverErrorResponse (message e2)) Hfresh Hg)
        as (r3 & Hcalls & Hresp & Hrows).
      unfold response, rows_after in *. split.
      * cbn [outcome]. destruct (outcome _); [|discriminate].
        injection Hresp as ->. cbn. discriminate.
      * intros q1 r1 q2 r2 rest e Hc' _ He. cbn [calls] in Hc'.
        injection Hc' as <- <- <- <- <-. cbn in He. injection He as <-.
        rewrite Hrls. exists r3. cbn [outcome after]. auto.
  - (* the store decides *)
    rewrite exec_insert_member. cbv zeta.
    destruct (violates "group_members" _ _).
    + cbn [fst snd error failure].
      unfold member_failure_response.
      change (GroupSchedules.rls_violation unique_violation) with false.
      cbn [try_catch].
      destruct (compensation a d (tl (tl f)) (AuthClient token) g
                  (serverErrorResponse (message unique_violation)) Hfresh Hg)
        as (r3 & Hcalls & Hresp & Hrows).
      unfold response, rows_after in *. split.
      * cbn [outcome]. destruct (outcome _); [|discriminate].
        injection Hresp as ->. cbn. discriminate.
      * intros q1 r1 q2 r2 rest e Hc' _ He. cbn [calls] in Hc'.
        injection Hc' as <- <- <- <- <-. cbn in He. injection He as <-.
        change (GroupSchedules.rls_violation unique_violation) with false.
        exists r3. cbn [outcome after]. auto.
    + cbn [fst snd error no_error try_catch run]. split.
      * intros _. unfold rows_after. cbn [after db tables with_group].
        rewrite (rows_of_set_rows_other "group_members" "group_schedules")
          by reflexivity.
        rewrite !rows_of_set_rows_same.
        rewrite (rows_of_set_rows_other "group_schedules" "group_members")
          by reflexivity.
        split; reflexivity.
      * intros q1 r1 q2 r2 rest e Hc' _ He. cbn [calls] in Hc'.
        injection Hc' as <- <- <- <- <-. discriminate He.
Qed.

(** C1 as stated fails: when the member insert is rejected and the
    compensating delete fails as well, the handler still answers 403
    for the member insert, and the group row it created is in the
    store. *)
Lemma group_row_survives_failed_cleanup :
  let r := run (GroupSchedules.handleCreateGroupSchedule now create_request)
               (world [None; Some denied; Some broken]) in
  map (fun c => failed (snd c)) (calls r) = [false; true; true]
  /\ map (fun c => is_delete (fst c)) (calls r) = [false; false; true]
  /\ option_map status (response r) = Some 403%Z
  /\ rows_after r "group_schedules"
     = rows_of "group_schedules" (tables database)
       ++ [new_group_row database (VStr "Our Festival Squad") (VNum 7) alice]
  /\ rows_after r "group_schedules"
     <> rows_of "group_schedules" (tables database).
Proof.
  cbv zeta. split; [vm_compute; reflexivity|]. split; [vm_compute; reflexivity|].
  split; [vm_compute; reflexivity|].
  assert (H : rows_after
                (run (GroupSchedules.handleCreateGroupSchedule now create_request)
                     (world [None; Some denied; Some broken])) "group_schedules"
              = rows_of "group_schedules" (tables database)
                ++ [new_group_row database (VStr "Our Festival Squad")
                                  (VNum 7) alice])
    by (vm_compute; reflexivity).
  split; [exact H|]. rewrite H. vm_compute. discriminate.
Qed.

Lemma group_creation_is_compensated_witness :
  let r := run (GroupSchedules.handleCreateGroupSchedule now create_request)
               (world [None; Some denied]) in
  let ok := run (GroupSchedules.handleCreateGroupSchedule now create_request)
                (world []) in
  response r = Some (member_failure_response denied)
  /\ status (member_failure_response denied) = 403%Z
  /\ rows_after r "group_schedules" = rows_of "group_schedules" (tables database)
  /\ rows_after ok "group_members"
     = rows_of "group_members" (tables database)
       ++ [new_member_row now database alice].
Proof.
  cbv zeta.
  assert (Hauth : forall plan,
             authenticates (world plan) create_request alice "tok-alice").
  { intros plan. split; [reflexivity|]. split; [discriminate|reflexivity]. }
  assert (Hfresh : fresh_ids database = true) by (vm_compute; reflexivity).
  destruct (group_creation_is_compensated now (world [None; Some denied])
              create_request alice "tok-alice" create_body
              (VStr "Our Festival Squad") (VNum 7)
              (Hauth _) Hfresh eq_refl eq_refl eq_refl eq_refl eq_refl)
    as [_ Hfail].
  destruct (group_creation_is_compensated now (world [])
              create_request alice "tok-alice" create_body
              (VStr "Our Festival Squad") (VNum 7)
              (Hauth _) Hfresh eq_refl eq_refl eq_refl eq_refl eq_refl)
    as [Hok _].
  assert (Hcalls : exists q1 r1 q2 r2 rest,
             calls (run (GroupSchedules.handleCreateGroupSchedule now create_request)
                        (world [None; Some denied]))
             = (q1, r1) :: (q2, r2) :: rest
             /\ error r1 = None /\ error r2 = Some denied).
  { vm_compute. do 5 eexists. repeat split. }
  destruct Hcalls as (q1 & r1 & q2 & r2 & rest & Hcalls & H1 & H2).
  destruct (Hfail q1 r1 q2 r2 rest denied Hcalls H1 H2)
    as (r3 & Hrest & Hresp & Hstatus & Hrows).
  split; [exact Hresp|]. split; [exact Hstatus|]. split.
  - apply Hrows.
    assert (H3 : map (fun c => error (snd c))
                     (calls (run (GroupSchedules.handleCreateGroupSchedule
                                    now create_request)
                                 (world [None; Some denied])))
                 = [None; Some denied; None]) by (vm_compute; reflexivity).
    rewrite Hcalls, Hrest in H3. cbn [map snd] in H3.
    injection H3 as _ _ H3. exact H3.
  - apply Hok. vm_compute. reflexivity.
Defined.

End GroupCreation.

(* ================================================================== *)
(** * Lineup entries                                                  *)
(* ================================================================== *)

Section LineupConflicts.
Import Json Http Supabase Store Props Sample.

Lemma answer_exists_query d t cols v :
  answer d (exists_query t cols v)
  = shape Single (filter (selected [Eq "id" v]) (rows_of t (tables d))) VNull.
Proof. reflexivity. Qed.

Lemma violates_lineups rows row :
  violates "lineups" rows row
  = existsb (agree_on ["event_id"; "artist_id"] row) rows.
Proof. unfold violates. simpl. apply orb_false_r. Qed.

Lemma exec_insert_lineup d e_id a_id hl tier ad :
  exec d (Lineups.insert_lineup_query e_id a_id hl tier ad)
  = if violates "lineups" (rows_of "lineups" (tables d))
                (lineup_row e_id a_id hl tier ad)
    then (failure unique_violation, d)
    else (no_error (with_id (next_id d) (lineup_row e_id a_id hl tier ad)) VNull,
          with_lineup d (with_id (next_id d) (lineup_row e_id a_id hl tier ad))).
Proof. reflexivity. Qed.

Lemma truthy_defined v : truthy v = true -> v <> VUndef /\ v <> VNull.
Proof. destruct v; simpl; intros H; split; congruence. Qed.

Lemma lit_eq_refl v : truthy v = true -> lit_eq v v = true.
Proof.
  unfold lit_eq. destruct v; try discriminate; intros _;
    apply String.eqb_refl.
Qed.

Lemma lookup_assign_other k k' v fs :
  String.eqb k k' = false -> lookup k (assign k' v fs) = lookup k fs.
Proof.
  intros Hne. induction fs as [|[k2 v2] fs IH]; simpl.
  - rewrite Hne. reflexivity.
  - destruct (String.eqb k' k2) eqn:E; simpl.
    + apply String.eqb_eq in E. subst k2. rewrite Hne. reflexivity.
    + destruct (String.eqb k k2); [reflexivity|exact IH].
Qed.

Lemma defined_cons k v fs :
  v <> VUndef -> defined ((k, v) :: fs) = (k, v) :: defined fs.
Proof. intros Hv. unfold defined. simpl. destruct v; congruence. Qed.

(** The stored row keeps the event and the artist of the row sent. *)
Lemma stored_lineup_columns n e_id a_id hl tier ad :
  truthy e_id = true -> truthy a_id = true ->
  column "event_id" (with_id n (lineup_row e_id a_id hl tier ad)) = e_id
  /\ column "artist_id" (with_id n (lineup_row e_id a_id hl tier ad)) = a_id.
Proof.
  intros He Ha.
  apply truthy_defined in He. apply truthy_defined in Ha.
  unfold column, with_id, lineup_row. cbn [spread].
  rewrite !lookup_assign_other by reflexivity.
  rewrite defined_cons by apply He. rewrite defined_cons by apply Ha.
  split; reflexivity.
Qed.

(** Once a row is in, the same event and artist violate the key. *)
Lemma violates_after_insert rows n e_id a_id hl tier ad :
  truthy e_id = true -> truthy a_id = true ->
  violates "lineups"
           (rows ++ [with_id n (lineup_row e_id a_id hl tier ad)])
           (lineup_row e_id a_id hl tier ad) = true.
Proof.
  intros He Ha. rewrite violates_lineups, existsb_app.
  apply orb_true_iff. right. cbn [existsb]. rewrite orb_false_r.
  destruct (stored_lineup_columns n e_id a_id hl tier ad He Ha) as [H1 H2].
  unfold agree_on. cbn [forallb]. rewrite H1, H2.
  change (column "event_id" (lineup_row e_id a_id hl tier ad)) with e_id.
  change (column "artist_id" (lineup_row e_id a_id hl tier ad)) with a_id.
  rewrite !lit_eq_refl by assumption. reflexivity.
Qed.

(** The key is violated exactly when the pair is in the lineup. *)
Lemma violates_in_lineup d e_id a_id hl tier ad :
  violates "lineups" (rows_of "lineups" (tables d))
           (lineup_row e_id a_id hl tier ad)
  = in_lineup d e_id a_id.
Proof.
  rewrite violates_lineups. unfold in_lineup, agree_on. cbn [forallb].
  change (column "event_id" (lineup_row e_id a_id hl tier ad)) with e_id.
  change (column "artist_id" (lineup_row e_id a_id hl tier ad)) with a_id.
  induction (rows_of "lineups" (tables d)) as [|r rows IH]; [reflexivity|].
  cbn [existsb]. rewrite IH, andb_true_r. reflexivity.
Qed.

Lemma selected_truthy fs f row : selected (f :: fs) row = true ->
  (forall c v, f = Eq c v -> truthy row = true).
Proof.
  unfold selected. cbn [forallb]. intros H c v ->.
  apply andb_prop in H. destruct H as [H _]. cbn [matches] in H.
  eapply having_truthy. exact H.
Qed.

Lemma found_truthy v rows ev :
  filter (selected [Eq "id" v]) rows = [ev] -> truthy ev = true.
Proof.
  intros H.
  assert (Hin : List.In ev (filter (selected [Eq "id" v]) rows))
    by (rewrite H; left; reflexivity).
  apply filter_In in Hin. destruct Hin as [_ Hsel].
  eapply selected_truthy; [exact Hsel|reflexivity].
Qed.

(** The run of a lineup insert that reaches the store. *)
Lemma add_lineup_run a d req e_id a_id hl tier ad :
  LineupRequest a d req e_id a_id hl tier ad ->
  let r := run (Lineups.handleAddLineupEntry req) (healthy a d) in
  let stored := with_id (next_id d) (lineup_row e_id a_id hl tier ad) in
  if in_lineup d e_id a_id
  then response r = Some lineup_conflict
       /\ db (after r) = d
       /\ faults (after r) = []
       /\ auth (after r) = a
  else response r = Some (ok (success_with "entry" stored))
       /\ db (after r) = with_lineup d stored
       /\ faults (after r) = []
       /\ auth (after r) = a.
Proof.
  intros [(token & u & Hb & Hne & Ha)
          (body & Hjson & He & Hart & Hhl & Htier & Had)
          Hte Hta (ev & Hev) (ar & Har)].
  cbv zeta. unfold Lineups.handleAddLineupEntry, getAuthenticatedUser.
  rewrite Hb, Hne. unfold guarded, read_json, field.
  cbn [bind try_catch]. rewrite !run_user. cbn [auth healthy]. rewrite Ha.
  cbn [bind try_catch]. rewrite Hjson, He, Hart, Hhl, Htier, Had, Hte, Hta.
  cbn [negb orb try_catch].
  fold (healthy a d).
  rewrite run_read by reflexivity. cbv zeta.
  rewrite answer_exists_query, Hev. cbn [shape]. unfold missing, failed.
  cbn [error data no_error]. rewrite (found_truthy _ _ _ Hev).
  cbn [negb orb try_catch].
  rewrite run_read by reflexivity. cbv zeta.
  rewrite answer_exists_query, Har. cbn [shape].
  cbn [error data no_error]. rewrite (found_truthy _ _ _ Har).
  cbn [negb orb try_catch run]. unfold call. cbn [faults healthy db auth tl].
  rewrite exec_insert_lineup, violates_in_lineup.
  destruct (in_lineup d e_id a_id); cbn; repeat split.
Qed.

(** A 200 answer means the insert reached the store and went in. *)
Lemma add_lineup_success a d req :
  option_map status (response (run (Lineups.handleAddLineupEntry req)
                                   (healthy a d))) = Some 200%Z ->
  exists e_id a_id hl tier ad,
    LineupRequest a d req e_id a_id hl tier ad
    /\ in_lineup d e_id a_id = false.
Proof.
  intros H.
  unfold Lineups.handleAddLineupEntry, getAuthenticatedUser, guarded,
         read_json, field in H.
  destruct (bearer_token req) as [token|] eqn:Hb; [|discriminate H].
  destruct (String.eqb token "") eqn:Hne; [discriminate H|].
  cbn [bind try_catch] in H. rewrite run_user in H. cbn [auth healthy] in H.
  destruct (a token) as [|[] [u|]] eqn:Ha; cbn [bind try_catch] in H;
    try discriminate H.
  destruct (json req) as [m|body] eqn:Hjson; [discriminate H|].
  destruct (get_prop body "event_id") as [e_id|] eqn:He; [|discriminate H].
  destruct (get_prop body "artist_id") as [a_id|] eqn:Hart; [|discriminate H].
  destruct (get_prop body "is_headliner") as [hl|] eqn:Hhl; [|discriminate H].
  destruct (get_prop body "tier") as [tier|] eqn:Htier; [|discriminate H].
  destruct (get_prop body "announcement_date") as [ad|] eqn:Had;
    [|discriminate H].
  destruct (truthy e_id) eqn:Hte; [|discriminate H].
  destruct (truthy a_id) eqn:Hta; [|discriminate H].
  cbn [negb orb try_catch] in H. fold (healthy a d) in H.
  rewrite run_read in H by reflexivity. cbv zeta in H.
  rewrite answer_exists_query in H.
  destruct (filter (selected [Eq "id" e_id]) (rows_of "events" (tables d)))
    as [|ev [|ev2 evs]] eqn:Hev; cbn [shape] in H; try discriminate H.
  unfold missing, failed in H. cbn [error data no_error] in H.
  rewrite (found_truthy _ _ _ Hev) in H. cbn [negb orb try_catch] in H.
  rewrite run_read in H by reflexivity. cbv zeta in H.
  rewrite answer_exists_query in H.
  destruct (filter (selected [Eq "id" a_id]) (rows_of "artists" (tables d)))
    as [|ar [|ar2 ars]] eqn:Har; cbn [shape] in H; try discriminate H.
  cbn [error data no_error] in H.
  rewrite (found_truthy _ _ _ Har) in H. cbn [negb orb try_catch run] in H.
  unfold call in H. cbn [faults healthy db auth tl] in H.
  rewrite exec_insert_lineup, violates_in_lineup in H.
  destruct (in_lineup d e_id a_id) eqn:Hin; [discriminate H|].
  exists e_id, a_id, hl, tier, ad. split; [|exact Hin].
  constructor; eauto 10.
Qed.

(** C7.  When a lineup insert reaches a store that already holds
    the same event and artist, the handler answers 409 with the
    conflict message and the store keeps its rows; and a request
    that was answered 200, sent again, is answered 409 and leaves
    the one row the first run added. *)
Theorem repeated_lineup_insert_conflicts :
  forall a d req,
    (forall e_id a_id hl tier ad,
        LineupRequest a d req e_id a_id hl tier ad ->
        in_lineup d e_id a_id = true ->
        let r := run (Lineups.handleAddLineupEntry req) (healthy a d) in
        response r = Some lineup_conflict
        /\ status lineup_conflict = 409%Z
        /\ db (after r) = d)
    /\ (let r1 := run (Lineups.handleAddLineupEntry req) (healthy a d) in
        let r2 := run (Lineups.handleAddLineupEntry req) (after r1) in
        option_map status (response r1) = Some 200%Z ->
        (exists stored,
            rows_after r1 "lineups" = rows_of "lineups" (tables d) ++ [stored])
        /\ response r2 = Some lineup_conflict
        /\ rows_after r2 "lineups" = rows_after r1 "lineups").
Proof.
  intros a d req. split.
  - intros e_id a_id hl tier ad Hreq Hin. cbv zeta.
    pose proof (add_lineup_run a d req e_id a_id hl tier ad Hreq) as Hrun.
    cbv zeta in Hrun. rewrite Hin in Hrun.
    destruct Hrun as (Hresp & Hdb & _ & _). auto.
  - cbv zeta. intros Hok.
    destruct (add_lineup_success a d req Hok)
      as (e_id & a_id & hl & tier & ad & Hreq & Hin).
    pose proof (add_lineup_run a d req e_id a_id hl tier ad Hreq) as Hrun.
    cbv zeta in Hrun. rewrite Hin in Hrun.
    destruct Hrun as (Hresp & Hdb & Hfaults & Hauth).
    set (stored := with_id (next_id d) (lineup_row e_id a_id hl tier ad)) in *.
    unfold rows_after.
    destruct (after (run (Lineups.handleAddLineupEntry req) (healthy a d)))
      as [a' d' f'].
    cbn [db faults auth] in *. subst a' d' f'.
    fold (healthy a (with_lineup d stored)).
    assert (Hreq' : LineupRequest a (with_lineup d stored) req
                                  e_id a_id hl tier ad).
    { destruct Hreq as [Htok Hbody Hte Hta Hev Har].
      constructor; auto; unfold with_lineup; cbn [tables];
        rewrite rows_of_set_rows_other by reflexivity; assumption. }
    assert (Hin' : in_lineup (with_lineup d stored) e_id a_id = true).
    { rewrite <- (violates_in_lineup _ e_id a_id hl tier ad).
      unfold with_lineup. cbn [tables]. rewrite rows_of_set_rows_same.
      destruct Hreq as [_ _ Hte Hta _ _].
      apply violates_after_insert; assumption. }
    pose proof (add_lineup_run a (with_lineup d stored) req
                  e_id a_id hl tier ad Hreq') as Hrun2.
    cbv zeta in Hrun2. rewrite Hin' in Hrun2.
    destruct Hrun2 as (Hresp2 & Hdb2 & _ & _).
    split; [|split].
    + exists stored. unfold with_lineup. cbn [tables].
      apply rows_of_set_rows_same.
    + exact Hresp2.
    + rewrite Hdb2. reflexivity.
Qed.

Lemma repeated_lineup_insert_conflicts_witness :
  let booked := run (Lineups.handleAddLineupEntry (add_lineup_request 10))
                    (healthy provider database) in
  let first := run (Lineups.handleAddLineupEntry (add_lineup_request 11))
                   (healthy provider database) in
  let second := run (Lineups.handleAddLineupEntry (add_lineup_request 11))
                    (after first) in
  response booked = Some lineup_conflict
  /\ db (after booked) = database
  /\ option_map status (response first) = Some 200%Z
  /\ response second = Some lineup_conflict
  /\ rows_after second "lineups" = rows_after first "lineups".
Proof.
  cbv zeta.
  assert (Hreq : LineupRequest provider database (add_lineup_request 10)
                   (VNum 7) (VNum 10) (VBool true) (VStr "headliner")
                   (VStr "2025-03-01")).
  { constructor.
    - exists "tok-alice", alice. repeat split.
    - exists (lineup_body 10). repeat split.
    - reflexivity.
    - reflexivity.
    - eexists. vm_compute. reflexivity.
    - eexists. vm_compute. reflexivity. }
  assert (Hin : in_lineup database (VNum 7) (VNum 10) = true)
    by (vm_compute; reflexivity).
  assert (Hok : option_map status
                  (response (run (Lineups.handleAddLineupEntry
                                    (add_lineup_request 11))
                                 (healthy provider database)))
                = Some 200%Z) by (vm_compute; reflexivity).
  pose proof (proj1 (repeated_lineup_insert_conflicts
                       provider database (add_lineup_request 10))
                    _ _ _ _ _ Hreq Hin) as Hdup.
  pose proof (proj2 (repeated_lineup_insert_conflicts
                       provider database (add_lineup_request 11)) Hok)
    as Hagain.
  cbv zeta in Hdup. destruct Hdup as (Hresp & _ & Hdb).
  destruct Hagain as (_ & Hresp2 & Hrows).
  split; [exact Hresp|]. split; [exact Hdb|]. split; [exact Hok|].
  split; [exact Hresp2|exact Hrows].
Defined.

End LineupConflicts.

(* ================================================================== *)
(** * Deleting an artist that is referred to                          *)
(* ================================================================== *)

Section ArtistDependencies.
Import Json Http Supabase Store Props Sample.

Lemma answer_count d tbl artistId :
  answer d (Artists.dependency_query tbl artistId)
  = no_error VNull (VNum (references d tbl artistId)).
Proof. reflexivity. Qed.

Lemma answer_artist_query d c cols artistId :
  answer d (Artists.artist_query c cols artistId)
  = shape Single (filter (selected [Eq "id" (VStr artistId)])
                         (rows_of "artists" (tables d))) VNull.
Proof. reflexivity. Qed.

Lemma delete_artist_run key a d req artistId :
  verifyApiKey key req = true ->
  Artists.getArtistIdFromUrl (pathname req) = Some artistId ->
  artist_exists d artistId ->
  let r := run (Artists.handleDeleteArtist key req) (healthy a d) in
  let lineups := references d "lineups" artistId in
  let set_times := references d "set_times" artistId in
  let collabs := references d "artist_collaborations" artistId in
  if (0 <? lineups)%Z
  then response r
       = Some (Artists.blockedResponse
                 "Cannot delete artist with existing lineup entries"
                 "lineups" (VNum lineups))
       /\ ~ issued r is_write /\ db (after r) = d
  else if (0 <? set_times)%Z
  then response r
       = Some (Artists.blockedResponse
                 "Cannot delete artist with existing set times"
                 "set_times" (VNum set_times))
       /\ ~ issued r is_write /\ db (after r) = d
  else if (0 <? collabs)%Z
  then response r
       = Some (Artists.blockedResponse
                 "Cannot delete artist with existing collaborations"
                 "collaborations" (VNum collabs))
       /\ ~ issued r is_write /\ db (after r) = d
  else response r = Some (ok success)
       /\ issued r (deletes_from "artists")
       /\ rows_after r "artists" = other_artists d artistId.
Proof.
  intros Hkey Hid [ar Har]. cbv zeta.
  unfold Artists.handleDeleteArtist, guarded.
  rewrite Hkey, Hid. cbn [negb try_catch].
  rewrite run_read by reflexivity. cbv zeta.
  rewrite answer_artist_query, Har. cbn [shape error no_error try_catch].
  rewrite run_read by reflexivity. cbv zeta.
  rewrite answer_count. cbn [error count no_error Artists.positive].
  destruct (0 <? references d "lineups" artistId)%Z.
  { cbn [try_catch]. split; [reflexivity|]. split; [|reflexivity].
    repeat (apply not_issued_later; [reflexivity|]). apply issued_ret. }
  cbn [try_catch].
  rewrite run_read by reflexivity. cbv zeta.
  rewrite answer_count. cbn [error count no_error Artists.positive].
  destruct (0 <? references d "set_times" artistId)%Z.
  { cbn [try_catch]. split; [reflexivity|]. split; [|reflexivity].
    repeat (apply not_issued_later; [reflexivity|]). apply issued_ret. }
  cbn [try_catch].
  rewrite run_read by reflexivity. cbv zeta.
  rewrite answer_count. cbn [error count no_error Artists.positive].
  destruct (0 <? references d "artist_collaborations" artistId)%Z.
  { cbn [try_catch]. split; [reflexivity|]. split; [|reflexivity].
    repeat (apply not_issued_later; [reflexivity|]). apply issued_ret. }
  cbn [try_catch]. split; [reflexivity|]. split.
  - do 4 apply issued_later. apply issued_first. reflexivity.
  - unfold rows_after. cbn. apply rows_of_set_rows_same.
Qed.

Lemma references_nonneg d tbl artistId : (0 <= references d tbl artistId)%Z.
Proof. unfold references. lia. Qed.

(** C8.  A DELETE with the API key for an artist that is in the
    store is answered 409 as soon as a lineup entry, a set time or a
    collaboration refers to the artist.  The body carries the
    message for the first of the three tables (in this order) that
    has references and, under [dependencies], an object with one
    property, named after that table ([lineups], [set_times],
    [collaborations]) and holding the number of its rows that refer
    to the artist; no write reaches the store and the store is left
    as it was.  The delete is issued exactly when all three counts
    are zero, and then it removes the artist. *)
Theorem referenced_artist_is_not_deleted :
  forall key a d req artistId,
    verifyApiKey key req = true ->
    Artists.getArtistIdFromUrl (pathname req) = Some artistId ->
    artist_exists d artistId ->
    let r := run (Artists.handleDeleteArtist key req) (healthy a d) in
    let lineups := references d "lineups" artistId in
    let set_times := references d "set_times" artistId in
    let collabs := references d "artist_collaborations" artistId in
    ((0 < lineups)%Z ->
     response r
     = Some {| status := 409;
               body := VObj [
                 ("error",
                  VStr "Cannot delete artist with existing lineup entries");
                 ("dependencies", VObj [("lineups", VNum lineups)])] |})
    /\ (lineups = 0%Z -> (0 < set_times)%Z ->
        response r
        = Some {| status := 409;
                  body := VObj [
                    ("error",
                     VStr "Cannot delete artist with existing set times");
                    ("dependencies", VObj [("set_times", VNum set_times)])] |})
    /\ (lineups = 0%Z -> set_times = 0%Z -> (0 < collabs)%Z ->
        response r
        = Some {| status := 409;
                  body := VObj [
                    ("error",
                     VStr "Cannot delete artist with existing collaborations");
                    ("dependencies",
                     VObj [("collaborations", VNum collabs)])] |})
    /\ ((0 < lineups + set_times + collabs)%Z ->
        option_map status (response r) = Some 409%Z
        /\ ~ issued r is_write
        /\ db (after r) = d)
    /\ (issued r (deletes_from "artists")
        <-> lineups = 0%Z /\ set_times = 0%Z /\ collabs = 0%Z)
    /\ (lineups = 0%Z -> set_times = 0%Z -> collabs = 0%Z ->
        response r = Some (ok success)
        /\ rows_after r "artists" = other_artists d artistId).
Proof.
  intros key a d req artistId Hkey Hid Hex.
  pose proof (delete_artist_run key a d req artistId Hkey Hid Hex) as Hrun.
  cbv zeta in *.
  pose proof (references_nonneg d "lineups" artistId) as Hl.
  pose proof (references_nonneg d "set_times" artistId) as Hs.
  pose proof (references_nonneg d "artist_collaborations" artistId) as Hc.
  assert (Hdel : forall r : Run Response,
             ~ issued r is_write -> ~ issued r (deletes_from "artists")).
  { intros r Hn (q & rep & Hin & Hq). apply Hn. exists q, rep.
    split; [exact Hin|]. unfold deletes_from, is_delete in Hq.
    unfold is_write. destruct (action q); simpl in Hq; try discriminate.
    reflexivity. }
  destruct (Z.ltb_spec 0 (references d "lineups" artistId)) as [Hl'|Hl'].
  { destruct Hrun as (Hresp & Hnone & Hdb). rewrite Hresp.
    repeat split; intros; try lia; auto.
    all: elim (Hdel _ Hnone); assumption. }
  destruct (Z.ltb_spec 0 (references d "set_times" artistId)) as [Hs'|Hs'].
  { destruct Hrun as (Hresp & Hnone & Hdb). rewrite Hresp.
    repeat split; intros; try lia; auto.
    all: elim (Hdel _ Hnone); assumption. }
  destruct (Z.ltb_spec 0 (references d "artist_collaborations" artistId))
    as [Hc'|Hc'].
  { destruct Hrun as (Hresp & Hnone & Hdb). rewrite Hresp.
    repeat split; intros; try lia; auto.
    all: elim (Hdel _ Hnone); assumption. }
  destruct Hrun as (Hresp & Hissued & Hrows). rewrite Hresp.
  repeat split; intros; try lia; auto.
Qed.

Lemma referenced_artist_is_not_deleted_witness :
  let r := run (Artists.handleDeleteArtist secret (delete_artist_request "10"))
               (healthy provider database) in
  references database "lineups" "10" = 1%Z
  /\ response r
     = Some {| status := 409;
               body := VObj [
                 ("error",
                  VStr "Cannot delete artist with existing lineup entries");
                 ("dependencies", VObj [("lineups", VNum 1)])] |}
  /\ option_map (body_field "dependencies") (response r)
     = Some (VObj [("lineups", VNum 1)])
  /\ ~ issued r is_write
  /\ rows_after r "artists" = rows_of "artists" (tables database).
Proof.
  cbv zeta.
  assert (Hkey : verifyApiKey secret (delete_artist_request "10") = true)
    by (vm_compute; reflexivity).
  assert (Hid : Artists.getArtistIdFromUrl
                  (pathname (delete_artist_request "10")) = Some "10")
    by (vm_compute; reflexivity).
  assert (Hex : artist_exists database "10")
    by (eexists; vm_compute; reflexivity).
  assert (Hl : references database "lineups" "10" = 1%Z)
    by (vm_compute; reflexivity).
  assert (Hs : references database "set_times" "10" = 0%Z)
    by (vm_compute; reflexivity).
  assert (Hc : references database "artist_collaborations" "10" = 0%Z)
    by (vm_compute; reflexivity).
  pose proof (referenced_artist_is_not_deleted secret provider database
                (delete_artist_request "10") "10" Hkey Hid Hex) as H.
  cbv zeta in H. rewrite Hl, Hs, Hc in H.
  destruct H as (Hlineups & _ & _ & Hblocked & _ & _).
  destruct Hblocked as (_ & Hwrite & Hdb); [lia|].
  split; [reflexivity|]. split; [apply Hlineups; lia|].
  split; [rewrite Hlineups by lia; reflexivity|]. split; [exact Hwrite|].
  unfold rows_after. rewrite Hdb. reflexivity.
Defined.

End ArtistDependencies.

(* ================================================================== *)
(** * Who is asking                                                   *)
(* ================================================================== *)

Section Callers.
Import Json Http Supabase Store Props Sample.

Lemma anonymous_user a req w (k : option User -> Prog Response) :
  auth w = a -> anonymous a req = true ->
  run (guarded (bind (getAuthenticatedUser req) k)) w = run (guarded (k None)) w.
Proof.
  intros <-. unfold anonymous, getAuthenticatedUser, guarded.
  destruct (bearer_token req) as [token|]; [|reflexivity].
  destruct (String.eqb token ""); [reflexivity|]. cbn [orb bind try_catch run].
  destruct (auth w token) as [|[] [u|]]; try reflexivity. discriminate.
Qed.

Lemma anonymous_user_and_token a req w
      (k : option (User * string) -> Prog Response) :
  auth w = a -> anonymous a req = true ->
  run (guarded (bind (getAuthenticatedUserAndToken req) k)) w
  = run (guarded (k None)) w.
Proof.
  intros <-. unfold anonymous, getAuthenticatedUserAndToken, guarded.
  destruct (bearer_token req) as [token|]; [|reflexivity].
  destruct (String.eqb token ""); [reflexivity|]. cbn [orb bind try_catch run].
  destruct (auth w token) as [|[] [u|]]; try reflexivity. discriminate.
Qed.

(** X1.  A request that names no caller the provider vouches for is
    answered 401 by every handler behind the bearer token, before any
    store call: the run makes no call and leaves the world as it
    was. *)
Theorem anonymous_requests_are_refused :
  forall now Number,
    Forall (fun h : Request -> Prog Response =>
              forall req w,
                anonymous (auth w) req = true ->
                let r := run (h req) w in
                response r = Some unauthorizedResponse
                /\ calls r = [] /\ after r = w)
           (user_handlers now Number).
Proof.
  intros now Number. unfold user_handlers.
  repeat (apply Forall_cons; [|]); try apply Forall_nil;
    intros req w Hanon; cbv zeta;
    cbv beta delta [Events.handleListEvents Events.handleGetEvent
      Lineups.handleAddLineupEntry Lineups.handleListLineup
      Lineups.handleRemoveLineupEntry
      Artists.handleCreateArtist Artists.handleListArtists
      Artists.handleGetArtist Artists.handleUpdateArtist
      Stages.handleCreateStage Stages.handleListStages
      Stages.handleUpdateStage Stages.handleDeleteStage
      SetTimes.handleCreateSetTime SetTimes.handleListSetTimes
      SetTimes.handleUpdateSetTime SetTimes.handleDeleteSetTime
      SetTimes.handleAddCollaboration SetTimes.handleListCollaborations
      SetTimes.handleRemoveCollaboration
      GroupSchedules.handleListGroupSchedules
      GroupSchedules.handleGetGroupSchedule
      GroupSchedules.handleCreateGroupSchedule
      GroupSchedules.handleUpdateGroupSchedule
      GroupSchedules.handleDeleteGroupSchedule];
    first [ rewrite (anonymous_user (auth w) req w _ eq_refl Hanon)
          | rewrite (anonymous_user_and_token (auth w) req w _ eq_refl Hanon) ];
    repeat split.
Qed.

Lemma anonymous_requests_are_refused_witness :
  let req := request "GET" "/events" None None no_body in
  let r := run (Events.handleListEvents req) (world []) in
  anonymous provider req = true
  /\ response r = Some unauthorizedResponse /\ calls r = [].
Proof.
  cbv zeta.
  pose proof (Forall_inv (anonymous_requests_are_refused now (fun _ => VNaN)))
    as H.
  specialize (H (request "GET" "/events" None None no_body) (world []) eq_refl).
  cbv zeta in H. destruct H as (Hresp & Hcalls & _).
  split; [reflexivity|]. split; assumption.
Defined.

End Callers.

(* ================================================================== *)
(** * Bodies that are not JSON                                        *)
(* ================================================================== *)

Section UnreadableBodies.
Import Json Http Supabase Store Props Sample.

Ltac unreadable :=
  intros req w m Hjson; cbv zeta;
  cbv beta delta [Events.handleCreateEvent Events.handleUpdateEvent
    Lineups.handleAddLineupEntry
    Artists.handleCreateArtist Artists.handleUpdateArtist
    Stages.handleCreateStage Stages.handleUpdateStage
    SetTimes.handleCreateSetTime SetTimes.handleUpdateSetTime
    SetTimes.handleAddCollaboration
    GroupSchedules.handleCreateGroupSchedule
    GroupSchedules.handleUpdateGroupSchedule];
  unfold getAuthenticatedUser, getAuthenticatedUserAndToken, guarded,
         read_json, refusal_or_parse_error;
  rewrite Hjson;
  repeat (cbn [bind try_catch run negb]; try break_match);
  cbn; repeat split; eauto 6.

(** X2.  A request whose body is not JSON never reaches the store:
    each of the twelve handlers that read a body makes no store call
    and answers 401 or 400 when it refuses the request for another
    reason first, and otherwise 500 with the parser's message. *)
Theorem unreadable_body_never_reaches_the_store :
  forall key now Number,
    Forall (fun h : Request -> Prog Response =>
              forall req w m,
                json req = BodyThrows m ->
                let r := run (h req) w in
                calls r = [] /\ after r = w
                /\ exists resp, response r = Some resp
                                /\ refusal_or_parse_error m resp)
           (body_handlers key now Number).
Proof.
  intros key now Number. unfold body_handlers.
  repeat (apply Forall_cons; [|]); try apply Forall_nil; unreadable.
Qed.

Lemma unreadable_body_never_reaches_the_store_witness :
  let req := request "POST" "/artists" (Some "tok-alice") None no_body in
  let r := run (Artists.handleCreateArtist req) (world []) in
  calls r = []
  /\ response r = Some (serverErrorResponse (Some "Unexpected end of JSON input")).
Proof.
  cbv zeta.
  pose proof (unreadable_body_never_reaches_the_store secret now (fun _ => VNaN))
    as H.
  unfold body_handlers in H.
  do 3 apply Forall_inv_tail in H. apply Forall_inv in H.
  specialize (H (request "POST" "/artists" (Some "tok-alice") None no_body)
                (world []) "Unexpected end of JSON input" eq_refl).
  cbv zeta in H. destruct H as (Hcalls & _ & _).
  split; [exact Hcalls|]. vm_compute. reflexivity.
Defined.

End UnreadableBodies.

(* ================================================================== *)
(** * Routing                                                         *)
(* ================================================================== *)

Section Routing.
Import Json Http Supabase Store Props Sample.

Lemma unrouted m :
  routed_method m = false ->
  String.eqb m "GET" = false /\ String.eqb m "POST" = false
  /\ String.eqb m "PUT" = false /\ String.eqb m "DELETE" = false.
Proof.
  unfold routed_method. intros H.
  repeat (apply orb_false_elim in H; destruct H as [H ?]). auto.
Qed.

(** X3.  Each of the six main handlers answers 405 to a request whose
    method is none of GET, POST, PUT and DELETE: the program is that
    response, with no call to the provider or to the store.  For
    five of them this holds whatever the path.  The events function
    first builds a URL from what is left of the path after the
    [/functions/v1] prefix: where that constructor raises, its catch
    answers 500 instead, again with no call. *)
Theorem other_methods_are_not_allowed :
  forall key now Number host_suffix req,
    routed_method (method req) = false ->
    (Events.localhost_pathname host_suffix (Events.normalize (pathname req))
     <> None ->
     Events.serve key host_suffix req = Ret methodNotAllowedResponse)
    /\ (Events.localhost_pathname host_suffix (Events.normalize (pathname req))
        = None ->
        Events.serve key host_suffix req
        = Ret (serverErrorResponse (Some "Internal server error")))
    /\ (Events.normalize (pathname req) = ""
        \/ JS.startsWith (Events.normalize (pathname req)) "/" = true ->
        Events.serve key host_suffix req = Ret methodNotAllowedResponse)
    /\ Lineups.serve req = Ret methodNotAllowedResponse
    /\ Artists.serve key req = Ret methodNotAllowedResponse
    /\ Stages.serve Number req = Ret methodNotAllowedResponse
    /\ SetTimes.serve req = Ret methodNotAllowedResponse
    /\ GroupSchedules.serve now req = Ret methodNotAllowedResponse.
Proof.
  intros key now Number host_suffix req Hm.
  destruct (unrouted _ Hm) as (Hget & Hpost & Hput & Hdel).
  assert (Hevents :
            forall reparsed,
              Events.localhost_pathname host_suffix
                (Events.normalize (pathname req)) = Some reparsed ->
              Events.serve key host_suffix req = Ret methodNotAllowedResponse).
  { intros reparsed Hre. unfold Events.serve. cbv zeta. rewrite Hre.
    unfold main_guard. rewrite Hget, Hpost, Hput, Hdel.
    repeat break_match; reflexivity. }
  split; [|split; [|split]].
  - destruct (Events.localhost_pathname _ _) as [reparsed|] eqn:Hre.
    + intros _. exact (Hevents reparsed eq_refl).
    + intros H. elim H. reflexivity.
  - intros Hre. unfold Events.serve. cbv zeta. rewrite Hre. reflexivity.
  - intros Hpath. unfold Events.localhost_pathname in Hevents.
    destruct Hpath as [Hpath|Hpath].
    + rewrite Hpath in Hevents. apply (Hevents "/"). reflexivity.
    + rewrite Hpath in Hevents.
      destruct (String.eqb _ ""); eapply Hevents; reflexivity.
  - repeat split;
      cbv beta delta [Lineups.serve Artists.serve Stages.serve
                      SetTimes.serve GroupSchedules.serve];
      cbv zeta; unfold main_guard;
      rewrite ?Hget, ?Hpost, ?Hput, ?Hdel, ?andb_false_r;
      repeat break_match; reflexivity.
Qed.

Lemma other_methods_are_not_allowed_witness :
  let req := request "PATCH" "/artists/10" (Some "tok-alice") secret no_body in
  let prefixed :=
    request "PATCH" "/functions/v1/events/7" (Some "tok-alice") secret no_body in
  routed_method (method req) = false
  /\ Artists.serve secret req = Ret methodNotAllowedResponse
  /\ Events.serve secret (fun _ => None) prefixed
     = Ret methodNotAllowedResponse.
Proof.
  cbv zeta.
  split; [reflexivity|]. split.
  - destruct (other_methods_are_not_allowed secret now (fun _ => VNaN)
                (fun _ => None)
                (request "PATCH" "/artists/10" (Some "tok-alice") secret no_body)
                eq_refl)
      as (_ & _ & _ & _ & Hartists & _).
    exact Hartists.
  - destruct (other_methods_are_not_allowed secret now (fun _ => VNaN)
                (fun _ => None)
                (request "PATCH" "/functions/v1/events/7" (Some "tok-alice")
                         secret no_body)
                eq_refl)
      as (_ & _ & Hevents & _).
    apply Hevents. right. reflexivity.
Defined.

End Routing.

(* ================================================================== *)
(** * The administrative key on the artist delete                     *)
(* ================================================================== *)

Section ArtistDeleteKey.
Import Json Http Supabase Store Props Sample.

(** X4.  The artist delete is decided by the [x-api-key] header
    alone: the bearer token does not enter the program, the provider
    is never consulted, a request without the configured key is
    answered 401 with no store call, and a request with it is never
    answered 401.  When no key is configured no header matches. *)
Theorem artist_delete_gated_by_api_key_alone :
  forall (API_KEY : option string) (req : Request),
    gated_by_key_alone API_KEY (Artists.handleDeleteArtist API_KEY) req
    /\ verifyApiKey None req = false.
Proof.
  intros key req. split.
  - unfold gated_by_key_alone, Artists.handleDeleteArtist, Artists.lookup_failure.
    open_prog. repeat split.
    + walk; exact I.
    + intros ->. reflexivity.
    + intros ->. walk; discriminate.
  - unfold verifyApiKey. destruct (x_api_key req); reflexivity.
Qed.

End ArtistDeleteKey.

(* ================================================================== *)
(** * What a write carries                                            *)
(* ================================================================== *)

Section Writes.
Import Json Http Supabase Store Props Sample.

Lemma run_every_call (P : Query -> Prop) (p : Prog Response) :
  every_call P p ->
  forall w q rep, In (q, rep) (calls (run p w)) -> P q.
Proof.
  induction p as [r|m|token k IH|q k IH]; simpl; intros Hp w q' rep'.
  - contradiction.
  - contradiction.
  - apply IH, Hp.
  - destruct Hp as [Hq Hk]. destruct (call w q) as [rep w']. simpl.
    intros [[= <- <-]|Hin]; [exact Hq|]. eapply IH; [apply Hk|exact Hin].
Qed.

Lemma every_call_try_catch (P : Query -> Prop) (p : Prog Response) h :
  every_call P p -> every_call P (try_catch p h).
Proof.
  induction p as [r|m|token k IH|q k IH]; simpl; auto.
  intros [Hq Hk]. auto.
Qed.

Lemma lookup_remove_same k fs : lookup k (remove k fs) = VUndef.
Proof.
  induction fs as [|[k' v] fs IH]; simpl; [reflexivity|].
  destruct (String.eqb k k') eqn:Hk; [exact IH|]. simpl. rewrite Hk. exact IH.
Qed.

Lemma lookup_remove_other c k fs :
  String.eqb c k = false -> lookup c (remove k fs) = lookup c fs.
Proof.
  intros Hck. induction fs as [|[k' v] fs IH]; simpl; [reflexivity|].
  destruct (String.eqb k k') eqn:Hk.
  - apply String.eqb_eq in Hk. subst k'. rewrite Hck. exact IH.
  - simpl. rewrite IH. reflexivity.
Qed.

(** [if (updates.k) delete updates.k] on a body that has
    properties. *)
Lemma every_call_strip (P : Query -> Prop) updates k cont :
  every_call P (cont (sent_for [k] updates)) ->
  every_call P (strip updates k cont).
Proof.
  intros H. unfold strip, field.
  destruct updates; simpl in *; try exact I; try exact H.
  unfold without_truthy in H. destruct (truthy (lookup k fields)); exact H.
Qed.

Lemma sent_for_twice k1 k2 body :
  sent_for [k2] (sent_for [k1] body) = sent_for [k1; k2] body.
Proof. destruct body; reflexivity. Qed.

Ltac calls_walk :=
  unfold getAuthenticatedUser, getAuthenticatedUserAndToken,
         SetTimes.through_stage, Stages.stage_query, SetTimes.set_time_query,
         SetTimes.stage_event_query, Artists.artist_query,
         Artists.lookup_failure,
         GroupSchedules.update_group_query, exists_query in *;
  repeat first [ exact I
               | apply every_call_try_catch
               | apply every_call_strip; rewrite ?sent_for_twice
               | match goal with
                 | |- _ /\ _ => split
                 | |- sends _ _ => unfold sends; cbn; reflexivity
                 end
               | progress (unfold field, guarded; cbn [bind every_call])
               | break_match
               | intro ].

Lemma handleUpdateEvent_sends key req body :
  json req = BodyJson body ->
  every_call (sends (sent_for ["id"; "created_by"] body))
             (Events.handleUpdateEvent key req).
Proof.
  intros Hjson. unfold Events.handleUpdateEvent, read_json. rewrite Hjson.
  calls_walk.
Qed.

Lemma handleUpdateArtist_sends req body :
  json req = BodyJson body ->
  every_call (sends (sent_for ["id"] body)) (Artists.handleUpdateArtist req).
Proof.
  intros Hjson. unfold Artists.handleUpdateArtist, read_json. rewrite Hjson.
  calls_walk.
Qed.

Lemma handleUpdateStage_sends req body :
  json req = BodyJson body ->
  every_call (sends (sent_for ["id"; "event_id"] body))
             (Stages.handleUpdateStage req).
Proof.
  intros Hjson. unfold Stages.handleUpdateStage, read_json. rewrite Hjson.
  calls_walk.
Qed.

Lemma handleUpdateSetTime_sends req body :
  json req = BodyJson body ->
  every_call (sends (sent_for ["id"] body)) (SetTimes.handleUpdateSetTime req).
Proof.
  intros Hjson. unfold SetTimes.handleUpdateSetTime, read_json. rewrite Hjson.
  calls_walk.
Qed.

Lemma handleUpdateGroupSchedule_sends req body :
  json req = BodyJson body ->
  every_call (sends (sent_for ["id"; "created_by"] body))
             (GroupSchedules.handleUpdateGroupSchedule req).
Proof.
  intros Hjson. unfold GroupSchedules.handleUpdateGroupSchedule, read_json.
  rewrite Hjson. calls_walk.
Qed.

(** ** What is left of an object *)

Lemma without_truthy_same k fs : truthy (lookup k (without_truthy k fs)) = false.
Proof.
  unfold without_truthy. destruct (truthy (lookup k fs)) eqn:Ht; [|exact Ht].
  rewrite lookup_remove_same. reflexivity.
Qed.

Lemma without_truthy_other c k fs :
  c <> k -> lookup c (without_truthy k fs) = lookup c fs.
Proof.
  intros Hck. unfold without_truthy. destruct (truthy (lookup k fs)); [|reflexivity].
  apply lookup_remove_other. apply String.eqb_neq. exact Hck.
Qed.

Lemma without_truthy_stays c k fs :
  truthy (lookup c fs) = false -> truthy (lookup c (without_truthy k fs)) = false.
Proof.
  intros Hc. destruct (String.eqb_spec c k) as [->|Hck].
  - apply without_truthy_same.
  - rewrite without_truthy_other by exact Hck. exact Hc.
Qed.

Lemma stripped_stays protected : forall fs c,
  truthy (lookup c fs) = false ->
  truthy (lookup c (fold_left (fun fs k => without_truthy k fs) protected fs))
  = false.
Proof.
  induction protected as [|k rest IH]; simpl; intros fs c Hc; [exact Hc|].
  apply IH, without_truthy_stays, Hc.
Qed.

Lemma stripped_protected protected : forall fs,
  Forall (fun c => truthy (lookup c (fold_left (fun fs k => without_truthy k fs)
                                               protected fs)) = false)
         protected.
Proof.
  assert (Hgen : forall done rest fs,
             Forall (fun c => truthy (lookup c fs) = false) done ->
             Forall (fun c => truthy (lookup c
                                 (fold_left (fun fs k => without_truthy k fs)
                                            rest fs)) = false)
                    (done ++ rest)).
  { intros done rest. revert done.
    induction rest as [|k rest IH]; simpl; intros done fs Hdone.
    - rewrite app_nil_r. exact Hdone.
    - change (done ++ k :: rest) with (done ++ [k] ++ rest).
      rewrite app_assoc. apply IH. apply Forall_app. split.
      + eapply Forall_impl; [|exact Hdone].
        intros c Hc. apply without_truthy_stays, Hc.
      + apply Forall_cons; [apply without_truthy_same|apply Forall_nil]. }
  intros fs. apply (Hgen [] protected fs). apply Forall_nil.
Qed.

Lemma stripped_others protected : forall fs c,
  ~ In c protected ->
  lookup c (fold_left (fun fs k => without_truthy k fs) protected fs)
  = lookup c fs.
Proof.
  induction protected as [|k rest IH]; simpl; intros fs c Hc; [reflexivity|].
  rewrite IH by tauto. apply without_truthy_other. intros ->. tauto.
Qed.

(** X5.  What an update handler sends to the store is the body of
    the request, less the protected columns that are truthy in it if
    the body is an object: [id] for every table, and also
    [created_by] for events and group schedules and [event_id] for
    stages.  So the changes of an object body hold no truthy value
    for a protected column, and every other column as the body has
    it.  (The test is [if (updates.id)], so a value that is not
    truthy, such as 0 or the empty string, is not removed.)  A body
    that is no object has none of these properties to remove: an
    array goes to the store as it is, with whatever [id] its items
    carry. *)
Theorem updates_leave_protected_columns :
  forall key req body w q rep changes,
    json req = BodyJson body ->
    action q = Update changes ->
    (In (q, rep) (calls (run (Events.handleUpdateEvent key req) w)) ->
     changes = sent_for ["id"; "created_by"] body)
    /\ (In (q, rep) (calls (run (Artists.handleUpdateArtist req) w)) ->
        changes = sent_for ["id"] body)
    /\ (In (q, rep) (calls (run (Stages.handleUpdateStage req) w)) ->
        changes = sent_for ["id"; "event_id"] body)
    /\ (In (q, rep) (calls (run (SetTimes.handleUpdateSetTime req) w)) ->
        changes = sent_for ["id"] body)
    /\ (In (q, rep) (calls (run (GroupSchedules.handleUpdateGroupSchedule req) w)) ->
        changes = sent_for ["id"; "created_by"] body)
    /\ (forall protected fields,
          exists kept,
            sent_for protected (VObj fields) = VObj kept
            /\ Forall (fun c => truthy (lookup c kept) = false) protected
            /\ (forall c, truthy (lookup c fields) = false ->
                          truthy (lookup c kept) = false)
            /\ (forall c, ~ In c protected -> lookup c kept = lookup c fields))
    /\ (forall protected items, sent_for protected (VArr items) = VArr items).
Proof.
  intros key req body w q rep changes Hjson Hq.
  assert (Hsent : forall (p : Prog Response) b,
             every_call (sends b) p -> In (q, rep) (calls (run p w)) ->
             changes = b).
  { intros p b Hp Hin.
    pose proof (run_every_call _ _ Hp _ _ _ Hin) as H.
    unfold sends in H. rewrite Hq in H. exact H. }
  split; [|split; [|split; [|split; [|split; [|split]]]]].
  - apply Hsent, handleUpdateEvent_sends, Hjson.
  - apply Hsent, handleUpdateArtist_sends, Hjson.
  - apply Hsent, handleUpdateStage_sends, Hjson.
  - apply Hsent, handleUpdateSetTime_sends, Hjson.
  - apply Hsent, handleUpdateGroupSchedule_sends, Hjson.
  - intros protected fields. eexists. split; [reflexivity|].
    split; [apply stripped_protected|].
    split; [intros c; apply stripped_stays|apply stripped_others].
  - reflexivity.
Qed.

Lemma updates_leave_protected_columns_witness :
  let r := run (Artists.handleUpdateArtist rename_artist_request) (world []) in
  exists q rep,
    In (q, rep) (calls r)
    /\ json rename_artist_request
       = BodyJson (VObj [("id", VNum 99); ("name", VStr "deadmau5")])
    /\ action q = Update (VObj [("name", VStr "deadmau5")]).
Proof.
  cbv zeta.
  assert (Hc : exists q1 r1 q2 r2 changes,
             calls (run (Artists.handleUpdateArtist rename_artist_request)
                        (world []))
             = [(q1, r1); (q2, r2)]
             /\ action q2 = Update changes).
  { vm_compute. do 5 eexists. split; reflexivity. }
  destruct Hc as (q1 & r1 & q2 & r2 & changes & Hc & Ha).
  exists q2, r2.
  assert (Hin : In (q2, r2)
                   (calls (run (Artists.handleUpdateArtist rename_artist_request)
                               (world [])))).
  { rewrite Hc. right. left. reflexivity. }
  split; [exact Hin|]. split; [reflexivity|].
  destruct (updates_leave_protected_columns secret rename_artist_request
              (VObj [("id", VNum 99); ("name", VStr "deadmau5")])
              (world []) q2 r2 changes eq_refl Ha) as (_ & Hartist & _).
  rewrite Ha, (Hartist Hin). reflexivity.
Defined.

(** ** Inserts *)

Ltac required_fields :=
  repeat match goal with
         | H : _ || _ = false |- _ =>
             apply orb_false_elim in H; destruct H
         | H : negb _ = false |- _ => apply negb_false_iff in H
         end.

Ltac shape_here :=
  unfold inserts_only; cbn [fst snd];
  eexists; split; [reflexivity|]; split; [reflexivity|];
  split; [reflexivity|];
  repeat (apply Forall_cons; [cbn; first [assumption|reflexivity]|]);
  apply Forall_nil.

Ltac insert_shape :=
  unfold inserts_among; cbn [action single selecting from where_];
  first [ exact I
        | required_fields;
          first [ apply Exists_cons_hd; shape_here
                | apply Exists_cons_tl, Exists_cons_hd; shape_here ] ].

Ltac inserts_walk :=
  unfold getAuthenticatedUser, getAuthenticatedUserAndToken,
         SetTimes.through_stage, Stages.stage_query, SetTimes.set_time_query,
         SetTimes.stage_event_query, Lineups.insert_lineup_query,
         GroupSchedules.insert_group_query, GroupSchedules.insert_member_query,
         GroupSchedules.delete_group_query, exists_query in *;
  repeat first [ exact I
               | apply every_call_try_catch
               | match goal with
                 | |- inserts_among _ _ /\ _ => split; [insert_shape|]
                 end
               | progress (unfold read_json, field, guarded; cbn [bind every_call])
               | break_match
               | intro ].

Lemma handleCreateEvent_inserts key req :
  every_call
    (inserts_among
       [("events",
         ["name"; "date_start"; "date_end"; "venue"; "city"; "country";
          "featured"; "details"; "image_url"; "created_by"],
         ["name"; "date_start"; "date_end"])])
    (Events.handleCreateEvent key req).
Proof. unfold Events.handleCreateEvent. inserts_walk. Qed.

Lemma handleAddLineupEntry_inserts req :
  every_call
    (inserts_among
       [("lineups",
         ["event_id"; "artist_id"; "is_headliner"; "tier"; "announcement_date"],
         ["event_id"; "artist_id"])])
    (Lineups.handleAddLineupEntry req).
Proof. unfold Lineups.handleAddLineupEntry. inserts_walk. Qed.

Lemma handleCreateArtist_inserts req :
  every_call
    (inserts_among
       [("artists",
         ["name"; "spotify_id"; "spotify_url"; "followers"; "genres";
          "popularity"; "image_url"; "top_tracks"; "related_artists"],
         ["name"])])
    (Artists.handleCreateArtist req).
Proof. unfold Artists.handleCreateArtist. inserts_walk. Qed.

Lemma handleCreateStage_inserts Number req :
  every_call
    (inserts_among [("stages", ["name"; "event_id"; "description"], ["name"])])
    (Stages.handleCreateStage Number req).
Proof. unfold Stages.handleCreateStage. inserts_walk. Qed.

Lemma handleCreateSetTime_inserts req :
  every_call
    (inserts_among
       [("set_times",
         ["artist_id"; "stage_id"; "start_time"; "end_time"; "notes"],
         ["artist_id"; "stage_id"; "start_time"; "end_time"])])
    (SetTimes.handleCreateSetTime req).
Proof. unfold SetTimes.handleCreateSetTime. inserts_walk. Qed.

Lemma handleAddCollaboration_inserts req :
  every_call
    (inserts_among
       [("artist_collaborations", ["set_time_id"; "artist_id"], ["artist_id"])])
    (SetTimes.handleAddCollaboration req).
Proof. unfold SetTimes.handleAddCollaboration. inserts_walk. Qed.

Lemma handleCreateGroupSchedule_inserts now req :
  every_call
    (inserts_among
       [("group_schedules", ["name"; "event_id"; "created_by"],
         ["name"; "event_id"]);
        ("group_members",
         ["group_id"; "user_id"; "is_admin"; "status"; "joined_at"],
         ["is_admin"; "status"])])
    (GroupSchedules.handleCreateGroupSchedule now req).
Proof. unfold GroupSchedules.handleCreateGroupSchedule. inserts_walk. Qed.

Lemma inserts_among_one q rows t cols required :
  action q = Insert rows ->
  inserts_among [(t, cols, required)] q -> inserts_only t cols required q.
Proof.
  unfold inserts_among. intros ->. intros H.
  inversion H as [s l Hs|s l Hl]; subst; [exact Hs|inversion Hl].
Qed.

Lemma inserts_among_two q rows t1 cols1 required1 t2 cols2 required2 :
  action q = Insert rows ->
  inserts_among [(t1, cols1, required1); (t2, cols2, required2)] q ->
  inserts_only t1 cols1 required1 q \/ inserts_only t2 cols2 required2 q.
Proof.
  unfold inserts_among. intros ->. intros H.
  inversion H as [s l Hs|s l Hl]; subst; [left; exact Hs|].
  inversion Hl as [s l Hs|s l Hl']; subst; [right; exact Hs|inversion Hl'].
Qed.

(** X6.  Whatever the body of the request holds, the row a create
    handler inserts is made of the handler's own columns and of
    nothing else, so that a body cannot set [id] or another column
    of its choice, and the columns the handler requires are truthy
    in every row it inserts.  The event insert always carries
    [created_by], the group insert the columns [name], [event_id]
    and [created_by], and the member insert [is_admin] and
    [status]. *)
Theorem create_handlers_insert_their_own_columns :
  forall key now Number req w q rep rows,
    action q = Insert rows ->
    (In (q, rep) (calls (run (Events.handleCreateEvent key req) w)) ->
     inserts_only "events"
       ["name"; "date_start"; "date_end"; "venue"; "city"; "country";
        "featured"; "details"; "image_url"; "created_by"]
       ["name"; "date_start"; "date_end"] q)
    /\ (In (q, rep) (calls (run (Lineups.handleAddLineupEntry req) w)) ->
        inserts_only "lineups"
          ["event_id"; "artist_id"; "is_headliner"; "tier"; "announcement_date"]
          ["event_id"; "artist_id"] q)
    /\ (In (q, rep) (calls (run (Artists.handleCreateArtist req) w)) ->
        inserts_only "artists"
          ["name"; "spotify_id"; "spotify_url"; "followers"; "genres";
           "popularity"; "image_url"; "top_tracks"; "related_artists"]
          ["name"] q)
    /\ (In (q, rep) (calls (run (Stages.handleCreateStage Number req) w)) ->
        inserts_only "stages" ["name"; "event_id"; "description"] ["name"] q)
    /\ (In (q, rep) (calls (run (SetTimes.handleCreateSetTime req) w)) ->
        inserts_only "set_times"
          ["artist_id"; "stage_id"; "start_time"; "end_time"; "notes"]
          ["artist_id"; "stage_id"; "start_time"; "end_time"] q)
    /\ (In (q, rep) (calls (run (SetTimes.handleAddCollaboration req) w)) ->
        inserts_only "artist_collaborations" ["set_time_id"; "artist_id"]
                     ["artist_id"] q)
    /\ (In (q, rep)
           (calls (run (GroupSchedules.handleCreateGroupSchedule now req) w)) ->
        inserts_only "group_schedules" ["name"; "event_id"; "created_by"]
                     ["name"; "event_id"] q
        \/ inserts_only "group_members"
             ["group_id"; "user_id"; "is_admin"; "status"; "joined_at"]
             ["is_admin"; "status"] q).
Proof.
  intros key now Number req w q rep rows Hq.
  split; [|split; [|split; [|split; [|split; [|split]]]]]; intros Hin.
  - eapply inserts_among_one; [exact Hq|].
    exact (run_every_call _ _ (handleCreateEvent_inserts key req) _ _ _ Hin).
  - eapply inserts_among_one; [exact Hq|].
    exact (run_every_call _ _ (handleAddLineupEntry_inserts req) _ _ _ Hin).
  - eapply inserts_among_one; [exact Hq|].
    exact (run_every_call _ _ (handleCreateArtist_inserts req) _ _ _ Hin).
  - eapply inserts_among_one; [exact Hq|].
    exact (run_every_call _ _ (handleCreateStage_inserts Number req) _ _ _ Hin).
  - eapply inserts_among_one; [exact Hq|].
    exact (run_every_call _ _ (handleCreateSetTime_inserts req) _ _ _ Hin).
  - eapply inserts_among_one; [exact Hq|].
    exact (run_every_call _ _ (handleAddCollaboration_inserts req) _ _ _ Hin).
  - eapply inserts_among_two; [exact Hq|].
    exact (run_every_call _ _ (handleCreateGroupSchedule_inserts now req) _ _ _ Hin).
Qed.

Lemma create_handlers_insert_their_own_columns_witness :
  let r := run (Artists.handleCreateArtist new_artist_request) (world []) in
  exists q rep,
    calls r = [(q, rep)]
    /\ inserts_only "artists"
         ["name"; "spotify_id"; "spotify_url"; "followers"; "genres";
          "popularity"; "image_url"; "top_tracks"; "related_artists"]
         ["name"] q.
Proof.
  cbv zeta.
  assert (Hc : exists q rep rows,
             calls (run (Artists.handleCreateArtist new_artist_request)
                        (world []))
             = [(q, rep)]
             /\ action q = Insert rows).
  { vm_compute. do 3 eexists. split; reflexivity. }
  destruct Hc as (q & rep & rows & Hc & Ha).
  exists q, rep. split; [exact Hc|].
  destruct (create_handlers_insert_their_own_columns
              secret now (fun _ => VNaN) new_artist_request (world [])
              q rep rows Ha) as (_ & _ & Hartist & _).
  apply Hartist. rewrite Hc. left. reflexivity.
Defined.

End Writes.

(* ================================================================== *)
(** * Rows looked up, created and removed                             *)
(* ================================================================== *)

Section Rows.
Import Json Http Supabase Store Props Sample.

Lemma as_user a d req u (k : option User -> Prog Response) :
  caller a req u ->
  run (guarded (bind (getAuthenticatedUser req) k)) (healthy a d)
  = run (guarded (k (Some u))) (healthy a d).
Proof.
  intros (token & Hb & Hne & Ha). unfold getAuthenticatedUser, guarded.
  rewrite Hb, Hne. cbn [bind try_catch run auth healthy]. rewrite Ha.
  reflexivity.
Qed.

Lemma string_of_Z_nonempty n : String.eqb (string_of_Z n) "" = false.
Proof.
  unfold string_of_Z. destruct (Z.to_int n) as [u|u]; destruct u; reflexivity.
Qed.

(** Among rows with older ids, the newest id selects the new row
    only. *)
Lemma select_new_row n rows stored lit :
  forallb (id_below n) rows = true ->
  column "id" stored = VNum n ->
  to_string lit = string_of_Z n ->
  filter (selected [Eq "id" lit]) (rows ++ [stored]) = [stored]
  /\ filter (fun r => negb (selected [Eq "id" lit] r)) (rows ++ [stored]) = rows.
Proof.
  intros Hrows Hstored Hlit. rewrite !filter_app.
  assert (Hnew : selected [Eq "id" lit] stored = true).
  { unfold selected. cbn [forallb matches]. unfold lit_eq.
    rewrite Hstored, Hlit. cbn [to_string]. rewrite String.eqb_refl.
    reflexivity. }
  assert (Hold : forall r, In r rows -> selected [Eq "id" lit] r = false).
  { intros r Hr. rewrite forallb_forall in Hrows. specialize (Hrows r Hr).
    unfold selected. cbn [forallb matches]. unfold lit_eq, id_below in *.
    destruct (column "id" r); try discriminate. cbn [to_string]. rewrite Hlit.
    destruct (String.eqb_spec (string_of_Z z) (string_of_Z n)) as [E|E];
      [|reflexivity].
    apply string_of_Z_inj in E. subst. rewrite Z.ltb_irrefl in Hrows.
    discriminate. }
  cbn [filter]. rewrite Hnew. cbn [negb].
  assert (H1 : filter (selected [Eq "id" lit]) rows = []).
  { clear Hrows. induction rows as [|r rows IH]; [reflexivity|].
    cbn [filter]. rewrite (Hold r) by (left; reflexivity).
    apply IH. intros r' Hr'. apply Hold. right. exact Hr'. }
  assert (H2 : filter (fun r => negb (selected [Eq "id" lit] r)) rows = rows).
  { clear Hrows H1. induction rows as [|r rows IH]; [reflexivity|].
    cbn [filter]. rewrite (Hold r) by (left; reflexivity). cbn [negb].
    f_equal. apply IH. intros r' Hr'. apply Hold. right. exact Hr'. }
  rewrite H1, H2, app_nil_r. split; reflexivity.
Qed.

(** ** One artist *)

Lemma get_artist_run a d req u artistId :
  caller a req u ->
  Artists.getArtistIdFromUrl (pathname req) = Some artistId ->
  let r := run (Artists.handleGetArtist req) (healthy a d) in
  response r
  = Some (match rows_with_id d "artists" (VStr artistId) with
          | [row] => ok row
          | _ => notFoundResponse "Artist not found"
          end)
  /\ db (after r) = d.
Proof.
  intros Hc Hid. cbv zeta. unfold Artists.handleGetArtist.
  rewrite (as_user a d req u _ Hc). unfold guarded. rewrite Hid.
  cbn [try_catch]. rewrite run_read by reflexivity. cbv zeta.
  rewrite answer_artist_query. unfold rows_with_id.
  destruct (filter (selected [Eq "id" (VStr artistId)])
                   (rows_of "artists" (tables d))) as [|row [|row2 rest]];
    cbn; split; reflexivity.
Qed.

(** X7.  With the store answering, a GET of one artist by an
    authenticated caller is answered 200 with the row of that id when
    the store holds exactly one, and 404 when it holds none; the
    store is left as it was. *)
Theorem artist_is_found_or_404 :
  forall w req u artistId,
    caller (auth w) req u ->
    faults w = [] ->
    Artists.getArtistIdFromUrl (pathname req) = Some artistId ->
    let r := run (Artists.handleGetArtist req) w in
    (forall row, rows_with_id (db w) "artists" (VStr artistId) = [row] ->
                 response r = Some (ok row))
    /\ (rows_with_id (db w) "artists" (VStr artistId) = [] ->
        response r = Some (notFoundResponse "Artist not found"))
    /\ db (after r) = db w.
Proof.
  intros [a d f] req u artistId Hc Hf Hid. cbn [auth db faults] in *. subst f.
  fold (healthy a d). cbv zeta.
  destruct (get_artist_run a d req u artistId Hc Hid) as [Hresp Hdb].
  rewrite Hresp. split; [|split; [|exact Hdb]].
  - intros row ->. reflexivity.
  - intros ->. reflexivity.
Qed.

Lemma artist_is_found_or_404_witness :
  response (run (Artists.handleGetArtist (get_artist_request "11")) (world []))
  = Some (ok (VObj [("id", VNum 11); ("name", VStr "Rezz")]))
  /\ response (run (Artists.handleGetArtist (get_artist_request "12")) (world []))
     = Some (notFoundResponse "Artist not found").
Proof.
  assert (Hc : forall id, caller (auth (world [])) (get_artist_request id) bob).
  { intros id. exists "tok-bob". repeat split. }
  assert (H11 : Artists.getArtistIdFromUrl (pathname (get_artist_request "11"))
                = Some "11") by (vm_compute; reflexivity).
  assert (H12 : Artists.getArtistIdFromUrl (pathname (get_artist_request "12"))
                = Some "12") by (vm_compute; reflexivity).
  split.
  - apply (proj1 (artist_is_found_or_404 (world []) _ bob "11"
                    (Hc _) eq_refl H11)).
    vm_compute. reflexivity.
  - apply (proj1 (proj2 (artist_is_found_or_404 (world []) _ bob "12"
                           (Hc _) eq_refl H12))).
    vm_compute. reflexivity.
Defined.

Lemma exec_insert_plain d c t row :
  unique_keys t = [] ->
  exec d (single (selecting (from c t (Insert [row]))))
  = (no_error (with_id (next_id d) row) VNull,
     {| tables := set_rows t (rows_of t (tables d) ++ [with_id (next_id d) row])
                           (tables d);
        next_id := next_id d + 1 |}).
Proof.
  intros Hk. unfold exec, violates. cbn [action single selecting from table
    returning cardinality]. rewrite Hk. reflexivity.
Qed.

Lemma create_artist_run a d req u fields :
  caller a req u ->
  json req = BodyJson (VObj fields) ->
  truthy (lookup "name" fields) = true ->
  let r := run (Artists.handleCreateArtist req) (healthy a d) in
  response r = Some {| status := 201;
                       body := success_with "artist" (new_artist_row d fields) |}
  /\ after r
     = healthy a {| tables := set_rows "artists"
                                (rows_of "artists" (tables d)
                                 ++ [new_artist_row d fields]) (tables d);
                    next_id := next_id d + 1 |}.
Proof.
  intros Hc Hjson Hname. cbv zeta. unfold Artists.handleCreateArtist.
  rewrite (as_user a d req u _ Hc). unfold guarded, read_json, field.
  rewrite Hjson. cbn [get_prop]. rewrite Hname.
  cbn [negb try_catch run]. unfold call. cbn [faults healthy db auth tl].
  rewrite exec_insert_plain by reflexivity.
  cbn [error no_error data try_catch run response outcome after].
  split; reflexivity.
Qed.

(** X8.  A created artist can be fetched: after a creation answered
    201 against a store whose ids in use are below the next one, the
    store holds its former artists and the new row, made of the
    handler's columns of the body under the next id, and a GET with
    that id by any authenticated caller is answered 200 with that
    row. *)
Theorem created_artist_can_be_fetched :
  forall a d create get creator reader fields,
    caller a create creator ->
    caller a get reader ->
    fresh_ids d = true ->
    json create = BodyJson (VObj fields) ->
    truthy (lookup "name" fields) = true ->
    Artists.getArtistIdFromUrl (pathname get) = Some (string_of_Z (next_id d)) ->
    let r1 := run (Artists.handleCreateArtist create) (healthy a d) in
    let r2 := run (Artists.handleGetArtist get) (after r1) in
    let stored := new_artist_row d fields in
    response r1 = Some {| status := 201; body := success_with "artist" stored |}
    /\ column "id" stored = VNum (next_id d)
    /\ column "name" stored = lookup "name" fields
    /\ rows_after r1 "artists" = rows_of "artists" (tables d) ++ [stored]
    /\ response r2 = Some (ok stored).
Proof.
  intros a d create get creator reader fields Hc Hg Hfresh Hjson Hname Hid.
  cbv zeta.
  destruct (create_artist_run a d create creator fields Hc Hjson Hname)
    as [Hresp Hafter].
  cbv zeta in Hresp, Hafter. unfold rows_after. rewrite Hresp, Hafter.
  cbn [db healthy tables].
  split; [reflexivity|]. split; [apply column_with_id|]. split.
  { unfold column, new_artist_row, with_id. cbn [spread map artist_columns].
    rewrite lookup_assign_other by reflexivity.
    apply truthy_defined in Hname. destruct Hname as [Hu _].
    rewrite defined_cons by exact Hu. cbn [lookup]. reflexivity. }
  split; [apply rows_of_set_rows_same|].
  match goal with
  | |- response (run _ (healthy a ?d')) = _ =>
      destruct (get_artist_run a d' get reader _ Hg Hid) as [Hget _]
  end.
  cbv zeta in Hget. rewrite Hget. unfold rows_with_id. cbn [tables].
  rewrite rows_of_set_rows_same.
  destruct (select_new_row (next_id d) (rows_of "artists" (tables d))
              (new_artist_row d fields) (VStr (string_of_Z (next_id d)))
              (fresh_rows d "artists" Hfresh) (column_with_id _ _) eq_refl)
    as [-> _].
  reflexivity.
Qed.

Lemma created_artist_can_be_fetched_witness :
  let r1 := run (Artists.handleCreateArtist new_artist_request) (world []) in
  let r2 := run (Artists.handleGetArtist (get_artist_request "100")) (after r1) in
  response r2
  = Some (ok (new_artist_row database [("id", VNum 1); ("name", VStr "Eprom")]))
  /\ column "id" (new_artist_row database
                    [("id", VNum 1); ("name", VStr "Eprom")]) = VNum 100.
Proof.
  cbv zeta.
  assert (Hc : caller provider new_artist_request alice).
  { exists "tok-alice". repeat split. }
  assert (Hg : caller provider (get_artist_request "100") bob).
  { exists "tok-bob". repeat split. }
  assert (Hfresh : fresh_ids database = true) by (vm_compute; reflexivity).
  assert (Hid : Artists.getArtistIdFromUrl (pathname (get_artist_request "100"))
                = Some (string_of_Z (next_id database)))
    by (vm_compute; reflexivity).
  pose proof (created_artist_can_be_fetched provider database
                new_artist_request (get_artist_request "100") alice bob
                [("id", VNum 1); ("name", VStr "Eprom")]
                Hc Hg Hfresh eq_refl eq_refl Hid) as H.
  cbv zeta in H. destruct H as (_ & Hcol & _ & _ & Hget).
  split; [exact Hget|exact Hcol].
Defined.

(** ** Removing *)

Lemma truthy_get_prop v k : truthy v = true -> get_prop v k = Some (column k v).
Proof. destruct v; simpl; try discriminate; reflexivity. Qed.

Lemma found v rows row :
  filter (selected [Eq "id" v]) rows = [row] ->
  missing (shape Single (filter (selected [Eq "id" v]) rows) VNull) = false
  /\ data (shape Single (filter (selected [Eq "id" v]) rows) VNull) = row.
Proof.
  intros H. rewrite H. unfold missing, failed. cbn [shape error data no_error].
  rewrite (found_truthy _ _ _ H). split; reflexivity.
Qed.

Lemma not_found v rows :
  filter (selected [Eq "id" v]) rows = [] ->
  missing (shape Single (filter (selected [Eq "id" v]) rows) VNull) = true.
Proof. intros ->. reflexivity. Qed.

Lemma present_some s : String.eqb s "" = false -> present (Some s) = Some s.
Proof. unfold present. intros ->. reflexivity. Qed.

Lemma remove_lineup_run a d req u entryId entry ev :
  caller a req u ->
  present (Lineups.getLineupEntryIdFromUrl (pathname req)) = Some entryId ->
  rows_with_id d "lineups" (VStr entryId) = [entry] ->
  rows_with_id d "events" (column "event_id" entry) = [ev] ->
  let r := run (Lineups.handleRemoveLineupEntry req) (healthy a d) in
  response r = Some (ok success)
  /\ after r
     = healthy a
         {| tables :=
              set_rows "lineups"
                (filter (fun row => negb (selected [Eq "id" (VStr entryId)] row))
                        (rows_of "lineups" (tables d)))
                (tables d);
            next_id := next_id d |}.
Proof.
  intros Hc Hid Hentry Hev. cbv zeta. unfold Lineups.handleRemoveLineupEntry.
  rewrite (as_user a d req u _ Hc). unfold guarded. rewrite Hid.
  cbn [try_catch]. rewrite run_read by reflexivity. cbv zeta.
  rewrite answer_exists_query. unfold rows_with_id in *.
  destruct (found _ _ _ Hentry) as [-> ->]. unfold field.
  rewrite (truthy_get_prop _ _ (found_truthy _ _ _ Hentry)).
  cbn [try_catch]. rewrite run_read by reflexivity. cbv zeta.
  rewrite answer_exists_query.
  destruct (found _ _ _ Hev) as [-> _].
  cbn [try_catch run]. unfold call. cbn [faults healthy db auth tl].
  cbn. split; reflexivity.
Qed.

(** X9.  An added lineup entry can be removed again: after an insert
    answered 200 against a store whose ids in use are below the next
    one, a DELETE of the entry with the new id by an authenticated
    caller is answered 200, and every table holds the rows it held
    before the two requests. *)
Theorem added_lineup_entry_can_be_removed :
  forall a d add remove u event_id artist_id is_headliner tier announcement_date,
    LineupRequest a d add event_id artist_id is_headliner tier
                  announcement_date ->
    in_lineup d event_id artist_id = false ->
    fresh_ids d = true ->
    caller a remove u ->
    Lineups.getLineupEntryIdFromUrl (pathname remove)
    = Some (string_of_Z (next_id d)) ->
    let r1 := run (Lineups.handleAddLineupEntry add) (healthy a d) in
    let r2 := run (Lineups.handleRemoveLineupEntry remove) (after r1) in
    option_map status (response r1) = Some 200%Z
    /\ response r2 = Some (ok success)
    /\ forall t, rows_after r2 t = rows_of t (tables d).
Proof.
  intros a d add remove u e_id a_id hl tier ad Hreq Hin Hfresh Hc Hid.
  cbv zeta.
  pose proof (add_lineup_run a d add e_id a_id hl tier ad Hreq) as Hrun.
  cbv zeta in Hrun. rewrite Hin in Hrun.
  destruct Hrun as (Hresp & Hdb & Hfaults & Hauth).
  set (stored := with_id (next_id d) (lineup_row e_id a_id hl tier ad)) in *.
  unfold rows_after.
  destruct (after (run (Lineups.handleAddLineupEntry add) (healthy a d)))
    as [a' d' f'].
  cbn [db faults auth] in *. subst a' d' f'. fold (healthy a (with_lineup d stored)).
  rewrite Hresp. split; [reflexivity|].
  destruct Hreq as [_ _ Hte Hta [ev Hev] _].
  destruct (select_new_row (next_id d) (rows_of "lineups" (tables d)) stored
              (VStr (string_of_Z (next_id d)))
              (fresh_rows d "lineups" Hfresh) (column_with_id _ _) eq_refl)
    as [Hsel Hdel].
  assert (Hentry : rows_with_id (with_lineup d stored) "lineups"
                                (VStr (string_of_Z (next_id d))) = [stored]).
  { unfold rows_with_id, with_lineup. cbn [tables].
    rewrite rows_of_set_rows_same. exact Hsel. }
  assert (Hevent : rows_with_id (with_lineup d stored) "events"
                                (column "event_id" stored) = [ev]).
  { unfold rows_with_id, with_lineup. cbn [tables].
    rewrite rows_of_set_rows_other by reflexivity.
    unfold stored.
    destruct (stored_lineup_columns (next_id d) e_id a_id hl tier ad Hte Hta)
      as [-> _]. exact Hev. }
  assert (Hp : present (Lineups.getLineupEntryIdFromUrl (pathname remove))
               = Some (string_of_Z (next_id d))).
  { rewrite Hid. apply present_some, string_of_Z_nonempty. }
  destruct (remove_lineup_run a (with_lineup d stored) remove u _ stored ev
              Hc Hp Hentry Hevent) as [Hok Hafter].
  cbv zeta in Hok, Hafter. rewrite Hok, Hafter. split; [reflexivity|].
  intros t. unfold with_lineup. cbn [db healthy tables].
  rewrite rows_of_set_rows_same, Hdel.
  destruct (String.eqb t "lineups") eqn:Ht.
  - apply String.eqb_eq in Ht. subst t. apply rows_of_set_rows_same.
  - rewrite !rows_of_set_rows_other by exact Ht. reflexivity.
Qed.

Lemma added_lineup_entry_can_be_removed_witness :
  let r1 := run (Lineups.handleAddLineupEntry (add_lineup_request 11))
                (world []) in
  let r2 := run (Lineups.handleRemoveLineupEntry (remove_lineup_request "100"))
                (after r1) in
  option_map status (response r1) = Some 200%Z
  /\ response r2 = Some (ok success)
  /\ rows_after r2 "lineups" = rows_of "lineups" (tables database).
Proof.
  cbv zeta.
  assert (Hreq : LineupRequest provider database (add_lineup_request 11)
                   (VNum 7) (VNum 11) (VBool true) (VStr "headliner")
                   (VStr "2025-03-01")).
  { constructor.
    - exists "tok-alice", alice. repeat split.
    - exists (lineup_body 11). repeat split.
    - reflexivity.
    - reflexivity.
    - eexists. vm_compute. reflexivity.
    - eexists. vm_compute. reflexivity. }
  assert (Hin : in_lineup database (VNum 7) (VNum 11) = false)
    by (vm_compute; reflexivity).
  assert (Hfresh : fresh_ids database = true) by (vm_compute; reflexivity).
  assert (Hc : caller provider (remove_lineup_request "100") alice).
  { exists "tok-alice". repeat split. }
  assert (Hid : Lineups.getLineupEntryIdFromUrl
                  (pathname (remove_lineup_request "100"))
                = Some (string_of_Z (next_id database)))
    by (vm_compute; reflexivity).
  pose proof (added_lineup_entry_can_be_removed provider database
                (add_lineup_request 11) (remove_lineup_request "100") alice
                _ _ _ _ _ Hreq Hin Hfresh Hc Hid) as H.
  cbv zeta in H. destruct H as (H1 & H2 & H3).
  split; [exact H1|]. split; [exact H2|]. apply H3.
Defined.

(** ** What is not there *)

Ltac absent_row H :=
  rewrite run_read by reflexivity; cbv zeta;
  rewrite answer_exists_query; unfold rows_with_id in H;
  rewrite (not_found _ _ H); cbn; repeat split.

(** X10.  With the store answering, a removal of what the store does
    not hold is answered 404 after the one look-up: of a lineup
    entry, a stage, a set time or a collaboration.  No write reaches
    the store, which is left as it was. *)
Theorem removing_what_is_not_there :
  forall a d req u id,
    caller a req u ->
    (present (Lineups.getLineupEntryIdFromUrl (pathname req)) = Some id ->
     rows_with_id d "lineups" (VStr id) = [] ->
     let r := run (Lineups.handleRemoveLineupEntry req) (healthy a d) in
     response r = Some (notFoundResponse "Lineup entry not found")
     /\ map (fun c => is_write (fst c)) (calls r) = [false]
     /\ after r = healthy a d)
    /\ (present (Stages.getStageIdFromUrl (pathname req)) = Some id ->
        rows_with_id d "stages" (VStr id) = [] ->
        let r := run (Stages.handleDeleteStage req) (healthy a d) in
        response r = Some (notFoundResponse "Stage not found")
        /\ map (fun c => is_write (fst c)) (calls r) = [false]
        /\ after r = healthy a d)
    /\ (present (SetTimes.getSetTimeIdFromUrl (pathname req)) = Some id ->
        rows_with_id d "set_times" (VStr id) = [] ->
        let r := run (SetTimes.handleDeleteSetTime req) (healthy a d) in
        response r = Some (notFoundResponse "Set time not found")
        /\ map (fun c => is_write (fst c)) (calls r) = [false]
        /\ after r = healthy a d)
    /\ (present (SetTimes.getCollaborationIdFromUrl (pathname req)) = Some id ->
        rows_with_id d "artist_collaborations" (VStr id) = [] ->
        let r := run (SetTimes.handleRemoveCollaboration req) (healthy a d) in
        response r = Some (notFoundResponse "Collaboration not found")
        /\ map (fun c => is_write (fst c)) (calls r) = [false]
        /\ after r = healthy a d).
Proof.
  intros a d req u id Hc.
  split; [|split; [|split]]; intros Hid Hnone; cbv zeta.
  - unfold Lineups.handleRemoveLineupEntry.
    rewrite (as_user a d req u _ Hc). unfold guarded. rewrite Hid.
    cbn [try_catch]. absent_row Hnone.
  - unfold Stages.handleDeleteStage, Stages.stage_query.
    rewrite (as_user a d req u _ Hc). unfold guarded. rewrite Hid.
    cbn [try_catch]. absent_row Hnone.
  - unfold SetTimes.handleDeleteSetTime, SetTimes.set_time_query.
    rewrite (as_user a d req u _ Hc). unfold guarded. rewrite Hid.
    cbn [try_catch]. absent_row Hnone.
  - unfold SetTimes.handleRemoveCollaboration.
    rewrite (as_user a d req u _ Hc). unfold guarded. rewrite Hid.
    cbn [try_catch]. absent_row Hnone.
Qed.

Lemma removing_what_is_not_there_witness :
  let r := run (Lineups.handleRemoveLineupEntry (remove_lineup_request "21"))
               (world []) in
  response r = Some (notFoundResponse "Lineup entry not found")
  /\ rows_after r "lineups" = rows_of "lineups" (tables database).
Proof.
  cbv zeta.
  assert (Hc : caller provider (remove_lineup_request "21") alice).
  { exists "tok-alice". repeat split. }
  assert (Hid : present (Lineups.getLineupEntryIdFromUrl
                           (pathname (remove_lineup_request "21")))
                = Some "21") by (vm_compute; reflexivity).
  assert (Hnone : rows_with_id database "lineups" (VStr "21") = [])
    by (vm_compute; reflexivity).
  destruct (removing_what_is_not_there provider database
              (remove_lineup_request "21") alice "21" Hc) as (Hlineup & _).
  destruct (Hlineup Hid Hnone) as (Hresp & _ & Hafter).
  split; [exact Hresp|]. unfold rows_after.
  change (world []) with (healthy provider database). rewrite Hafter.
  reflexivity.
Defined.

(** ** Collaborators *)

(** X11.  With the store answering, naming the artist of a set time
    as its own collaborator is refused with 400: when the
    [artist_id] of the body is strictly equal to the [artist_id] of
    the set time, no insert reaches the store, which is left as it
    was. *)
Theorem main_artist_is_no_collaborator :
  forall a d req u setTimeId body artist_id setTime,
    caller a req u ->
    present (SetTimes.getSetTimeIdFromUrl (pathname req)) = Some setTimeId ->
    json req = BodyJson body ->
    get_prop body "artist_id" = Some artist_id ->
    truthy artist_id = true ->
    rows_with_id d "set_times" (VStr setTimeId) = [setTime] ->
    strict_eq (column "artist_id" setTime) artist_id = true ->
    let r := run (SetTimes.handleAddCollaboration req) (healthy a d) in
    response r
    = Some (badRequestResponse "Cannot add main artist as a collaborator")
    /\ map (fun c => is_write (fst c)) (calls r) = [false]
    /\ after r = healthy a d.
Proof.
  intros a d req u setTimeId body artist_id setTime Hc Hid Hjson Hart Ht
         Hrow Hsame.
  cbv zeta. unfold SetTimes.handleAddCollaboration, SetTimes.set_time_query.
  rewrite (as_user a d req u _ Hc). unfold guarded, read_json, field.
  rewrite Hid, Hjson, Hart, Ht. cbn [negb try_catch].
  rewrite run_read by reflexivity. cbv zeta.
  rewrite answer_exists_query. unfold rows_with_id in Hrow.
  destruct (found _ _ _ Hrow) as [-> ->].
  rewrite (truthy_get_prop _ _ (found_truthy _ _ _ Hrow)), Hsame.
  cbn. repeat split.
Qed.

Lemma main_artist_is_no_collaborator_witness :
  let r := run (SetTimes.handleAddCollaboration (collaboration_request 10))
               (healthy provider timetable) in
  response r
  = Some (badRequestResponse "Cannot add main artist as a collaborator")
  /\ after r = healthy provider timetable.
Proof.
  cbv zeta.
  assert (Hc : caller provider (collaboration_request 10) alice).
  { exists "tok-alice". repeat split. }
  assert (Hid : present (SetTimes.getSetTimeIdFromUrl
                           (pathname (collaboration_request 10)))
                = Some "40") by (vm_compute; reflexivity).
  assert (Hrow : rows_with_id timetable "set_times" (VStr "40")
                 = [VObj [("id", VNum 40); ("artist_id", VNum 10);
                          ("stage_id", VNum 30)]])
    by (vm_compute; reflexivity).
  destruct (main_artist_is_no_collaborator provider timetable
              (collaboration_request 10) alice "40" _ (VNum 10) _
              Hc Hid eq_refl eq_refl eq_refl Hrow eq_refl)
    as (Hresp & _ & Hafter).
  split; assumption.
Defined.

End Rows.

(* ================================================================== *)
(** * Paths                                                           *)
(* ================================================================== *)

Section Paths.
Import Json Http Supabase Store Props Sample.

Lemma split_slash_segment s : no_slash s = true -> JS.split_slash s = [s].
Proof.
  induction s as [|c s IH]; simpl; [reflexivity|].
  destruct (Ascii.eqb c "/"); simpl; [discriminate|].
  intros H. rewrite (IH H). reflexivity.
Qed.

Lemma split_slash_cons s t :
  no_slash s = true ->
  JS.split_slash (s ++ String "/" t) = s :: JS.split_slash t.
Proof.
  induction s as [|c s IH]; simpl; [reflexivity|].
  destruct (Ascii.eqb c "/"); simpl; [discriminate|].
  intros H. rewrite (IH H). reflexivity.
Qed.

Lemma split_path2 a id :
  no_slash a = true -> no_slash id = true ->
  JS.split_slash (String "/" (a ++ String "/" id)) = [""; a; id].
Proof.
  intros Ha Hid. change (String "/" (a ++ String "/" id))
    with ("" ++ String "/" (a ++ String "/" id))%string.
  rewrite split_slash_cons by reflexivity.
  rewrite split_slash_cons by exact Ha.
  rewrite split_slash_segment by exact Hid. reflexivity.
Qed.

Lemma split_path3 a id b :
  no_slash a = true -> no_slash id = true -> no_slash b = true ->
  JS.split_slash (String "/" (a ++ String "/" (id ++ String "/" b)))
  = [""; a; id; b].
Proof.
  intros Ha Hid Hb.
  change (String "/" (a ++ String "/" (id ++ String "/" b)))
    with ("" ++ String "/" (a ++ String "/" (id ++ String "/" b)))%string.
  rewrite split_slash_cons by reflexivity.
  rewrite split_slash_cons by exact Ha.
  rewrite split_slash_cons by exact Hid.
  rewrite split_slash_segment by exact Hb. reflexivity.
Qed.

Ltac path2 p a id Hid :=
  change (JS.split_slash (p ++ id)%string)
    with (JS.split_slash (String "/" (a ++ String "/" id))%string);
  rewrite (split_path2 a id eq_refl Hid).

Ltac path3 p a id sfx b Hid :=
  change (JS.split_slash (p ++ id ++ sfx)%string)
    with (JS.split_slash (String "/" (a ++ String "/" (id ++ String "/" b)))%string);
  rewrite (split_path3 a id b eq_refl Hid eq_refl).

(** X12.  A path built from an id gives the id back: each extractor
    returns the segment [id] of the path its route documents, for
    every segment; the group and artist extractors for every segment
    that is not empty and converts to a number, and the stage
    extractor for every segment but [events]. *)
Theorem paths_give_their_id_back :
  forall id,
    no_slash id = true ->
    (id <> "" -> JS.isNaN_Number id = false ->
     GroupSchedules.getGroupIdFromUrl ("/group-schedules/" ++ id) = Some id
     /\ Artists.getArtistIdFromUrl ("/artists/" ++ id) = Some id)
    /\ Events.getEventIdFromUrl ("/events/" ++ id) = Some id
    /\ Lineups.getEventIdFromUrl ("/events/" ++ id ++ "/lineup") = Some id
    /\ Lineups.getLineupEntryIdFromUrl ("/lineups/" ++ id) = Some id
    /\ Stages.getEventIdFromUrl ("/events/" ++ id ++ "/stages") = Some id
    /\ (id <> "events" ->
        Stages.getStageIdFromUrl ("/stages/" ++ id) = Some id)
    /\ SetTimes.getEventIdFromUrl ("/events/" ++ id ++ "/schedule") = Some id
    /\ SetTimes.getSetTimeIdFromUrl ("/set_times/" ++ id) = Some id
    /\ SetTimes.getSetTimeIdFromUrl ("/set_times/" ++ id ++ "/collaborations")
       = Some id
    /\ SetTimes.getCollaborationIdFromUrl ("/artist_collaborations/" ++ id)
       = Some id.
Proof.
  intros id Hid.
  split; [|repeat split].
  - intros Hne Hnum. apply String.eqb_neq in Hne.
    unfold GroupSchedules.getGroupIdFromUrl, Artists.getArtistIdFromUrl.
    path2 "/group-schedules/" "group-schedules" id Hid.
    path2 "/artists/" "artists" id Hid.
    cbn. rewrite Hne, Hnum. split; reflexivity.
  - unfold Events.getEventIdFromUrl.
    path2 "/events/" "events" id Hid. reflexivity.
  - unfold Lineups.getEventIdFromUrl.
    path3 "/events/" "events" id "/lineup" "lineup" Hid. reflexivity.
  - unfold Lineups.getLineupEntryIdFromUrl.
    path2 "/lineups/" "lineups" id Hid. reflexivity.
  - unfold Stages.getEventIdFromUrl.
    path3 "/events/" "events" id "/stages" "stages" Hid. reflexivity.
  - intros Hne. apply String.eqb_neq in Hne. unfold Stages.getStageIdFromUrl.
    path2 "/stages/" "stages" id Hid. cbn. rewrite Hne. reflexivity.
  - unfold SetTimes.getEventIdFromUrl.
    path3 "/events/" "events" id "/schedule" "schedule" Hid. reflexivity.
  - unfold SetTimes.getSetTimeIdFromUrl.
    path2 "/set_times/" "set_times" id Hid. reflexivity.
  - unfold SetTimes.getSetTimeIdFromUrl.
    path3 "/set_times/" "set_times" id "/collaborations" "collaborations" Hid.
    reflexivity.
  - unfold SetTimes.getCollaborationIdFromUrl.
    path2 "/artist_collaborations/" "artist_collaborations" id Hid.
    reflexivity.
Qed.

Lemma paths_give_their_id_back_witness :
  GroupSchedules.getGroupIdFromUrl "/group-schedules/42" = Some "42"
  /\ Stages.getStageIdFromUrl "/stages/42" = Some "42".
Proof.
  destruct (paths_give_their_id_back "42" eq_refl)
    as (Hnum & _ & _ & _ & _ & Hstage & _).
  split.
  - apply Hnum; [discriminate|reflexivity].
  - apply Hstage. discriminate.
Defined.

(** ** The prefix of the functions gateway *)

Lemma prefixed_path_parts id :
  JS.split_slash ("/functions/v1/events/" ++ id)
  = "" :: "functions" :: "v1" :: "events" :: JS.split_slash id.
Proof.
  change ("/functions/v1/events/" ++ id)%string
    with ("" ++ String "/" ("functions" ++ String "/" ("v1" ++ String "/"
             ("events" ++ String "/" id))))%string.
  rewrite !split_slash_cons by reflexivity. reflexivity.
Qed.

Lemma handlers_see_v1 id :
  present (Events.getEventIdFromUrl ("/functions/v1/events/" ++ id))
  = Some "v1".
Proof.
  unfold Events.getEventIdFromUrl. rewrite prefixed_path_parts. reflexivity.
Qed.

Lemma normalize_prefixed id :
  Events.normalize ("/functions/v1/events/" ++ id) = ("/events/" ++ id)%string.
Proof. reflexivity. Qed.

Lemma not_base_route id :
  id <> "" ->
  String.eqb ("/events/" ++ id) "/events" || String.eqb ("/events/" ++ id) "/events/"
  = false.
Proof.
  intros Hne. apply String.eqb_neq in Hne. cbn. exact Hne.
Qed.

Ltac by_id :=
  unfold events_by_id; cbn [table filters single selecting maybeSingle where_
                            from app];
  let H := fresh in intro H; first [reflexivity | discriminate H].

Ltac id_walk :=
  unfold getAuthenticatedUser in *;
  repeat first [ exact I
               | apply every_call_try_catch
               | apply every_call_strip; intros
               | match goal with
                 | |- events_by_id _ _ /\ _ => split; [by_id|]
                 end
               | progress (unfold read_json, field, guarded; cbn [bind every_call])
               | break_match
               | intro ].

(** What is left of a prefixed event path is a path name itself. *)
Lemma reparse_event_path host_suffix id :
  Events.localhost_pathname host_suffix ("/events/" ++ id)
  = Some ("/events/" ++ id)%string.
Proof.
  unfold Events.localhost_pathname, JS.startsWith. cbn.
  destruct id; reflexivity.
Qed.

Lemma calls_try_catch {A} (p : Prog A) h w :
  calls (run (try_catch p h) w) = calls (run p w).
Proof.
  revert w. induction p as [r|m|token k IH|q k IH]; simpl; intros w;
    try reflexivity.
  - apply IH.
  - destruct (call w q) as [rep w']. simpl. f_equal. apply IH.
Qed.

(** X13.  Under the prefix [/functions/v1] the main handler of the
    events takes the event id from the path without the prefix,
    while the handlers it dispatches to take it from the path with
    the prefix, whose third segment is [v1].  So every store call on
    [events] made for a path [/functions/v1/events/:id] picks the row
    of id [v1], whatever [:id] is; and a GET by an authenticated
    caller does make that call first. *)
Theorem prefixed_event_paths_address_v1 :
  forall key host_suffix req id,
    pathname req = ("/functions/v1/events/" ++ id)%string ->
    id <> "" ->
    every_call (events_by_id "v1") (Events.serve key host_suffix req)
    /\ (forall a d u,
          no_slash id = true -> method req = "GET" -> caller a req u ->
          exists rep rest,
            calls (run (Events.serve key host_suffix req) (healthy a d))
            = (single (where_ (from AnonClient "events" (Select "*" false false))
                              (Eq "id" (VStr "v1"))), rep) :: rest).
Proof.
  intros key host_suffix req id Hpath Hne. split.
  - unfold Events.serve. cbv zeta. rewrite Hpath, normalize_prefixed.
    rewrite reparse_event_path.
    rewrite (not_base_route id Hne). unfold main_guard.
    apply every_call_try_catch.
    destruct (JS.startsWith ("/events/" ++ id) "/events/"
              && is_present (Events.getEventIdFromUrl ("/events/" ++ id)));
      [|exact I].
    unfold Events.handleGetEvent, Events.handleUpdateEvent,
           Events.handleDeleteEvent.
    rewrite Hpath, handlers_see_v1.
    destruct (String.eqb (method req) "GET"); [id_walk|].
    destruct (String.eqb (method req) "PUT"); [id_walk|].
    destruct (String.eqb (method req) "DELETE"); [id_walk|exact I].
  - intros a d u Hid Hget Hc.
    assert (Hserve : Events.serve key host_suffix req
                     = main_guard (Events.handleGetEvent req)).
    { unfold Events.serve. cbv zeta. rewrite Hpath, normalize_prefixed.
      rewrite reparse_event_path.
      rewrite (not_base_route id Hne).
      unfold Events.getEventIdFromUrl at 1.
      path2 "/events/" "events" id Hid.
      cbn [length Nat.leb nth_error]. unfold is_present.
      rewrite present_some by (apply String.eqb_neq; exact Hne).
      assert (Hstart : JS.startsWith ("/events/" ++ id) "/events/" = true)
        by (unfold JS.startsWith; cbn; destruct id; reflexivity).
      rewrite Hstart, Hget. reflexivity. }
    rewrite Hserve. unfold main_guard. rewrite calls_try_catch.
    unfold Events.handleGetEvent. rewrite (as_user a d req u _ Hc).
    unfold guarded. rewrite Hpath, handlers_see_v1. cbn [try_catch].
    rewrite run_read by reflexivity. cbv zeta. cbn [calls].
    eexists. eexists. reflexivity.
Qed.

Lemma prefixed_event_paths_address_v1_witness :
  exists rep rest,
    calls (run (Events.serve secret (fun _ => None) prefixed_event_request)
               (world []))
    = (single (where_ (from AnonClient "events" (Select "*" false false))
                      (Eq "id" (VStr "v1"))), rep) :: rest.
Proof.
  assert (Hne : "7" <> "") by discriminate.
  assert (Hc : caller provider prefixed_event_request bob).
  { exists "tok-bob". repeat split. }
  destruct (prefixed_event_paths_address_v1 secret (fun _ => None)
              prefixed_event_request "7" eq_refl Hne) as [_ Hcall].
  exact (Hcall provider database bob eq_refl eq_refl Hc).
Defined.

End Paths.

(* ================================================================== *)
(** * The merged list of groups                                       *)
(* ================================================================== *)

Section MergedGroups.
Import Json Http Supabase Store Props Sample.

Lemma map_set_in e k v m :
  In e (GroupSchedules.map_set k v m) -> e = (k, v) \/ In e m.
Proof.
  induction m as [|[k' v'] m IH]; simpl.
  - intros [<-|[]]. auto.
  - destruct (same_value_zero k k'); simpl.
    + intros [<-|H]; auto.
    + intros [<-|H]; auto. destruct (IH H); auto.
Qed.

Lemma map_set_has k v m : In (k, v) (GroupSchedules.map_set k v m).
Proof.
  induction m as [|[k' v'] m IH]; simpl; [auto|].
  destruct (same_value_zero k k'); simpl; auto.
Qed.

Lemma map_set_keeps k v k1 v1 m :
  In (k1, v1) m -> same_value_zero k k1 = false ->
  In (k1, v1) (GroupSchedules.map_set k v m).
Proof.
  intros Hin Hs. induction m as [|[k' v'] m IH]; simpl; [contradiction|].
  destruct Hin as [[= -> ->]|Hin].
  - rewrite Hs. left. reflexivity.
  - destruct (same_value_zero k k'); simpl; auto.
Qed.

Lemma map_set_covers k v k1 m :
  (exists v1, In (k1, v1) m) ->
  exists v1, In (k1, v1) (GroupSchedules.map_set k v m).
Proof.
  intros [v1 Hin]. destruct (same_value_zero k k1) eqn:Hs.
  - apply same_value_zero_eq in Hs. subst k1. exists v. apply map_set_has.
  - exists v1. apply map_set_keeps; assumption.
Qed.

Lemma map_set_length k v m :
  (length (GroupSchedules.map_set k v m) <= S (length m))%nat.
Proof.
  induction m as [|[k' v'] m IH]; simpl; [lia|].
  destruct (same_value_zero k k'); simpl; lia.
Qed.

Lemma fold_in es : forall acc e,
  In e (fold_left (fun m e => GroupSchedules.map_set (fst e) (snd e) m) es acc) -> In e es \/ In e acc.
Proof.
  induction es as [|[k v] es IH]; simpl; intros acc e H; [auto|].
  destruct (IH _ _ H) as [H1|H1]; [auto|].
  destruct (map_set_in _ _ _ _ H1); auto.
Qed.

Lemma fold_covers es : forall acc k,
  (exists v, In (k, v) es) \/ (exists v, In (k, v) acc) ->
  exists v, In (k, v) (fold_left (fun m e => GroupSchedules.map_set (fst e) (snd e) m) es acc).
Proof.
  induction es as [|[k' v'] es IH]; simpl; intros acc k H.
  - destruct H as [[v []]|H]. exact H.
  - apply IH. destruct H as [[v [[= -> ->]|H]]|H].
    + right. exists v. apply map_set_has.
    + left. exists v. exact H.
    + right. apply map_set_covers. exact H.
Qed.

Lemma fold_keeps es : forall acc k v,
  In (k, v) acc ->
  Forall (fun e => same_value_zero (fst e) k = false) es ->
  In (k, v) (fold_left (fun m e => GroupSchedules.map_set (fst e) (snd e) m) es acc).
Proof.
  induction es as [|[k' v'] es IH]; simpl; intros acc k v Hin Hes; [exact Hin|].
  inversion Hes as [|? ? Hk Hrest]; subst. apply IH; [|exact Hrest].
  apply map_set_keeps; assumption.
Qed.

Lemma fold_length es : forall acc,
  (length (fold_left (fun m e => GroupSchedules.map_set (fst e) (snd e) m) es acc) <= length es + length acc)%nat.
Proof.
  induction es as [|[k v] es IH]; simpl; intros acc; [lia|].
  specialize (IH (GroupSchedules.map_set k v acc)).
  pose proof (map_set_length k v acc). lia.
Qed.

Lemma traverse_ids groups ids :
  traverse (fun g => get_prop g "id") groups = Some ids ->
  combine ids groups = map (fun g => (column "id" g, g)) groups.
Proof.
  revert ids. induction groups as [|g groups IH]; simpl; intros ids.
  - intros [= <-]. reflexivity.
  - destruct (get_prop g "id") as [k|] eqn:Hk; [|discriminate].
    destruct (traverse _ groups) as [ks|]; [|discriminate].
    intros [= <-]. simpl. rewrite (IH ks eq_refl).
    rewrite (get_prop_column _ _ _ Hk). reflexivity.
Qed.

(** X14.  Merging loses no group: [uniqueGroups] is made of groups
    of the merged list, it holds a group under every id of the
    merged list, of two groups with the same id the later one is the
    one it holds, and it is no longer than the merged list. *)
Theorem merged_groups_keep_every_id :
  forall allGroups ids,
    traverse (fun g => get_prop g "id") allGroups = Some ids ->
    let unique := GroupSchedules.uniqueGroups allGroups ids in
    (forall g, In g unique -> In g allGroups)
    /\ (forall g, In g allGroups ->
                  exists g', In g' unique /\ column "id" g' = column "id" g)
    /\ (forall earlier g later,
          allGroups = earlier ++ g :: later ->
          Forall (fun g' => same_value_zero (column "id" g') (column "id" g)
                            = false) later ->
          In g unique)
    /\ (length unique <= length allGroups)%nat.
Proof.
  intros allGroups ids Ht. cbv zeta.
  pose proof (traverse_keyed _ _ Ht) as Hkeyed.
  destruct (new_Map_invariant _ Hkeyed) as [_ Hk].
  unfold GroupSchedules.uniqueGroups, GroupSchedules.Map_values,
         GroupSchedules.new_Map in *.
  rewrite (traverse_ids _ _ Ht) in *. clear Ht Hkeyed.
  split; [|split; [|split]].
  - intros g Hg. apply in_map_iff in Hg. destruct Hg as ([k g'] & <- & Hin).
    apply fold_in in Hin. destruct Hin as [Hin|[]].
    apply in_map_iff in Hin. destruct Hin as (g0 & [= <- <-] & Hin). exact Hin.
  - intros g Hg.
    destruct (fold_covers (map (fun g => (column "id" g, g)) allGroups) []
                (column "id" g)) as [g' Hin].
    { left. exists g. apply in_map_iff. exists g. auto. }
    exists g'. split.
    + apply in_map_iff. exists (column "id" g, g'). auto.
    + unfold keyed_by_id in Hk. rewrite Forall_forall in Hk.
      exact (Hk _ Hin).
  - intros earlier g later -> Hlater.
    rewrite map_app, fold_left_app. cbn [map fold_left fst snd].
    apply in_map_iff. exists (column "id" g, g). split; [reflexivity|].
    apply fold_keeps; [apply map_set_has|].
    rewrite Forall_map. exact Hlater.
  - rewrite length_map.
    pose proof (fold_length (map (fun g => (column "id" g, g)) allGroups) []).
    rewrite length_map in H. simpl in H. lia.
Qed.

Lemma merged_groups_keep_every_id_witness :
  let merged := [group1; group1_as_member; group5] in
  let unique := GroupSchedules.uniqueGroups merged [VNum 1; VNum 1; VNum 5] in
  In group1_as_member unique /\ In group5 unique /\ (length unique <= 3)%nat.
Proof.
  cbv zeta.
  destruct (merged_groups_keep_every_id [group1; group1_as_member; group5]
              [VNum 1; VNum 1; VNum 5] eq_refl) as (_ & _ & Hlast & Hlen).
  split; [|split; [|exact Hlen]].
  - apply (Hlast [group1] group1_as_member [group5] eq_refl).
    constructor; [reflexivity|constructor].
  - apply (Hlast [group1; group1_as_member] group5 [] eq_refl). constructor.
Defined.

(** ** The event filter *)

Lemma keep_filter e unique flags :
  traverse (GroupSchedules.event_matches e) unique = Some flags ->
  GroupSchedules.keep flags unique = filter (of_event e) unique.
Proof.
  unfold GroupSchedules.keep. revert flags.
  induction unique as [|g unique IH]; simpl; intros flags.
  - intros [= <-]. reflexivity.
  - destruct (GroupSchedules.event_matches e g) as [b|] eqn:Hb; [|discriminate].
    destruct (traverse _ unique) as [bs|]; [|discriminate].
    intros [= <-]. simpl.
    assert (Hof : of_event e g = b).
    { unfold GroupSchedules.event_matches, of_event in *.
      destruct (get_prop g "event_id") as [x|] eqn:Hx; [|discriminate].
      rewrite (get_prop_column _ _ _ Hx).
      destruct x; try discriminate; injection Hb as <-; reflexivity. }
    rewrite Hof, <- (IH bs eq_refl). destruct b; reflexivity.
Qed.

Lemma list_groups_play req a created member resp :
  play (GroupSchedules.handleListGroupSchedules req) a [created; member]
  = Some (Returned resp) ->
  status resp = 200%Z ->
  exists allGroups ids filtered,
    traverse (fun g => get_prop g "id") allGroups = Some ids
    /\ GroupSchedules.filter_by_event (param "event_id" (searchParams req))
         (GroupSchedules.uniqueGroups allGroups ids) = Some filtered
    /\ resp = GroupSchedules.page_response (page_of req) (pageSize_of "20" req)
                                           filtered.
Proof.
  intros Hplay Hstatus.
  unfold GroupSchedules.handleListGroupSchedules,
         GroupSchedules.respond_with_groups,
         getAuthenticatedUserAndToken in Hplay.
  open_prog.
  split_play Hplay;
    try discriminate Hplay;
    try (injection Hplay as <-; discriminate Hstatus).
  injection Hplay as <-.
  do 3 eexists. split; [eassumption|]. split; [eassumption|reflexivity].
Qed.

(** X15.  Every group that the list answers under [?event_id=e]
    belongs to event [e]: the text of its [event_id] is [e]. *)
Theorem listed_groups_belong_to_the_event :
  forall req a created member resp e,
    play (GroupSchedules.handleListGroupSchedules req) a [created; member]
    = Some (Returned resp) ->
    status resp = 200%Z ->
    present (param "event_id" (searchParams req)) = Some e ->
    exists groups,
      body_field "group_schedules" resp = VArr groups
      /\ Forall (fun g => to_string (column "event_id" g) = e) groups.
Proof.
  intros req a created member resp e Hplay Hstatus He.
  destruct (list_groups_play _ _ _ _ _ Hplay Hstatus)
    as (allGroups & ids & filtered & _ & Hf & ->).
  eexists. split; [reflexivity|].
  unfold GroupSchedules.filter_by_event in Hf. rewrite He in Hf.
  destruct (traverse (GroupSchedules.event_matches e) _) as [flags|] eqn:Hflags;
    [|discriminate].
  injection Hf as <-. rewrite (keep_filter _ _ _ Hflags).
  eapply sublist_Forall; [apply sublist_slice|].
  apply Forall_forall. intros g Hg. apply filter_In in Hg.
  destruct Hg as [_ Hg]. apply String.eqb_eq. exact Hg.
Qed.

Lemma listed_groups_belong_to_the_event_witness :
  exists groups,
    play (GroupSchedules.handleListGroupSchedules list_groups_of_event_request)
         (AuthReturns false (Some bob)) [created_by_bob; joined_by_bob]
    = Some (Returned list_groups_response)
    /\ body_field "group_schedules" list_groups_response = VArr groups
    /\ Forall (fun g => to_string (column "event_id" g) = "7") groups.
Proof.
  assert (Hplay : play (GroupSchedules.handleListGroupSchedules
                          list_groups_of_event_request)
                       (AuthReturns false (Some bob))
                       [created_by_bob; joined_by_bob]
                  = Some (Returned list_groups_response))
    by (vm_compute; reflexivity).
  destruct (listed_groups_belong_to_the_event _ _ _ _ _ "7" Hplay eq_refl eq_refl)
    as (groups & Hbody & Hall).
  exists groups. split; [exact Hplay|]. split; assumption.
Defined.

End MergedGroups.

(* ================================================================== *)
(** * Pages                                                           *)
(* ================================================================== *)

Section Pages.
Import Json Http Supabase Store Props Sample.

Lemma page_response_groups page pageSize groups :
  body_field "group_schedules"
             (GroupSchedules.page_response page pageSize groups)
  = VArr (JS.slice groups (startRange page pageSize)
                   (JS.num_add (endRange page pageSize) (Some 1%Z))).
Proof. reflexivity. Qed.

(** X16.  The page of the group list is cut to the list: for
    [page >= 1] and [pageSize >= 1] it holds [pageSize] groups, or
    those that are left from position [(page-1)*pageSize] on, none
    when the list ends before; the total reported is the length of
    the whole list. *)
Theorem group_page_is_cut_to_the_list :
  forall (groups : list value) page pageSize,
    (1 <= page)%Z -> (1 <= pageSize)%Z ->
    let resp := GroupSchedules.page_response (Some page) (Some pageSize) groups in
    let total := Z.of_nat (length groups) in
    exists listed,
      body_field "group_schedules" resp = VArr listed
      /\ Z.of_nat (length listed)
         = Z.min pageSize (Z.max 0 (total - (page - 1) * pageSize))
      /\ pagination_field "totalCount" resp = VNum total.
Proof.
  intros groups page pageSize Hp Hs. cbv zeta.
  exists (page_window page pageSize groups). split; [|split].
  - rewrite page_response_groups, slice_is_page_window by assumption.
    reflexivity.
  - unfold page_window. rewrite length_firstn, length_skipn.
    set (from := ((page - 1) * pageSize)%Z).
    assert (Hfrom : (0 <= from)%Z) by (unfold from; nia).
    lia.
  - reflexivity.
Qed.

Lemma group_page_is_cut_to_the_list_witness :
  exists listed,
    body_field "group_schedules"
               (GroupSchedules.page_response (Some 2%Z) (Some 2%Z)
                                             [group1; group5; group1])
    = VArr listed
    /\ length listed = 1%nat.
Proof.
  destruct (group_page_is_cut_to_the_list [group1; group5; group1] 2%Z 2%Z
              ltac:(lia) ltac:(lia)) as (listed & Hbody & Hlen & _).
  exists listed. split; [exact Hbody|].
  cbn in Hlen. lia.
Defined.




End Pages.

(* ================================================================== *)
(** * The list of events                                              *)
(* ================================================================== *)

Section ListedEvents.
Import Json Http Supabase Store Props Sample.

Lemma traverse_Forall2 {X Y} (f : X -> option Y) l l' :
  traverse f l = Some l' -> Forall2 (fun x y => f x = Some y) l l'.
Proof.
  revert l'. induction l as [|x l IH]; simpl; intros l'.
  - intros [= <-]. constructor.
  - destruct (f x) as [y|] eqn:Hy; [|discriminate].
    destruct (traverse f l) as [ys|]; [|discriminate].
    intros [= <-]. constructor; auto.
Qed.

Lemma lookup_flags k (keys : list value) : forall acc,
  lookup k (fold_left (fun acc e => assign (fst e) (snd e) acc)
                      (map (fun x => (to_string x, VBool true)) keys) acc)
  = if existsb (fun x => String.eqb (to_string x) k) keys
    then VBool true else lookup k acc.
Proof.
  induction keys as [|x keys IH]; simpl; intros acc; [reflexivity|].
  rewrite IH. destruct (existsb _ keys); [rewrite orb_true_r; reflexivity|].
  rewrite orb_false_r. destruct (String.eqb (to_string x) k) eqn:Hk.
  - apply String.eqb_eq in Hk. subst k. apply lookup_assign_same.
  - apply lookup_assign_other. rewrite String.eqb_sym. exact Hk.
Qed.

Lemma enrich_flagged keys event shown :
  Events.enrich (fromEntries (map (fun k => (to_string k, VBool true)) keys))
                event = Some shown ->
  flagged keys event shown.
Proof.
  unfold Events.enrich, flagged.
  destruct (get_prop event "id") as [id|] eqn:Hid; [|discriminate].
  intros [= <-]. split.
  - intros c Hc. apply String.eqb_neq in Hc. unfold column at 1. cbn [spread].
    apply lookup_assign_other. exact Hc.
  - intros n Hn. rewrite (get_prop_column _ _ _ Hid) in Hn. subst id.
    unfold column. cbn [spread]. rewrite lookup_assign_same.
    unfold fromEntries. rewrite lookup_flags. cbn [to_string lookup].
    unfold saved, one_of. destruct (existsb _ keys); reflexivity.
Qed.

(** X18.  The list of events shows the events the store listed, in
    their order, each with its own columns and the flag
    [has_user_event]: for an event whose id is a number the flag is
    [true] when one of the caller's saved events has that id, and
    [false] otherwise; the saved events are those of the reply of
    that look-up, none when it carries no data. *)
Theorem listed_events_carry_the_saved_flag :
  forall req a events saved_events resp,
    play (Events.handleListEvents req) a [events; saved_events]
    = Some (Returned resp) ->
    status resp = 200%Z ->
    exists listed user_events keys shown,
      data events = VArr listed
      /\ one_of (data saved_events) (VArr []) = VArr user_events
      /\ traverse (fun ue => get_prop ue "event_id") user_events = Some keys
      /\ body resp = VArr shown
      /\ Forall2 (flagged keys) listed shown.
Proof.
  intros req a events saved_events resp Hplay Hstatus.
  unfold Events.handleListEvents, getAuthenticatedUser in Hplay.
  revert Hplay. generalize (Events.list_events_query req). intros q Hplay.
  open_prog.
  split_play Hplay;
    try discriminate Hplay;
    try (injection Hplay as <-; discriminate Hstatus).
  injection Hplay as <-.
  match goal with
  | H2 : traverse (fun ue => get_prop ue "event_id") ?ues = Some ?keys,
    H4 : traverse (Events.enrich _) ?evs = Some ?shown |- _ =>
      exists evs, ues, keys, shown;
      split; [reflexivity|]; split; [reflexivity|]; split; [exact H2|];
      split; [reflexivity|];
      apply traverse_Forall2 in H4
  end.
  match goal with
  | H : Forall2 _ ?l ?l' |- _ =>
      eapply Forall2_impl; [|exact H]
  end.
  intros event shown Hshown. apply enrich_flagged, Hshown.
Qed.

Lemma listed_events_carry_the_saved_flag_witness :
  exists shown,
    play (Events.handleListEvents list_events_request)
         (AuthReturns false (Some bob)) [listed_events; saved_by_bob]
    = Some (Returned (ok (VArr shown)))
    /\ map (column "has_user_event") shown = [VBool false; VBool true].
Proof.
  assert (Hplay : play (Events.handleListEvents list_events_request)
                       (AuthReturns false (Some bob))
                       [listed_events; saved_by_bob]
                  = Some (Returned
                            (ok (VArr [VObj [("id", VNum 7);
                                             ("name", VStr "Summer Festival");
                                             ("has_user_event", VBool false)];
                                       VObj [("id", VNum 8);
                                             ("name", VStr "Winter Festival");
                                             ("has_user_event", VBool true)]]))))
    by (vm_compute; reflexivity).
  destruct (listed_events_carry_the_saved_flag _ _ _ _ _ Hplay eq_refl)
    as (listed & ues & keys & shown & _ & _ & _ & Hbody & _).
  exists shown. cbn [body ok] in Hbody. injection Hbody as <-.
  split; [exact Hplay|]. reflexivity.
Defined.

End ListedEvents.

(* ================================================================== *)
(** * The schedule of an event                                        *)
(* ================================================================== *)

Section Schedule.
Import Json Http Supabase Store Props Sample.









Lemma answer_many d c t cols fs :
  answer d (where_ (from c t (Select cols false false)) fs)
  = no_error (VArr (filter (selected [fs]) (rows_of t (tables d)))) VNull.
Proof. reflexivity. Qed.

(** X20.  With the store answering, the schedule of an event that
    has no stages is the empty list: the handler looks up the event
    and its stages and asks for no set times. *)
Theorem schedule_of_an_event_without_stages :
  forall a d req u eventId event,
    caller a req u ->
    present (SetTimes.getEventIdFromUrl (pathname req)) = Some eventId ->
    rows_with_id d "events" (VStr eventId) = [event] ->
    filter (selected [Eq "event_id" (VStr eventId)]) (rows_of "stages" (tables d))
    = [] ->
    let r := run (SetTimes.handleListSetTimes req) (healthy a d) in
    response r = Some (ok (VArr []))
    /\ map (fun c => table (fst c)) (calls r) = ["events"; "stages"]
    /\ after r = healthy a d.
Proof.
  intros a d req u eventId event Hc Hid Hev Hnone. cbv zeta.
  unfold SetTimes.handleListSetTimes.
  rewrite (as_user a d req u _ Hc). unfold guarded. rewrite Hid.
  cbn [try_catch]. rewrite run_read by reflexivity. cbv zeta.
  rewrite answer_exists_query. unfold rows_with_id in Hev.
  destruct (found _ _ _ Hev) as [-> _]. cbn [try_catch].
  rewrite run_read by reflexivity. cbv zeta.
  rewrite answer_many, Hnone. cbn. repeat split.
Qed.

Lemma schedule_of_an_event_without_stages_witness :
  response (run (SetTimes.handleListSetTimes schedule_request) (world []))
  = Some (ok (VArr [])).
Proof.
  assert (Hc : caller provider schedule_request bob).
  { exists "tok-bob". repeat split. }
  assert (Hid : present (SetTimes.getEventIdFromUrl (pathname schedule_request))
                = Some "7") by (vm_compute; reflexivity).
  assert (Hev : rows_with_id database "events" (VStr "7")
                = [VObj [("id", VNum 7); ("name", VStr "Summer Festival")]])
    by (vm_compute; reflexivity).
  assert (Hnone : filter (selected [Eq "event_id" (VStr "7")])
                         (rows_of "stages" (tables database)) = [])
    by (vm_compute; reflexivity).
  exact (proj1 (schedule_of_an_event_without_stages provider database
                  schedule_request bob "7" _ Hc Hid Hev Hnone)).
Defined.

End Schedule.

(* ================================================================== *)
(** * From a set time to its event                                    *)
(* ================================================================== *)

Section SetTimeWalk.
Import Json Http Supabase Store Props Sample.

(** X21.  With the store answering, the delete of a set time that
    the store holds walks from the set time to its stage and from the
    stage to its event before it writes: a stage that is not there is
    answered 500 "Error retrieving stage information", an event that
    is not there 401, and in both cases the store is left as it was;
    otherwise the set time is deleted, and nothing else. *)
Theorem set_time_delete_walks_to_the_event :
  forall a d req u setTimeId setTime,
    caller a req u ->
    present (SetTimes.getSetTimeIdFromUrl (pathname req)) = Some setTimeId ->
    rows_with_id d "set_times" (VStr setTimeId) = [setTime] ->
    let r := run (SetTimes.handleDeleteSetTime req) (healthy a d) in
    let stages := rows_with_id d "stages" (column "stage_id" setTime) in
    (stages = [] ->
     response r
     = Some (serverErrorResponse (Some "Error retrieving stage information"))
     /\ after r = healthy a d)
    /\ (forall stage,
          stages = [stage] ->
          rows_with_id d "events" (column "event_id" stage) = [] ->
          response r = Some unauthorizedResponse /\ after r = healthy a d)
    /\ (forall stage event,
          stages = [stage] ->
          rows_with_id d "events" (column "event_id" stage) = [event] ->
          response r = Some (ok success)
          /\ rows_after r "set_times" = rows_without d "set_times" (VStr setTimeId)
          /\ forall t, t <> "set_times" -> rows_after r t = rows_of t (tables d)).
Proof.
  intros a d req u setTimeId setTime Hc Hid Hrow. cbv zeta.
  unfold SetTimes.handleDeleteSetTime, SetTimes.set_time_query,
         SetTimes.through_stage, SetTimes.stage_event_query.
  rewrite (as_user a d req u _ Hc). unfold guarded. rewrite Hid.
  cbn [try_catch]. rewrite run_read by reflexivity. cbv zeta.
  rewrite answer_exists_query. unfold rows_with_id in *.
  destruct (found _ _ _ Hrow) as [-> ->]. unfold field.
  rewrite (truthy_get_prop _ _ (found_truthy _ _ _ Hrow)).
  cbn [try_catch]. rewrite run_read by reflexivity. cbv zeta.
  rewrite answer_exists_query.
  split; [|split].
  - intros Hnone. rewrite (not_found _ _ Hnone). cbn. split; reflexivity.
  - intros stage Hstage Hnone.
    destruct (found _ _ _ Hstage) as [-> ->].
    rewrite (truthy_get_prop _ _ (found_truthy _ _ _ Hstage)).
    cbn [try_catch]. rewrite run_read by reflexivity. cbv zeta.
    rewrite answer_exists_query, (not_found _ _ Hnone). cbn.
    split; reflexivity.
  - intros stage event Hstage Hevent.
    destruct (found _ _ _ Hstage) as [-> ->].
    rewrite (truthy_get_prop _ _ (found_truthy _ _ _ Hstage)).
    cbn [try_catch]. rewrite run_read by reflexivity. cbv zeta.
    rewrite answer_exists_query.
    destruct (found _ _ _ Hevent) as [-> _].
    cbn [try_catch run]. unfold call. cbn [faults healthy db auth tl].
    unfold rows_after, rows_without. cbn.
    split; [reflexivity|]. split; [apply rows_of_set_rows_same|].
    intros t Ht. apply rows_of_set_rows_other. apply String.eqb_neq. exact Ht.
Qed.

Lemma set_time_delete_walks_to_the_event_witness :
  response (run (SetTimes.handleDeleteSetTime (delete_set_time_request "40"))
                (healthy provider dangling))
  = Some (serverErrorResponse (Some "Error retrieving stage information"))
  /\ rows_after (run (SetTimes.handleDeleteSetTime (delete_set_time_request "40"))
                     (healthy provider timetable)) "set_times" = [].
Proof.
  assert (Hc : caller provider (delete_set_time_request "40") alice).
  { exists "tok-alice". repeat split. }
  assert (Hid : present (SetTimes.getSetTimeIdFromUrl
                           (pathname (delete_set_time_request "40")))
                = Some "40") by (vm_compute; reflexivity).
  split.
  - assert (Hrow : rows_with_id dangling "set_times" (VStr "40")
                   = [VObj [("id", VNum 40); ("artist_id", VNum 10);
                            ("stage_id", VNum 30)]])
      by (vm_compute; reflexivity).
    destruct (set_time_delete_walks_to_the_event provider dangling
                (delete_set_time_request "40") alice "40" _ Hc Hid Hrow)
      as (Hgone & _).
    apply Hgone. vm_compute. reflexivity.
  - assert (Hrow : rows_with_id timetable "set_times" (VStr "40")
                   = [VObj [("id", VNum 40); ("artist_id", VNum 10);
                            ("stage_id", VNum 30)]])
      by (vm_compute; reflexivity).
    destruct (set_time_delete_walks_to_the_event provider timetable
                (delete_set_time_request "40") alice "40" _ Hc Hid Hrow)
      as (_ & _ & Hdel).
    destruct (Hdel (VObj [("id", VNum 30); ("name", VStr "Main");
                          ("event_id", VNum 7)])
                   (VObj [("id", VNum 7); ("name", VStr "Summer Festival")]))
      as (_ & Hrows & _).
    + vm_compute. reflexivity.
    + vm_compute. reflexivity.
    + rewrite Hrows. vm_compute. reflexivity.
Defined.

End SetTimeWalk.

(* ================================================================== *)
(** * A group and its members                                         *)
(* ================================================================== *)

Section GroupAndMembers.
Import Json Http Supabase Store Props Sample.

(** The look-up of a membership by group and user: no row, or the
    one row. *)
Lemma membership_lookup d c groupId u :
  unique_on ["group_id"; "user_id"] (rows_of "group_members" (tables d)) ->
  exists rep,
    answer d (maybeSingle
                (where_ (where_ (from c "group_members"
                                      (Select "*" false false))
                                (Eq "group_id" (VStr groupId)))
                        (Eq "user_id" (VStr (user_id u)))))
    = rep
    /\ error rep = None
    /\ truthy (data rep) = is_member d groupId u.
Proof.
  intros Hu. unfold maybeSingle, where_, from. simpl. rewrite answer_select.
  destruct (filter_at_most_one (agree_on ["group_id"; "user_id"])
              (selected [Eq "group_id" (VStr groupId);
                         Eq "user_id" (VStr (user_id u))]) _ Hu)
    as [Hnone|(row & Hone & Hrow)].
  - intros x y Hx Hy. rewrite selected_two in Hx, Hy.
    apply andb_prop in Hx. apply andb_prop in Hy.
    unfold agree_on. simpl. rewrite andb_true_r.
    apply andb_true_intro. split.
    + eapply having_same; [apply Hx|apply Hy].
    + eapply having_same; [apply Hx|apply Hy].
  - rewrite Hnone. eexists. split; [reflexivity|]. split; [reflexivity|].
    simpl. symmetry. unfold is_member.
    destruct (existsb _ _) eqn:He; [|reflexivity].
    exfalso. eapply filter_some; [|exact He|exact Hnone].
    intros r. apply selected_two.
  - rewrite Hone. eexists. split; [reflexivity|]. split; [reflexivity|].
    simpl. rewrite selected_two in Hrow. apply andb_prop in Hrow.
    rewrite (having_truthy _ _ _ (proj1 Hrow)). symmetry.
    unfold is_member.
    destruct (existsb _ _) eqn:He; [reflexivity|]. exfalso.
    rewrite (filter_none _ (selected [Eq "group_id" (VStr groupId);
                                      Eq "user_id" (VStr (user_id u))]) _
                         (fun r => selected_two r _ _ _ _) He) in Hone.
    discriminate.
Qed.

(** X22.  With the store answering and its keys in force, a GET of
    a group that the store holds, by its creator or by one of its
    members, is answered 200 with the columns of the group and,
    under [members], the membership rows of the group, all of them;
    the store is left as it was. *)
Theorem accessible_group_is_shown_with_its_members :
  forall w req u token groupId group,
    authenticates w req u token ->
    GroupSchedules.getGroupIdFromUrl (pathname req) = Some groupId ->
    faults w = [] ->
    group_keys_hold (db w) ->
    rows_with_id (db w) "group_schedules" (VStr groupId) = [group] ->
    is_creator (db w) groupId u || is_member (db w) groupId u = true ->
    let r := run (GroupSchedules.handleGetGroupSchedule req) w in
    response r
    = Some (ok (VObj (assign "members" (VArr (members_of (db w) groupId))
                             (spread group))))
    /\ db (after r) = db w.
Proof.
  intros [a d f] req u token groupId group (Hb & Hne & Ha) Hid Hf [Hk1 Hk2]
         Hgroup Haccess.
  cbn [auth db faults] in *. subst f. apply String.eqb_neq in Hne.
  fold (healthy a d). cbv zeta.
  unfold GroupSchedules.handleGetGroupSchedule, getAuthenticatedUserAndToken.
  rewrite Hb, Hne. unfold guarded. cbn [bind try_catch]. rewrite run_user.
  cbn [auth healthy]. rewrite Ha, Hid. cbn [bind try_catch].
  destruct (creator_lookup d (AuthClient token) "*" groupId u Hk1)
    as (rep & Hrep & Herr & Htruthy).
  rewrite run_read by reflexivity. cbv zeta. rewrite Hrep, Herr, Htruthy.
  unfold rows_with_id in Hgroup.
  assert (Hfetch :
    let r := run
      (try_catch
         (Ask (single (where_ (from (AuthClient token) "group_schedules"
                 (Select "*, events:event_id (id, name, date_start, date_end, venue, city, country, image_url)"
                         false false))
                 (Eq "id" (VStr groupId))))
              (fun g =>
                 match error g with
                 | Some e => Ret (serverErrorResponse (message e))
                 | None =>
                     Ask (where_ (from (AuthClient token) "group_members"
                            (Select "id, user_id, is_admin, status, joined_at, created_at"
                                    false false))
                            (Eq "group_id" (VStr groupId)))
                         (fun members =>
                            match error members with
                            | Some e => Ret (serverErrorResponse (message e))
                            | None =>
                                Ret (ok (VObj (assign "members" (data members)
                                                      (spread (data g)))))
                            end)
                 end))
         (fun m => serverErrorResponse (Some m)))
      (healthy a d) in
    response r
    = Some (ok (VObj (assign "members" (VArr (members_of d groupId))
                             (spread group))))
    /\ db (after r) = d).
  { cbv zeta. cbn [try_catch]. rewrite run_read by reflexivity. cbv zeta.
    unfold single, where_, from. cbn [client table action returning filters
      order range cardinality app]. rewrite answer_select, Hgroup.
    cbn [shape error no_error data try_catch].
    rewrite run_read by reflexivity. cbv zeta. rewrite answer_select.
    cbn. split; reflexivity. }
  cbv zeta in Hfetch.
  destruct (is_creator d groupId u).
  - cbn [negb andb try_catch]. exact Hfetch.
  - cbn [negb orb] in Haccess. cbn [negb try_catch].
    destruct (membership_lookup d (AuthClient token) groupId u Hk2)
      as (rep2 & Hrep2 & Herr2 & Htruthy2).
    rewrite run_read by reflexivity. cbv zeta.
    rewrite Hrep2, Herr2, Htruthy2, Haccess.
    cbn [negb andb try_catch].
    destruct Hfetch as [Hresp Hdb].
    split.
    + unfold response. cbn [outcome]. exact Hresp.
    + cbn [after]. exact Hdb.
Qed.

Lemma accessible_group_is_shown_with_its_members_witness :
  exists shown,
    response (run (GroupSchedules.handleGetGroupSchedule get_group_request)
                  (world []))
    = Some (ok shown)
    /\ column "members" shown = VArr (members_of database "1")
    /\ length (members_of database "1") = 2%nat.
Proof.
  assert (Hauth : authenticates (world []) get_group_request carol "tok-carol").
  { split; [reflexivity|]. split; [discriminate|reflexivity]. }
  assert (Hid : GroupSchedules.getGroupIdFromUrl (pathname get_group_request)
                = Some "1") by (vm_compute; reflexivity).
  assert (Hkeys : group_keys_hold (db (world []))).
  { split.
    - apply FOP_cons; [apply Forall_nil|apply FOP_nil].
    - apply FOP_cons.
      + apply Forall_cons; [vm_compute; reflexivity|apply Forall_nil].
      + apply FOP_cons; [apply Forall_nil|apply FOP_nil]. }
  assert (Hgroup : rows_with_id (db (world [])) "group_schedules" (VStr "1")
                   = [group1]) by (vm_compute; reflexivity).
  assert (Haccess : is_creator (db (world [])) "1" carol
                    || is_member (db (world [])) "1" carol = true)
    by (vm_compute; reflexivity).
  destruct (accessible_group_is_shown_with_its_members (world [])
              get_group_request carol "tok-carol" "1" group1
              Hauth Hid eq_refl Hkeys Hgroup Haccess) as [Hresp _].
  eexists. split; [exact Hresp|]. split; reflexivity.
Defined.

End GroupAndMembers.

(* ================================================================== *)
(** * Requests about what is not there                                *)
(* ================================================================== *)

Section NotThere.
Import Json Http Supabase Store Props Sample.

Lemma strip_fields {A} fields k (cont : value -> Prog A) :
  strip (VObj fields) k cont
  = cont (VObj (if truthy (lookup k fields) then remove k fields else fields)).
Proof.
  unfold strip, field. simpl. destruct (truthy (lookup k fields)); reflexivity.
Qed.

(** X23.  With the store answering, an update of what the store
    does not hold is answered 404 after the one look-up, for an
    artist, a stage and a set time; no write is issued and the store
    is left as it was. *)
Theorem updating_what_is_not_there :
  forall a d req u id fields,
    caller a req u ->
    json req = BodyJson (VObj fields) ->
    (Artists.getArtistIdFromUrl (pathname req) = Some id ->
     rows_with_id d "artists" (VStr id) = [] ->
     let r := run (Artists.handleUpdateArtist req) (healthy a d) in
     response r = Some (notFoundResponse "Artist not found")
     /\ map (fun c => is_write (fst c)) (calls r) = [false]
     /\ after r = healthy a d)
    /\ (present (Stages.getStageIdFromUrl (pathname req)) = Some id ->
        rows_with_id d "stages" (VStr id) = [] ->
        let r := run (Stages.handleUpdateStage req) (healthy a d) in
        response r = Some (notFoundResponse "Stage not found")
        /\ map (fun c => is_write (fst c)) (calls r) = [false]
        /\ after r = healthy a d)
    /\ (present (SetTimes.getSetTimeIdFromUrl (pathname req)) = Some id ->
        rows_with_id d "set_times" (VStr id) = [] ->
        let r := run (SetTimes.handleUpdateSetTime req) (healthy a d) in
        response r = Some (notFoundResponse "Set time not found")
        /\ map (fun c => is_write (fst c)) (calls r) = [false]
        /\ after r = healthy a d).
Proof.
  intros a d req u id fields Hc Hjson.
  split; [|split]; intros Hid Hnone; cbv zeta; unfold rows_with_id in Hnone.
  - unfold Artists.handleUpdateArtist.
    rewrite (as_user a d req u _ Hc). unfold guarded, read_json.
    rewrite Hid, Hjson, strip_fields. cbn [try_catch].
    rewrite run_read by reflexivity. cbv zeta.
    rewrite answer_artist_query, Hnone. cbn. repeat split.
  - unfold Stages.handleUpdateStage, Stages.stage_query.
    rewrite (as_user a d req u _ Hc). unfold guarded, read_json.
    rewrite Hid, Hjson, !strip_fields. cbn [try_catch].
    rewrite run_read by reflexivity. cbv zeta.
    rewrite answer_exists_query, (not_found _ _ Hnone). cbn. repeat split.
  - unfold SetTimes.handleUpdateSetTime, SetTimes.set_time_query.
    rewrite (as_user a d req u _ Hc). unfold guarded, read_json.
    rewrite Hid, Hjson, strip_fields. cbn [try_catch].
    rewrite run_read by reflexivity. cbv zeta.
    rewrite answer_exists_query, (not_found _ _ Hnone). cbn. repeat split.
Qed.

Lemma updating_what_is_not_there_witness :
  let r := run (Artists.handleUpdateArtist rename_absent_artist_request)
               (world []) in
  response r = Some (notFoundResponse "Artist not found")
  /\ after r = world [].
Proof.
  cbv zeta.
  assert (Hc : caller provider rename_absent_artist_request alice).
  { exists "tok-alice". repeat split. }
  assert (Hid : Artists.getArtistIdFromUrl
                  (pathname rename_absent_artist_request) = Some "12")
    by (vm_compute; reflexivity).
  assert (Hnone : rows_with_id database "artists" (VStr "12") = [])
    by (vm_compute; reflexivity).
  destruct (updating_what_is_not_there provider database
              rename_absent_artist_request alice "12" _ Hc eq_refl)
    as (Hartist & _).
  destruct (Hartist Hid Hnone) as (Hresp & _ & Hafter).
  split; assumption.
Defined.

(** X24.  With the store answering, a set time is not moved to a
    stage that is not there: when the body of the update names a
    [stage_id] that is truthy and not strictly equal to the stage of
    the set time, and the store holds no such stage, the answer is
    404 "New stage not found", no write is issued and the store is
    left as it was. *)
Theorem set_time_is_not_moved_to_a_missing_stage :
  forall a d req u setTimeId fields setTime,
    caller a req u ->
    present (SetTimes.getSetTimeIdFromUrl (pathname req)) = Some setTimeId ->
    json req = BodyJson (VObj fields) ->
    rows_with_id d "set_times" (VStr setTimeId) = [setTime] ->
    SetTimes.moves_stage (lookup "stage_id" fields) (column "stage_id" setTime)
    = true ->
    rows_with_id d "stages" (lookup "stage_id" fields) = [] ->
    let r := run (SetTimes.handleUpdateSetTime req) (healthy a d) in
    response r = Some (notFoundResponse "New stage not found")
    /\ map (fun c => is_write (fst c)) (calls r) = [false; false]
    /\ after r = healthy a d.
Proof.
  intros a d req u setTimeId fields setTime Hc Hid Hjson Hrow Hmoves Hnone.
  cbv zeta. unfold rows_with_id in *.
  unfold SetTimes.handleUpdateSetTime, SetTimes.set_time_query,
         Stages.stage_query.
  rewrite (as_user a d req u _ Hc). unfold guarded, read_json.
  rewrite Hid, Hjson, strip_fields. cbn [try_catch].
  rewrite run_read by reflexivity. cbv zeta.
  rewrite answer_exists_query.
  destruct (found _ _ _ Hrow) as [-> ->]. unfold field. cbn [get_prop].
  assert (Hstage : lookup "stage_id"
                     (if truthy (lookup "id" fields)
                      then remove "id" fields else fields)
                   = lookup "stage_id" fields).
  { destruct (truthy (lookup "id" fields)); [|reflexivity].
    apply lookup_remove_other. reflexivity. }
  rewrite Hstage.
  rewrite (truthy_get_prop _ _ (found_truthy _ _ _ Hrow)), Hmoves.
  cbn [try_catch]. rewrite run_read by reflexivity. cbv zeta.
  rewrite answer_exists_query, (not_found _ _ Hnone). cbn. repeat split.
Qed.

Lemma set_time_is_not_moved_to_a_missing_stage_witness :
  let r := run (SetTimes.handleUpdateSetTime move_set_time_request)
               (healthy provider timetable) in
  response r = Some (notFoundResponse "New stage not found")
  /\ after r = healthy provider timetable.
Proof.
  cbv zeta.
  assert (Hc : caller provider move_set_time_request alice).
  { exists "tok-alice". repeat split. }
  assert (Hid : present (SetTimes.getSetTimeIdFromUrl
                           (pathname move_set_time_request)) = Some "40")
    by (vm_compute; reflexivity).
  assert (Hrow : rows_with_id timetable "set_times" (VStr "40")
                 = [VObj [("id", VNum 40); ("artist_id", VNum 10);
                          ("stage_id", VNum 30)]])
    by (vm_compute; reflexivity).
  assert (Hnone : rows_with_id timetable "stages" (VNum 31) = [])
    by (vm_compute; reflexivity).
  destruct (set_time_is_not_moved_to_a_missing_stage provider timetable
              move_set_time_request alice "40" _ _
              Hc Hid eq_refl Hrow eq_refl Hnone)
    as (Hresp & _ & Hafter).
  split; assumption.
Defined.

(** X25.  With the store answering, what is asked under an event
    that the store does not hold is answered 404 "Event not found or
    access denied" after the look-up of the event: its lineup, its
    stages and its schedule; the store is left as it was. *)
Theorem lists_of_an_event_that_is_not_there :
  forall a d req u eventId,
    caller a req u ->
    rows_with_id d "events" (VStr eventId) = [] ->
    (present (Lineups.getEventIdFromUrl (pathname req)) = Some eventId ->
     let r := run (Lineups.handleListLineup req) (healthy a d) in
     response r = Some (notFoundResponse "Event not found or access denied")
     /\ map (fun c => table (fst c)) (calls r) = ["events"]
     /\ after r = healthy a d)
    /\ (present (Stages.getEventIdFromUrl (pathname req)) = Some eventId ->
        let r := run (Stages.handleListStages req) (healthy a d) in
        response r = Some (notFoundResponse "Event not found or access denied")
        /\ map (fun c => table (fst c)) (calls r) = ["events"]
        /\ after r = healthy a d)
    /\ (present (SetTimes.getEventIdFromUrl (pathname req)) = Some eventId ->
        let r := run (SetTimes.handleListSetTimes req) (healthy a d) in
        response r = Some (notFoundResponse "Event not found or access denied")
        /\ map (fun c => table (fst c)) (calls r) = ["events"]
        /\ after r = healthy a d).
Proof.
  intros a d req u eventId Hc Hnone. unfold rows_with_id in Hnone.
  split; [|split]; intros Hid; cbv zeta.
  - unfold Lineups.handleListLineup.
    rewrite (as_user a d req u _ Hc). unfold guarded. rewrite Hid.
    cbn [try_catch]. rewrite run_read by reflexivity. cbv zeta.
    rewrite answer_exists_query, (not_found _ _ Hnone). cbn. repeat split.
  - unfold Stages.handleListStages.
    rewrite (as_user a d req u _ Hc). unfold guarded. rewrite Hid.
    cbn [try_catch]. rewrite run_read by reflexivity. cbv zeta.
    rewrite answer_exists_query, (not_found _ _ Hnone). cbn. repeat split.
  - unfold SetTimes.handleListSetTimes.
    rewrite (as_user a d req u _ Hc). unfold guarded. rewrite Hid.
    cbn [try_catch]. rewrite run_read by reflexivity. cbv zeta.
    rewrite answer_exists_query, (not_found _ _ Hnone). cbn. repeat split.
Qed.

Lemma lists_of_an_event_that_is_not_there_witness :
  response (run (Lineups.handleListLineup lineup_of_absent_event_request)
                (world []))
  = Some (notFoundResponse "Event not found or access denied").
Proof.
  assert (Hc : caller provider lineup_of_absent_event_request bob).
  { exists "tok-bob". repeat split. }
  assert (Hnone : rows_with_id database "events" (VStr "8") = [])
    by (vm_compute; reflexivity).
  assert (Hid : present (Lineups.getEventIdFromUrl
                           (pathname lineup_of_absent_event_request))
                = Some "8") by (vm_compute; reflexivity).
  destruct (lists_of_an_event_that_is_not_there provider database
              lineup_of_absent_event_request bob "8" Hc Hnone)
    as (Hlineup & _).
  exact (proj1 (Hlineup Hid)).
Defined.

End NotThere.

(* ================================================================== *)
(** * One event                                                       *)
(* ================================================================== *)

Section OneEvent.
Import Json Http Supabase Store Props Sample.

Lemma rows_of_set_rows_id t t' ts :
  rows_of t (set_rows t' (rows_of t' ts) ts) = rows_of t ts.
Proof.
  destruct (String.eqb t t') eqn:Ht.
  - apply String.eqb_eq in Ht. subst t'. apply rows_of_set_rows_same.
  - apply rows_of_set_rows_other. exact Ht.
Qed.

Lemma untouched {X} (p : X -> bool) (f : X -> X) rows :
  filter p rows = [] ->
  map (fun r => if p r then f r else r) rows = rows
  /\ filter (fun r => negb (p r)) rows = rows.
Proof.
  induction rows as [|r rows IH]; simpl; [auto|].
  destruct (p r); [discriminate|]. intros H. destruct (IH H) as [-> ->].
  auto.
Qed.

(** X26.  With the store answering, an event that the store does
    not hold is treated in three ways: a GET and a PUT are answered
    500 with the message of the store for a [single()] that found no
    row, not 404, and a DELETE is answered 200; in each case every
    table holds the rows it held. *)
Theorem event_that_is_not_there :
  forall key a d req eventId,
    present (Events.getEventIdFromUrl (pathname req)) = Some eventId ->
    rows_with_id d "events" (VStr eventId) = [] ->
    (forall u,
        caller a req u ->
        let r := run (Events.handleGetEvent req) (healthy a d) in
        response r = Some (serverErrorResponse (message not_one_row))
        /\ after r = healthy a d)
    /\ (forall fields,
          verifyApiKey key req = true ->
          json req = BodyJson (VObj fields) ->
          let r := run (Events.handleUpdateEvent key req) (healthy a d) in
          response r = Some (serverErrorResponse (message not_one_row))
          /\ forall t, rows_after r t = rows_of t (tables d))
    /\ (verifyApiKey key req = true ->
        let r := run (Events.handleDeleteEvent key req) (healthy a d) in
        response r = Some (ok success)
        /\ forall t, rows_after r t = rows_of t (tables d)).
Proof.
  intros key a d req eventId Hid Hnone. unfold rows_with_id in Hnone.
  split; [|split].
  - intros u Hc. cbv zeta. unfold Events.handleGetEvent.
    rewrite (as_user a d req u _ Hc). unfold guarded. rewrite Hid.
    cbn [try_catch]. rewrite run_read by reflexivity. cbv zeta.
    change (single (where_ (from AnonClient "events" (Select "*" false false))
                           (Eq "id" (VStr eventId))))
      with (exists_query "events" "*" (VStr eventId)).
    rewrite answer_exists_query, Hnone.
    cbn. split; reflexivity.
  - intros fields Hkey Hjson. cbv zeta. unfold Events.handleUpdateEvent.
    rewrite Hkey. cbn [negb]. unfold guarded, read_json.
    rewrite Hid, Hjson, !strip_fields. cbn [try_catch run].
    unfold call. cbn [faults healthy db auth tl]. unfold exec.
    cbn [action table filters returning cardinality single selecting where_
         from app].
    rewrite Hnone.
    destruct (untouched (selected [Eq "id" (VStr eventId)])
                (patch (VObj
                   (if truthy (lookup "created_by"
                                 (if truthy (lookup "id" fields)
                                  then remove "id" fields else fields))
                    then remove "created_by"
                           (if truthy (lookup "id" fields)
                            then remove "id" fields else fields)
                    else if truthy (lookup "id" fields)
                         then remove "id" fields else fields)))
                _ Hnone) as [-> _].
    cbn. split; [reflexivity|]. intros t. unfold rows_after. cbn.
    apply rows_of_set_rows_id.
  - intros Hkey. cbv zeta. unfold Events.handleDeleteEvent.
    rewrite Hkey. cbn [negb]. unfold guarded. rewrite Hid.
    cbn [try_catch run]. unfold call. cbn [faults healthy db auth tl].
    unfold exec.
    cbn [action table filters returning cardinality where_ from app].
    destruct (untouched (selected [Eq "id" (VStr eventId)]) (fun r => r)
                _ Hnone) as [_ ->].
    cbn. split; [reflexivity|]. intros t. unfold rows_after. cbn.
    apply rows_of_set_rows_id.
Qed.

Lemma event_that_is_not_there_witness :
  option_map status
    (response (run (Events.handleGetEvent (get_event_request "8")) (world [])))
  = Some 500%Z
  /\ response (run (Events.handleDeleteEvent secret (delete_event_request "8"))
                   (world []))
     = Some (ok success).
Proof.
  assert (Hc : caller provider (get_event_request "8") bob).
  { exists "tok-bob". repeat split. }
  assert (Hnone : rows_with_id database "events" (VStr "8") = [])
    by (vm_compute; reflexivity).
  split.
  - assert (Hid : present (Events.getEventIdFromUrl
                             (pathname (get_event_request "8"))) = Some "8")
      by (vm_compute; reflexivity).
    destruct (event_that_is_not_there secret provider database
                (get_event_request "8") "8" Hid Hnone) as (Hget & _).
    destruct (Hget bob Hc) as [Hresp _].
    change (world []) with (healthy provider database). rewrite Hresp.
    reflexivity.
  - assert (Hid : present (Events.getEventIdFromUrl
                             (pathname (delete_event_request "8"))) = Some "8")
      by (vm_compute; reflexivity).
    destruct (event_that_is_not_there secret provider database
                (delete_event_request "8") "8" Hid Hnone) as (_ & _ & Hdel).
    exact (proj1 (Hdel eq_refl)).
Defined.

(** X27.  With the store answering, a GET of an event that the
    store holds is answered 200 with the columns of the event and
    the flag [has_user_event], [true] when the store holds the one
    row of [user_events] that ties the caller to the event and
    [false] when it holds none; the store is left as it was. *)
Theorem event_is_shown_with_the_saved_flag :
  forall a d req u eventId event,
    caller a req u ->
    present (Events.getEventIdFromUrl (pathname req)) = Some eventId ->
    rows_with_id d "events" (VStr eventId) = [event] ->
    let r := run (Events.handleGetEvent req) (healthy a d) in
    let shown flag := ok (VObj (assign "has_user_event" (VBool flag)
                                       (spread event))) in
    (saved_rows d eventId u = [] -> response r = Some (shown false))
    /\ (forall row, saved_rows d eventId u = [row] ->
                    response r = Some (shown true))
    /\ after r = healthy a d.
Proof.
  intros a d req u eventId event Hc Hid Hev. cbv zeta.
  unfold rows_with_id, saved_rows in *.
  unfold Events.handleGetEvent.
  rewrite (as_user a d req u _ Hc). unfold guarded. rewrite Hid.
  cbn [try_catch]. rewrite run_read by reflexivity. cbv zeta.
  change (single (where_ (from AnonClient "events" (Select "*" false false))
                         (Eq "id" (VStr eventId))))
    with (exists_query "events" "*" (VStr eventId)).
  rewrite answer_exists_query, Hev.
  cbn [shape error data no_error]. rewrite (found_truthy _ _ _ Hev).
  cbn [negb try_catch]. rewrite run_read by reflexivity. cbv zeta.
  unfold maybeSingle, where_, from.
  cbn [client table action returning filters order range cardinality app].
  rewrite answer_select.
  split; [|split].
  - intros ->. reflexivity.
  - intros row Hrow. rewrite Hrow. cbn [shape data no_error].
    assert (Ht : truthy row = true).
    { assert (Hin : In row (filter (selected [Eq "event_id" (VStr eventId);
                                              Eq "user_id" (VStr (user_id u))])
                                   (rows_of "user_events" (tables d))))
        by (rewrite Hrow; left; reflexivity).
      apply filter_In in Hin. destruct Hin as [_ Hsel].
      rewrite selected_two in Hsel. apply andb_prop in Hsel.
      eapply having_truthy. apply Hsel. }
    cbn [run response outcome]. rewrite Ht. reflexivity.
  - destruct (shape MaybeSingle _ VNull); reflexivity.
Qed.

Lemma event_is_shown_with_the_saved_flag_witness :
  response (run (Events.handleGetEvent (get_event_request "7"))
                (healthy provider with_saved_event))
  = Some (ok (VObj [("id", VNum 7); ("name", VStr "Summer Festival");
                    ("has_user_event", VBool true)])).
Proof.
  assert (Hc : caller provider (get_event_request "7") bob).
  { exists "tok-bob". repeat split. }
  assert (Hid : present (Events.getEventIdFromUrl
                           (pathname (get_event_request "7"))) = Some "7")
    by (vm_compute; reflexivity).
  assert (Hev : rows_with_id with_saved_event "events" (VStr "7")
                = [VObj [("id", VNum 7); ("name", VStr "Summer Festival")]])
    by (vm_compute; reflexivity).
  destruct (event_is_shown_with_the_saved_flag provider with_saved_event
              (get_event_request "7") bob "7" _ Hc Hid Hev)
    as (_ & Hsaved & _).
  apply (Hsaved (VObj [("id", VNum 50); ("event_id", VNum 7);
                       ("user_id", VStr "bob")])).
  vm_compute. reflexivity.
Defined.

End OneEvent.
